(** * shopify-tailwind: the installer scripts, embedded and verified

    The repository holds three variants of one Node.js command-line script
    that adds Tailwind CSS to a Shopify theme:

    - [src/index.js]           the first variant        (module [Index]);
    - [src/unnamed/part_001]   adds the ignore files     (module [Pinned]);
    - [src/unnamed/part_000]   asks for a version first  (modules [Prompted]
                               and [Versioned]).

    The scripts are straight-line file I/O.  They are embedded as functions in
    a small state-and-exit monad over a file store, with the JavaScript string
    primitives they call ([indexOf], [includes], [slice], [trim]) written out
    on sequences of UTF-16 code units. *)

From stdpp Require Import gmap strings list.
From Stdlib Require Import ZArith NArith Ascii Lia.
From Stdlib Require Import Floats.SpecFloat.

Local Open Scope Z_scope.

(** ** JavaScript strings *)

(** A JavaScript string is a sequence of 16-bit code units.  Code units are
    kept as [N]; nothing below depends on the upper bound. *)
Abbreviation text := (list N).

(** A source literal (ASCII only) as a JavaScript string. *)
Definition lit (s : string) : text :=
  (fun c => N_of_ascii c) <$> String.list_ascii_of_string s.

Definition nl : text := [10%N].      (* line feed, from the template literals *)
Definition dq : text := [34%N].      (* the double quote character *)

(** [s.startsWith(p)], the test behind every substring search. *)
Fixpoint starts_with (p s : text) : bool :=
  match p, s with
  | [], _ => true
  | _ :: _, [] => false
  | a :: p', b :: s' => (a =? b)%N && starts_with p' s'
  end.

(** [s.indexOf(needle)] scanning from position [i]: the least position at
    which [needle] starts, or [-1]. *)
Fixpoint indexOf_from (needle s : text) (i : Z) : Z :=
  if starts_with needle s then i
  else match s with
       | [] => -1
       | _ :: s' => indexOf_from needle s' (i + 1)
       end.

Definition indexOf (s needle : text) : Z := indexOf_from needle s 0.

(** [s.includes(needle)]. *)
Definition includes (s needle : text) : bool :=
  negb (indexOf s needle =? -1).

(** How a relative index of [slice] is resolved against the length:
    negative indices count from the end, everything is clamped. *)
Definition slice_index (len k : Z) : Z :=
  if k <? 0 then Z.max (len + k) 0 else Z.min k len.

(** [s.slice(from, to)]. *)
Definition slice (s : text) (from to : Z) : text :=
  let len := Z.of_nat (length s) in
  let a := slice_index len from in
  let b := slice_index len to in
  take (Z.to_nat (b - a)) (drop (Z.to_nat a) s).

(** [s.slice(from)]. *)
Definition slice_from (s : text) (from : Z) : text :=
  slice s from (Z.of_nat (length s)).

(** Number of positions of [s] at which [needle] starts (occurrences may
    overlap).  Not a function of the scripts: the measure in which the
    properties on duplicates are stated. *)
Fixpoint occurrences (needle s : text) : nat :=
  (if starts_with needle s then 1 else 0)%nat +
  match s with
  | [] => 0%nat
  | _ :: s' => occurrences needle s'
  end.

(** [lacks n c]: the character [c] does not occur in [n]. *)
Definition lacks (n : text) (c : N) : bool :=
  forallb (fun a => negb (a =? c)%N) n.

(** The code units that [String.prototype.trim] strips: WhiteSpace and
    LineTerminator of ECMA-262. *)
Definition is_js_space (c : N) : bool :=
  ((c =? 9) || (c =? 10) || (c =? 11) || (c =? 12) || (c =? 13) || (c =? 32)
   || (c =? 160) || (c =? 5760) || ((8192 <=? c) && (c <=? 8202))
   || (c =? 8232) || (c =? 8233) || (c =? 8239) || (c =? 8287)
   || (c =? 12288) || (c =? 65279))%N.

Fixpoint trim_start (s : text) : text :=
  match s with
  | c :: s' => if is_js_space c then trim_start s' else s
  | [] => []
  end.

(** [s.trim()]. *)
Definition trim (s : text) : text :=
  reverse (trim_start (reverse (trim_start s))).

(** The two halves of a character outside the Basic Multilingual Plane. *)
Definition is_high (c : N) : bool := ((55296 <=? c) && (c <=? 56319))%N.
Definition is_low (c : N) : bool := ((56320 <=? c) && (c <=? 57343))%N.

(** U+FFFD, the replacement character. *)
Definition replacement : N := 65533%N.

(** The string that the [utf8] decoding hands back once a string has been
    written with the [utf8] encoding, as [fs.writeFileSync] and
    [fs.appendFileSync] write it: a high surrogate followed by a low one is
    one character and is kept; any other surrogate is written as U+FFFD.
    This is [String.prototype.toWellFormed]. *)
Fixpoint toWellFormed (s : text) : text :=
  match s with
  | [] => []
  | a :: s' =>
      if is_high a then
        match s' with
        | b :: s'' =>
            if is_low b then a :: b :: toWellFormed s''
            else replacement :: toWellFormed s'
        | [] => [replacement]
        end
      else if is_low a then replacement :: toWellFormed s'
      else a :: toWellFormed s'
  end.

(** ** JSON documents *)

Set Warnings "-register-all".

(** What [JSON.parse] returns.  Object members are kept in order.  A
    number is a double: a literal beyond the range parses to an infinity,
    and [-0] to the negative zero. *)
Inductive json : Type :=
| JNull
| JBool (b : bool)
| JNum (x : spec_float)
| JStr (s : text)
| JArr (elems : list json)
| JObj (members : list (text * json)).

(** The member stored under key [k], if any. *)
Fixpoint assoc (k : text) (ms : list (text * json)) : option json :=
  match ms with
  | [] => None
  | (k', v) :: ms' => if decide (k = k') then Some v else assoc k ms'
  end.

(** Setting key [k]: an existing member keeps its place, a new one goes
    last. *)
Fixpoint upsert (k : text) (v : json) (ms : list (text * json))
  : list (text * json) :=
  match ms with
  | [] => [(k, v)]
  | (k', v') :: ms' =>
      if decide (k = k') then (k, v) :: ms' else (k', v') :: upsert k v ms'
  end.

(** [v.k] for a value [v] other than [null]; [None] is [undefined].  For
    the two keys the scripts read ([scripts], [tailwind]) strings, numbers,
    booleans and arrays have no such property. *)
Definition get_member (v : json) (k : text) : option json :=
  match v with
  | JObj ms => assoc k ms
  | _ => None
  end.

(** The document that [v] serialises to after [v.k = x].  An object takes
    the member.  An array takes the property too, but [JSON.stringify]
    writes the elements only.  The scripts are not strict-mode code, so on a
    string, number or boolean the assignment is silently dropped. *)
Definition set_member (v : json) (k : text) (x : json) : json :=
  match v with
  | JObj ms => JObj (upsert k x ms)
  | _ => v
  end.

(** JavaScript truthiness of a value that may be [undefined]. *)
Definition truthy (v : option json) : bool :=
  match v with
  | None | Some JNull => false
  | Some (JBool b) => b
  | Some (JNum (S754_zero _)) | Some (JNum S754_nan) => false
  | Some (JNum _) => true
  | Some (JStr s) => negb (bool_decide (s = []))
  | Some (JArr _) | Some (JObj _) => true
  end.

(** [JSON.parse(JSON.stringify(v))]: what is read back of a document once
    it has been written.  [JSON.stringify] writes an infinity (and a NaN) as
    [null] and the negative zero as [0]; every other number is written with
    the digits that identify it, and strings, with their escapes, read back
    as they were. *)
Fixpoint reparsed (v : json) : json :=
  match v with
  | JNum (S754_infinity _) | JNum S754_nan => JNull
  | JNum (S754_zero _) => JNum (S754_zero false)
  | JArr elems => JArr (List.map reparsed elems)
  | JObj members =>
      JObj (List.map (fun m => let '(k, x) := m in (k, reparsed x)) members)
  | _ => v
  end.

(** ** The project directory *)

(** [package.json] is kept as what [JSON.parse] makes of its text: a
    document, or nothing when the text is not JSON. *)
Inductive manifest : Type :=
| Malformed
| Doc (doc : json).

(** The files of the working directory: the text files by path, as the
    strings the [utf8] decoding hands to the script, and the manifest. *)
Record dir : Type := Dir {
  texts : gmap string text;
  package_json : option manifest
}.

(** One constructor for each line the scripts print. *)
Inductive message : Type :=
| NodeMissing | NotShopify | InitialisingNpm | NpmInitFailed
| Installing | InstallFailed | GeneratingConfig | ConfigCreated
| StylesCreated | StylesExists | ScriptAdded | ScriptExists
| LinkAdded | LinkExists | ThemeMissing
| CreatingIgnore (path : string) | IgnoreCreated (path : string)
| IgnoreExists (path : string)
| UpdatingIgnore (path : string) | IgnoreUpdated (path : string)
| Installed | HintBuild | HintInclude
| AskVersion | InvalidVersion.

(** What a run of the script can see and change: the directory and the
    lines printed so far. *)
Record state : Type := State {
  cwd : dir;
  printed : list message
}.

(** The machine the script runs on: whether [node] is on the path, and what
    an external command line does to the directory, with its exit code. *)
Record host : Type := Host {
  node_on_path : bool;
  run_command : string -> dir -> Z * dir
}.

(** ** The effects of a script *)

Inductive error : Type :=
| ENOENT        (* reading a file that does not exist *)
| SyntaxError   (* JSON.parse on text that is not JSON *)
| TypeError.    (* a property of null or undefined *)

(** A computation ends by returning, by [shell.exit], or by an exception
    that nothing catches. *)
Inductive result (A : Type) : Type :=
| Ret (a : A) (s : state)
| Exit (code : Z) (s : state)
| Throw (e : error) (s : state).
Arguments Ret {A} a s.
Arguments Exit {A} code s.
Arguments Throw {A} e s.

Definition M (A : Type) : Type := state -> result A.

Definition ret {A} (a : A) : M A := fun s => Ret a s.

(** Sequencing: an exit or an exception ends the whole computation. *)
Definition bind {A B} (m : M A) (f : A -> M B) : M B :=
  fun s =>
    match m s with
    | Ret a s' => f a s'
    | Exit c s' => Exit c s'
    | Throw e s' => Throw e s'
    end.

Notation "'do' x <- m ; k" := (bind m (fun x => k))
  (at level 10, x name, m at level 100, k at level 200,
   format "'[v' 'do'  x  <-  m ; '/' k ']'").
Notation "m ;; k" := (bind m (fun _ => k))
  (at level 100, k at level 200, right associativity).

(** The state in which a computation stops, however it stops. *)
Definition final {A} (r : result A) : state :=
  match r with
  | Ret _ s | Exit _ s | Throw _ s => s
  end.

(** The process exit status: [shell.exit(c)] gives [c], an uncaught
    exception gives 1, running to the end gives 0. *)
Definition status {A} (r : result A) : Z :=
  match r with
  | Ret _ _ => 0
  | Exit c _ => c
  | Throw _ _ => 1
  end.

Definition manifestPath : string := "package.json".

(** [shell.echo]. *)
Definition echo (m : message) : M unit :=
  fun s => Ret tt (State (cwd s) (printed s ++ [m])).

(** [shell.exit]. *)
Definition exit {A} (code : Z) : M A := fun s => Exit code s.

Definition throw {A} (e : error) : M A := fun s => Throw e s.

(** [fs.existsSync]. *)
Definition existsSync (path : string) : M bool :=
  fun s =>
    Ret (if decide (path = manifestPath)
         then bool_decide (is_Some (package_json (cwd s)))
         else bool_decide (is_Some (texts (cwd s) !! path))) s.

(** [fs.readFileSync(path, "utf8")] of a text file. *)
Definition readFileSync (path : string) : M text :=
  fun s =>
    match texts (cwd s) !! path with
    | Some t => Ret t s
    | None => Throw ENOENT s
    end.

(** [fs.writeFileSync] of a text file: the string is written in the
    [utf8] encoding, so the file holds [toWellFormed data]. *)
Definition writeFileSync (path : string) (data : text) : M unit :=
  fun s =>
    Ret tt (State (Dir (<[path := toWellFormed data]> (texts (cwd s)))
                       (package_json (cwd s)))
                  (printed s)).

(** [fs.appendFileSync]: the encoded string is put after what the file
    holds, and the file is created when it is not there. *)
Definition appendFileSync (path : string) (data : text) : M unit :=
  fun s =>
    let old := default [] (texts (cwd s) !! path) in
    Ret tt (State (Dir (<[path := old ++ toWellFormed data]> (texts (cwd s)))
                       (package_json (cwd s)))
                  (printed s)).

(** [JSON.parse(fs.readFileSync("package.json", "utf8"))]. *)
Definition readManifest : M json :=
  fun s =>
    match package_json (cwd s) with
    | None => Throw ENOENT s
    | Some Malformed => Throw SyntaxError s
    | Some (Doc v) => Ret v s
    end.

(** [fs.writeFileSync("package.json", JSON.stringify(doc, null, 2))]: the
    file then parses to [reparsed doc]. *)
Definition writeManifest (doc : json) : M unit :=
  fun s =>
    Ret tt (State (Dir (texts (cwd s)) (Some (Doc (reparsed doc)))) (printed s)).

(** [shell.exec(cmd).code]. *)
Definition exec (h : host) (cmd : string) : M Z :=
  fun s =>
    let '(code, d) := run_command h cmd (cwd s) in
    Ret code (State d (printed s)).

(** ** Text the scripts write *)

Definition themeLiquidPath : string := "layout/theme.liquid".
Definition configFilePath : string := "tailwind.config.js".
Definition stylesPath : string := "tailwind-config.css".
Definition gitIgnorePath : string := ".gitignore".
Definition shopifyIgnorePath : string := ".shopifyignore".

(** The stylesheet reference whose presence [addTailwindToThemeLiquid]
    tests. *)
Definition linkFragment : text :=
  lit "{{ 'tailwind.css' | asset_url | stylesheet_tag }}".

(** The anchor searched for in the template. *)
Definition headEnd : text := lit "</head>".

(** [src/index.js], lines 22-24: the reference in double quotes, on a line
    of its own. *)
Definition linkTag_index : text :=
  nl ++ lit "  " ++ dq ++ linkFragment ++ dq ++ nl ++ lit "      ".

(** [src/unnamed/part_001], lines 22-24: the reference on a line of its
    own. *)
Definition linkTag_pinned : text :=
  nl ++ lit "        " ++ linkFragment ++ nl ++ lit "      ".

(** One entry of the [content] array of the generated configuration. *)
Definition glob_line (g : string) : text :=
  lit "    " ++ dq ++ lit g ++ dq ++ lit "," ++ nl.

(** One entry of the [screens] table. *)
Definition screen_line (name px : string) : text :=
  lit "      " ++ lit name ++ lit ": " ++ dq ++ lit px ++ dq ++ lit "," ++ nl.

(** The template written to [tailwind.config.js]. *)
Definition customConfig : text :=
  nl ++
  lit "/** @type {import('tailwindcss').Config} */" ++ nl ++
  lit "module.exports = {" ++ nl ++
  lit "  content: [" ++ nl ++
  glob_line "*.html" ++
  glob_line "./layout/*.liquid" ++
  glob_line "./sections/*.liquid" ++
  glob_line "./snippets/*.liquid" ++
  glob_line "./assets/*.js" ++
  glob_line "./tailwind-config.css" ++
  lit "  ]," ++ nl ++
  lit "  theme: {" ++ nl ++
  lit "    screens: {" ++ nl ++
  screen_line "sm" "550px" ++
  screen_line "md" "750px" ++
  screen_line "lg" "990px" ++
  lit "    }," ++ nl ++
  lit "  }," ++ nl ++
  lit "  corePlugins: {" ++ nl ++
  lit "    preflight: false," ++ nl ++
  lit "  }," ++ nl ++
  lit "  prefix: " ++ dq ++ lit "tw-" ++ dq ++ lit "," ++ nl ++
  lit "};" ++ nl ++
  lit "  ".

(** The template written to [tailwind-config.css]. *)
Definition stylesTemplate : text :=
  nl ++
  lit "@tailwind base;" ++ nl ++
  lit "@tailwind components;" ++ nl ++
  lit "@tailwind utilities;" ++ nl ++
  lit "    ".

(** The command stored under [scripts.tailwind]. *)
Definition buildCommand : text :=
  lit "npx tailwindcss -i ./tailwind-config.css -o ./assets/tailwind.css --watch".

(** A block of ignore entries as the template literals have it: a leading
    line break, one entry per line, and the indentation of the closing
    backquote. *)
Definition ignore_block (entries : list text) : text :=
  nl ++ concat ((fun e => e ++ nl) <$> entries) ++ lit "      ".

Definition gitIgnoreLines : list text :=
  [lit ".DS_Store"; lit "node_modules"; lit "package-lock.json"; lit ".env";
   lit "/.idea"].

Definition shopifyIgnoreLines : list text :=
  [lit "package.json"; lit "package-lock.json"; lit "tailwind.config.js";
   lit "tailwind-config.css"; lit "html-ref.html"].

(** ** The installer

    [isShopifyProject], [addTailwindToThemeLiquid] and [installTailwindCSS]
    are the same functions in [src/index.js] and [src/unnamed/part_001] but
    for three places: the text inserted into the template, the command line
    of the dependency install, and the two ignore files that only the second
    variant reconciles after patching the template.  They are written once
    over these three, and instantiated in the modules [Index] and [Pinned]. *)

Module Installer.
Section Variant.

Variable h : host.
Variable linkTag : text.
Variable installCommand : string.
Variable ignoreFiles : M unit.

(** [path.join("layout", "theme.liquid")] is [themeLiquidPath]. *)
Definition isShopifyProject : M bool :=
  existsSync themeLiquidPath.

Definition addTailwindToThemeLiquid : M unit :=
  do present <- existsSync themeLiquidPath;
  if present then
    do themeLiquid <- readFileSync themeLiquidPath;
    if negb (includes themeLiquid linkFragment) then
      let headEndIndex := indexOf themeLiquid headEnd in
      let themeLiquid' :=
        slice themeLiquid 0 headEndIndex ++ linkTag
          ++ slice_from themeLiquid headEndIndex in
      writeFileSync themeLiquidPath themeLiquid';;
      echo LinkAdded
    else echo LinkExists
  else echo ThemeMissing.

(** Lines 117-128 of [installTailwindCSS] in [src/index.js] (202-213 in
    [part_001]): the build script is added unless [scripts.tailwind] is
    there and truthy.  Reading [packageJson.scripts] throws on [null];
    on a string, number or boolean the assignment to
    [packageJson.scripts] is dropped and the next line throws. *)
Definition addBuildScript : M unit :=
  do packageJson <- readManifest;
  match packageJson with
  | JNull => throw TypeError
  | _ =>
      let scripts := get_member packageJson (lit "scripts") in
      let tailwind :=
        match scripts with
        | Some o => get_member o (lit "tailwind")
        | None => None
        end in
      if negb (truthy scripts) || negb (truthy tailwind) then
        let scripts' :=
          match scripts with
          | Some o => if truthy scripts then o else JObj []
          | None => JObj []
          end in
        match packageJson with
        | JObj _ | JArr _ =>
            writeManifest
              (set_member packageJson (lit "scripts")
                 (set_member scripts' (lit "tailwind") (JStr buildCommand)));;
            echo ScriptAdded
        | _ => throw TypeError
        end
      else echo ScriptExists
  end.

Definition installTailwindCSS : M unit :=
  (if negb (node_on_path h) then echo NodeMissing;; exit 1 else ret tt);;
  do shopify <- isShopifyProject;
  (if negb shopify then echo NotShopify;; exit 1 else ret tt);;
  do hasManifest <- existsSync manifestPath;
  (if negb hasManifest then
     echo InitialisingNpm;;
     do code <- exec h "npm init -y";
     if negb (code =? 0) then echo NpmInitFailed;; exit 1 else ret tt
   else ret tt);;
  echo Installing;;
  do code <- exec h installCommand;
  (if negb (code =? 0) then echo InstallFailed;; exit 1 else ret tt);;
  echo GeneratingConfig;;
  writeFileSync configFilePath customConfig;;
  echo ConfigCreated;;
  do hasStyles <- existsSync stylesPath;
  (if negb hasStyles then
     writeFileSync stylesPath stylesTemplate;;
     echo StylesCreated
   else echo StylesExists);;
  addBuildScript;;
  addTailwindToThemeLiquid;;
  ignoreFiles;;
  echo Installed;;
  echo HintBuild;;
  echo HintInclude.

(** [installTailwindCSS] cut in two, for the proofs: the checks and the
    external commands, then the files.  [install_phases] below shows that
    the two in sequence are the function above. *)
Definition prelude : M unit :=
  (if negb (node_on_path h) then echo NodeMissing;; exit 1 else ret tt);;
  do shopify <- isShopifyProject;
  (if negb shopify then echo NotShopify;; exit 1 else ret tt);;
  do hasManifest <- existsSync manifestPath;
  (if negb hasManifest then
     echo InitialisingNpm;;
     do code <- exec h "npm init -y";
     if negb (code =? 0) then echo NpmInitFailed;; exit 1 else ret tt
   else ret tt);;
  echo Installing;;
  do code <- exec h installCommand;
  (if negb (code =? 0) then echo InstallFailed;; exit 1 else ret tt).

Definition configure : M unit :=
  echo GeneratingConfig;;
  writeFileSync configFilePath customConfig;;
  echo ConfigCreated;;
  do hasStyles <- existsSync stylesPath;
  (if negb hasStyles then
     writeFileSync stylesPath stylesTemplate;;
     echo StylesCreated
   else echo StylesExists);;
  addBuildScript;;
  addTailwindToThemeLiquid;;
  ignoreFiles;;
  echo Installed;;
  echo HintBuild;;
  echo HintInclude.

End Variant.
End Installer.

(** *** [src/index.js] *)
Module Index.

Definition isShopifyProject : M bool := Installer.isShopifyProject.

Definition addTailwindToThemeLiquid : M unit :=
  Installer.addTailwindToThemeLiquid linkTag_index.

Definition installTailwindCSS (h : host) : M unit :=
  Installer.installTailwindCSS h linkTag_index
    "npm install -D tailwindcss postcss autoprefixer" (ret tt).

End Index.

(** *** [src/unnamed/part_001] *)
Module Pinned.

Definition isShopifyProject : M bool := Installer.isShopifyProject.

Definition addTailwindToThemeLiquid : M unit :=
  Installer.addTailwindToThemeLiquid linkTag_pinned.

(** The ignore-file routine that [createGitIgnore] and
    [createShopifyIgnore] both follow, over the path, the block written
    and the entries looked for. *)
Definition reconcile (path : string) (block : text) (required : list text)
  : M unit :=
  do present <- existsSync path;
  (if negb present then
     echo (CreatingIgnore path);;
     writeFileSync path block;;
     echo (IgnoreCreated path)
   else echo (IgnoreExists path));;
  do content <- readFileSync path;
  if existsb (fun entry => negb (includes content entry)) required then
    echo (UpdatingIgnore path);;
    appendFileSync path block;;
    echo (IgnoreUpdated path)
  else ret tt.

Definition createGitIgnore : M unit :=
  do present <- existsSync gitIgnorePath;
  (if negb present then
     echo (CreatingIgnore gitIgnorePath);;
     writeFileSync gitIgnorePath (ignore_block gitIgnoreLines);;
     echo (IgnoreCreated gitIgnorePath)
   else echo (IgnoreExists gitIgnorePath));;
  do gitIgnoreContent <- readFileSync gitIgnorePath;
  if negb (includes gitIgnoreContent (lit ".DS_Store"))
     || negb (includes gitIgnoreContent (lit "node_modules"))
     || negb (includes gitIgnoreContent (lit "package-lock.json"))
     || negb (includes gitIgnoreContent (lit ".env"))
     || negb (includes gitIgnoreContent (lit "/.idea"))
  then
    echo (UpdatingIgnore gitIgnorePath);;
    appendFileSync gitIgnorePath (ignore_block gitIgnoreLines);;
    echo (IgnoreUpdated gitIgnorePath)
  else ret tt.

Definition createShopifyIgnore : M unit :=
  do present <- existsSync shopifyIgnorePath;
  (if negb present then
     echo (CreatingIgnore shopifyIgnorePath);;
     writeFileSync shopifyIgnorePath (ignore_block shopifyIgnoreLines);;
     echo (IgnoreCreated shopifyIgnorePath)
   else echo (IgnoreExists shopifyIgnorePath));;
  do shopifyIgnoreContent <- readFileSync shopifyIgnorePath;
  if negb (includes shopifyIgnoreContent (lit "package.json"))
     || negb (includes shopifyIgnoreContent (lit "package-lock.json"))
     || negb (includes shopifyIgnoreContent (lit "tailwind.config.js"))
     || negb (includes shopifyIgnoreContent (lit "tailwind-config.css"))
     || negb (includes shopifyIgnoreContent (lit "html-ref.html"))
  then
    echo (UpdatingIgnore shopifyIgnorePath);;
    appendFileSync shopifyIgnorePath (ignore_block shopifyIgnoreLines);;
    echo (IgnoreUpdated shopifyIgnorePath)
  else ret tt.

Definition installTailwindCSS (h : host) : M unit :=
  Installer.installTailwindCSS h linkTag_pinned
    "npm install -D tailwindcss@3.4.15 postcss autoprefixer"
    (createGitIgnore;; createShopifyIgnore).

End Pinned.

(** *** [src/unnamed/part_000]: the version prompt *)
Module Prompted.

(** How a call of [promptForVersion] ends on the lines typed so far: the
    promise resolves with a value, leaving the rest of the input, or the
    input runs out and the promise stays pending. *)
Inductive prompted : Type :=
| Resolved (version : text) (rest : list text)
| Pending.

(** [promptForVersion] against the lines read from standard input.  Each
    call prints the question; the callback runs on the next line. *)
Fixpoint promptForVersion (answers : list text) : list message * prompted :=
  match answers with
  | [] => ([AskVersion], Pending)
  | answer :: rest =>
      let version := trim answer in
      if bool_decide (version = lit "3") || bool_decide (version = lit "4")
      then ([AskVersion], Resolved version rest)
      else
        let '(out, r) := promptForVersion rest in
        (AskVersion :: InvalidVersion :: out, r)
  end.

End Prompted.

(** *** [src/unnamed/part_000]: the installer behind the prompt

    The third variant prints lines of its own, asks for a version, and in
    its version 4 branch tests and creates the directory [assets].  Its
    functions run in a monad of their own, over the directory, the
    existence of [assets], and the lines printed; what it shares with the
    other variants is run through [lift].  [isShopifyProject],
    [createGitIgnore], [createShopifyIgnore] and the checks of
    [installTailwindCSS] have the text they have in [part_001]. *)
Module Versioned.

(** The lines of [part_000]: those the other variants print too, and its
    own. *)
Inductive line : Type :=
| Shared (m : message)
| LinkAddedFor (version : text) | LinkExistsFor (version : text)
| InstallingV3 | InstallV3Failed | GeneratingV3Config | InstalledV3
| InstallingV4 | InstallV4Failed | InstalledV4 | ShopifyIgnoreUpdated
| AssetsConfigCreated | ScriptAddedV4.

Inductive failure : Type :=
| Js (e : error)
| EEXIST        (* creating a directory where something exists *)
| ENOTDIR.      (* writing below a path that is a regular file *)

(** The directory, whether the directory [assets] exists in it, and the
    lines printed. *)
Record world : Type := World {
  here : dir;
  assets : bool;
  shown : list line
}.

(** A computation returns, exits (by [shell.exit], or because nothing is
    left for the process to do), throws, or is left waiting for a line of
    input. *)
Inductive outcome (A : Type) : Type :=
| Done (a : A) (w : world)
| Exited (code : Z) (w : world)
| Thrown (e : failure) (w : world)
| Waiting (w : world).
Arguments Done {A} a w.
Arguments Exited {A} code w.
Arguments Thrown {A} e w.
Arguments Waiting {A} w.

Definition P (A : Type) : Type := world -> outcome A.

Definition pure {A} (a : A) : P A := fun w => Done a w.

Definition andThen {A B} (m : P A) (f : A -> P B) : P B :=
  fun w =>
    match m w with
    | Done a w' => f a w'
    | Exited c w' => Exited c w'
    | Thrown e w' => Thrown e w'
    | Waiting w' => Waiting w'
    end.

Notation "'let*' x := m 'in' k" := (andThen m (fun x => k))
  (at level 10, x name, m at level 100, k at level 200,
   format "'[v' 'let*'  x  :=  m  'in' '/' k ']'").
Notation "m >> k" := (andThen m (fun _ => k))
  (at level 100, k at level 200, right associativity).

(** The world in which a computation stops. *)
Definition last {A} (r : outcome A) : world :=
  match r with
  | Done _ w | Exited _ w | Thrown _ w | Waiting w => w
  end.

(** A computation of the other variants, run on the directory: its lines
    are printed after those shown so far. *)
Definition lift {A} (m : M A) : P A :=
  fun w =>
    let after s := World (cwd s) (assets w) (shown w ++ (Shared <$> printed s)) in
    match m (State (here w) []) with
    | Ret a s => Done a (after s)
    | Exit c s => Exited c (after s)
    | Throw e s => Thrown (Js e) (after s)
    end.

Definition echo (l : line) : P unit :=
  fun w => Done tt (World (here w) (assets w) (shown w ++ [l])).

(** The lines of the prompt, which the other variants' type of lines
    holds. *)
Definition say (ms : list message) : P unit :=
  fun w => Done tt (World (here w) (assets w) (shown w ++ (Shared <$> ms))).

Definition exit {A} (code : Z) : P A := fun w => Exited code w.

Definition throw {A} (e : failure) : P A := fun w => Thrown e w.

(** The promise of the prompt stays pending.  While standard input is
    open the process waits for a line.  When standard input has ended (a
    pipe that ran out, end of file typed at the terminal) the interface of
    [readline] closes, nothing is left to run, and the process exits with
    status 0. *)
Definition wait {A} (ended : bool) : P A :=
  fun w => if ended then Exited 0 w else Waiting w.

Definition assetsPath : string := "assets".

(** [fs.existsSync]: true of [assets] also when it is a directory. *)
Definition existsSync (path : string) : P bool :=
  if decide (path = assetsPath) then
    fun w => Done (assets w || bool_decide (is_Some (texts (here w) !! path))) w
  else lift (existsSync path).

Definition readFileSync (path : string) : P text := lift (readFileSync path).

(** [fs.writeFileSync]: a file below [assets/] needs the directory. *)
Definition writeFileSync (path : string) (data : text) : P unit :=
  if String.prefix "assets/" path then
    fun w =>
      if assets w then lift (writeFileSync path data) w
      else if bool_decide (is_Some (texts (here w) !! assetsPath))
           then Thrown ENOTDIR w
           else Thrown (Js ENOENT) w
  else lift (writeFileSync path data).

(** [fs.mkdirSync("assets")]. *)
Definition mkdirSync_assets : P unit :=
  fun w =>
    if assets w || bool_decide (is_Some (texts (here w) !! assetsPath))
    then Thrown EEXIST w
    else Done tt (World (here w) true (shown w)).

Definition isShopifyProject : P bool := lift Installer.isShopifyProject.

(** The stylesheet of a version, and the reference to it that the patcher
    looks for and inserts. *)
Definition cssFile (version : text) : text :=
  if bool_decide (version = lit "3") then lit "tailwind.css"
  else lit "tailwind-output.css".

Definition linkTag (version : text) : text :=
  lit "{{ '" ++ cssFile version ++ lit "' | asset_url | stylesheet_tag }}".

(** [addTailwindToThemeLiquid(version = "3")]: [None] is a call without
    argument. *)
Definition addTailwindToThemeLiquid (arg : option text) : P unit :=
  let version := default (lit "3") arg in
  let* present := existsSync themeLiquidPath in
  if present then
    let* themeLiquid := readFileSync themeLiquidPath in
    if negb (includes themeLiquid (linkTag version)) then
      let headEndIndex := indexOf themeLiquid headEnd in
      let themeLiquid' :=
        slice themeLiquid 0 headEndIndex ++ linkTag version
          ++ slice_from themeLiquid headEndIndex in
      writeFileSync themeLiquidPath themeLiquid' >>
      echo (LinkAddedFor version)
    else echo (LinkExistsFor version)
  else echo (Shared ThemeMissing).

Definition createGitIgnore : P unit := lift Pinned.createGitIgnore.
Definition createShopifyIgnore : P unit := lift Pinned.createShopifyIgnore.

(** Lines 236-241 of [installTailwindV3] and 302-306 of
    [installTailwindV4]: the build script is set, whatever was there.
    Reading [packageJson.scripts] throws on [null]; on a string, number or
    boolean the assignment to [packageJson.scripts] is dropped and the next
    line throws. *)
Definition setBuildScript (command : text) : P unit :=
  let* packageJson := lift readManifest in
  match packageJson with
  | JNull => throw (Js TypeError)
  | JObj _ | JArr _ =>
      let scripts := get_member packageJson (lit "scripts") in
      let scripts' :=
        match scripts with
        | Some o => if truthy scripts then o else JObj []
        | None => JObj []
        end in
      lift (writeManifest
              (set_member packageJson (lit "scripts")
                 (set_member scripts' (lit "tailwind") (JStr command))))
  | _ => throw (Js TypeError)
  end.

Definition v3Command : string :=
  "npm install -D tailwindcss@3.4.15 postcss autoprefixer".

Definition installTailwindV3 (h : host) : P unit :=
  echo InstallingV3 >>
  let* code := lift (exec h v3Command) in
  (if negb (code =? 0) then echo InstallV3Failed >> exit 1 else pure tt) >>
  echo GeneratingV3Config >>
  writeFileSync configFilePath customConfig >>
  echo (Shared ConfigCreated) >>
  let* hasStyles := existsSync stylesPath in
  (if negb hasStyles then
     writeFileSync stylesPath stylesTemplate >>
     echo (Shared StylesCreated)
   else echo (Shared StylesExists)) >>
  setBuildScript buildCommand >>
  addTailwindToThemeLiquid None >>
  createGitIgnore >>
  createShopifyIgnore >>
  echo InstalledV3 >>
  echo (Shared HintBuild).

Definition v4Command : string := "npm install -D tailwindcss @tailwindcss/cli".

Definition v4IgnoreContent : text :=
  nl ++ lit "package.json" ++ nl ++ lit "  ".

Definition assetsConfigPath : string := "assets/tailwind-config.css".

Definition configContent : text :=
  lit "@import " ++ dq ++ lit "tailwindcss" ++ dq ++ lit " prefix(tw);" ++ nl ++
  nl ++
  lit "@theme {" ++ nl ++
  lit "    --breakpoint-sm: 450px;" ++ nl ++
  lit "    --breakpoint-md: 768px;" ++ nl ++
  lit "    --breakpoint-lg: 990px;" ++ nl ++
  lit "    --breakpoint-xl: 1280px;" ++ nl ++
  lit "}".

Definition v4BuildCommand : text :=
  lit "npx @tailwindcss/cli -i ./assets/tailwind-config.css -o ./assets/tailwind-output.css --watch".

Definition installTailwindV4 (h : host) : P unit :=
  echo InstallingV4 >>
  let* code := lift (exec h v4Command) in
  (if negb (code =? 0) then echo InstallV4Failed >> exit 1 else pure tt) >>
  echo InstalledV4 >>
  let* hasIgnore := existsSync shopifyIgnorePath in
  (if hasIgnore then
     let* currentContent := readFileSync shopifyIgnorePath in
     if negb (includes currentContent (lit "package.json")) then
       writeFileSync shopifyIgnorePath (currentContent ++ v4IgnoreContent)
     else pure tt
   else writeFileSync shopifyIgnorePath v4IgnoreContent) >>
  echo ShopifyIgnoreUpdated >>
  let* hasAssets := existsSync assetsPath in
  (if negb hasAssets then mkdirSync_assets else pure tt) >>
  writeFileSync assetsConfigPath configContent >>
  echo AssetsConfigCreated >>
  setBuildScript v4BuildCommand >>
  echo ScriptAddedV4 >>
  addTailwindToThemeLiquid (Some (lit "4")).

(** [rl.close()]: the end of input; nothing of the directory or of the
    output changes. *)
Definition rlClose : P unit := pure tt.

(** [installTailwindCSS] against the lines typed on standard input, and
    whether standard input ends after them: the checks run first, then the
    prompt, then the installer of the version the prompt resolved with. *)
Definition installTailwindCSS (h : host) (answers : list text)
    (ended : bool) : P unit :=
  (if negb (node_on_path h) then echo (Shared NodeMissing) >> exit 1
   else pure tt) >>
  let* shopify := isShopifyProject in
  (if negb shopify then echo (Shared NotShopify) >> exit 1 else pure tt) >>
  let* hasManifest := existsSync manifestPath in
  (if negb hasManifest then
     echo (Shared InitialisingNpm) >>
     let* code := lift (exec h "npm init -y") in
     if negb (code =? 0) then echo (Shared NpmInitFailed) >> exit 1
     else pure tt
   else pure tt) >>
  let '(asked, r) := Prompted.promptForVersion answers in
  say asked >>
  match r with
  | Prompted.Resolved version _ =>
      (if bool_decide (version = lit "3") then installTailwindV3 h
       else installTailwindV4 h) >>
      rlClose
  | Prompted.Pending => wait ended
  end.

End Versioned.

(** ** Vocabulary of the statements *)

(** The two template patchers, each with the text it inserts. *)
Definition patchers : list (text * M unit) :=
  [(linkTag_index, Index.addTailwindToThemeLiquid);
   (linkTag_pinned, Pinned.addTailwindToThemeLiquid)].

(** What each patcher puts around the stylesheet reference: the text it
    inserts, the part of it before the reference and the part after. *)
Definition around : list (text * (text * text)) :=
  [(linkTag_index, (nl ++ lit "  " ++ dq, dq ++ nl ++ lit "      "));
   (linkTag_pinned, (nl ++ lit "        ", nl ++ lit "      "))].

(** Text below the surrogate range.  Every literal of the scripts is. *)
Definition plain (t : text) : bool := forallb (fun c => (c <? 55296)%N) t.

(** [t'] is [t] but for code units at or above the surrogate range, which
    may differ. *)
Definition scrubbed (t t' : text) : Prop :=
  Forall2 (fun a b => a = b \/ ((55296 <=? a) && (55296 <=? b))%N = true) t t'.

(** The state after a script left the text file [path] holding [data] and
    printed [lines]. *)
Definition wrote (s : state) (path : string) (data : text)
    (lines : list message) : state :=
  State (Dir (<[path := data]> (texts (cwd s))) (package_json (cwd s)))
        (printed s ++ lines).

(** The state after a script printed [lines] and wrote nothing. *)
Definition said (s : state) (lines : list message) : state :=
  State (cwd s) (printed s ++ lines).

(** A directory holding the template with the given content and nothing
    else, and a run that has printed nothing yet. *)
Definition theme_only (content : text) : dir :=
  Dir {[ themeLiquidPath := content ]} None.

Definition fresh (d : dir) : state := State d [].

(** The two ignore files of [part_001]: the path, the entries looked for,
    and the function that reconciles the file.  The block written is
    [ignore_block] of the entries. *)
Definition ignoreFiles : list (string * list text * M unit) :=
  [(gitIgnorePath, gitIgnoreLines, Pinned.createGitIgnore);
   (shopifyIgnorePath, shopifyIgnoreLines, Pinned.createShopifyIgnore)].

(** A directory with no file in it. *)
Definition empty_dir : dir := Dir ∅ None.

(** A directory holding one text file. *)
Definition one_file (path : string) (content : text) : dir :=
  Dir {[ path := content ]} None.

(** The test of [promptForVersion] on one line of input. *)
Definition accepted (answer : text) : bool :=
  bool_decide (trim answer = lit "3") || bool_decide (trim answer = lit "4").

(** What [promptForVersion] prints while it turns down [n] answers: the
    question and the complaint, [n] times. *)
Definition reprompts (n : nat) : list message :=
  concat (replicate n [AskVersion; InvalidVersion]).

(** The two installers, each with the command line of its dependency
    install and the text its patcher inserts. *)
Definition indexCommand : string :=
  "npm install -D tailwindcss postcss autoprefixer".
Definition pinnedCommand : string :=
  "npm install -D tailwindcss@3.4.15 postcss autoprefixer".

Definition installers : list (string * text * (host -> M unit)) :=
  [(indexCommand, linkTag_index, Index.installTailwindCSS);
   (pinnedCommand, linkTag_pinned, Pinned.installTailwindCSS)].

(** The value a script reads as [packageJson.scripts.tailwind] from the
    manifest of a directory; [None] when there is none to read. *)
Definition tailwind_of (v : json) : option json :=
  match get_member v (lit "scripts") with
  | Some o => get_member o (lit "tailwind")
  | None => None
  end.

Definition scripts_tailwind (d : dir) : option json :=
  match package_json d with
  | Some (Doc v) => tailwind_of v
  | _ => None
  end.

(** Two states of the manifest that agree on [scripts]: the same manifest,
    or two objects with the same [scripts] member. *)
Definition same_scripts (m m' : option manifest) : Prop :=
  m = m' \/
  exists ms ms',
    m = Some (Doc (JObj ms)) /\ m' = Some (Doc (JObj ms')) /\
    assoc (lit "scripts") ms' = assoc (lit "scripts") ms.

(** External commands that leave a text file as it is. *)
Definition keeps_file (h : host) (path : string) : Prop :=
  forall cmd d, texts (run_command h cmd d).2 !! path = texts d !! path.

(** An external command that leaves the [scripts] of the manifest as they
    are. *)
Definition keeps_scripts (h : host) (cmd : string) : Prop :=
  forall d, same_scripts (package_json d) (package_json (run_command h cmd d).2).

(** The manifest of a directory parses and its [scripts] is [null]. *)
Definition scripts_null (d : dir) : Prop :=
  exists v, package_json d = Some (Doc v) /\
            get_member v (lit "scripts") = Some JNull.

(** The manifest after the build-script step returned: [scripts.tailwind]
    is truthy, or the document is an array, or an object whose [scripts] is
    a truthy value that is not an object (on either, the assignment of the
    script is lost). *)
Definition settled (v : json) : Prop :=
  (truthy (get_member v (lit "scripts")) = true /\
   truthy (tailwind_of v) = true) \/
  (exists elems, v = JArr elems) \/
  (exists ms o, v = JObj ms /\ assoc (lit "scripts") ms = Some o /\
                truthy (Some o) = true /\ forall ms', o <> JObj ms').

(** A last step of the installer that always returns, leaves the manifest,
    the template and the two generated files alone, and only adds to what
    was printed. *)
Definition harmless (ign : M unit) : Prop :=
  forall s, exists s' more,
    ign s = Ret tt s' /\
    package_json (cwd s') = package_json (cwd s) /\
    texts (cwd s') !! themeLiquidPath = texts (cwd s) !! themeLiquidPath /\
    texts (cwd s') !! configFilePath = texts (cwd s) !! configFilePath /\
    texts (cwd s') !! stylesPath = texts (cwd s) !! stylesPath /\
    printed s' = printed s ++ more.

(** The document written by the build-script step for a manifest [v]. *)
Definition with_build_script (v : json) : json :=
  let scripts := get_member v (lit "scripts") in
  let scripts' :=
    match scripts with
    | Some o => if truthy scripts then o else JObj []
    | None => JObj []
    end in
  set_member v (lit "scripts")
    (set_member scripts' (lit "tailwind") (JStr buildCommand)).

(** The state after the second phase dealt with the two generated files:
    the configuration written, the style sheet written unless there was
    one. *)
Definition after_files (s : state) : state :=
  let sa := wrote (said s [GeneratingConfig]) configFilePath customConfig
              [ConfigCreated] in
  if bool_decide (is_Some (texts (cwd s) !! stylesPath))
  then said sa [StylesExists]
  else wrote sa stylesPath stylesTemplate [StylesCreated].

(** What holds of the outcome of a computation: [Q] of the value and state
    it returns, [E] of the exit status and state with which it exits or
    throws. *)
Definition wp {A} (m : M A) (Q : A -> state -> Prop)
    (E : Z -> state -> Prop) (s : state) : Prop :=
  match m s with
  | Ret a s' => Q a s'
  | Exit c s' => E c s'
  | Throw _ s' => E 1 s'
  end.

(** A machine for the examples: [node] is installed, [npm init -y] writes
    a manifest with a [test] script, and the dependency install records
    the package under [devDependencies] of a manifest that is an object. *)
Definition npm_init_manifest : json :=
  JObj [(lit "name", JStr (lit "theme"));
        (lit "version", JStr (lit "1.0.0"));
        (lit "scripts", JObj [(lit "test", JStr (lit "exit 1"))])].

Definition npm_run (cmd : string) (d : dir) : Z * dir :=
  if decide (cmd = "npm init -y") then
    (0, Dir (texts d) (Some (Doc npm_init_manifest)))
  else
    (0, Dir (texts d)
          (match package_json d with
           | Some (Doc v) =>
               Some (Doc (set_member v (lit "devDependencies")
                            (JObj [(lit "tailwindcss", JStr (lit "^3.4.15"))])))
           | other => other
           end)).

Definition npm_host : host := Host true npm_run.

(** The two installers again, each with the text files it may write. *)
Definition installer_files
  : list (string * text * (host -> M unit) * list string) :=
  [(indexCommand, linkTag_index, Index.installTailwindCSS,
    [configFilePath; stylesPath; themeLiquidPath]);
   (pinnedCommand, linkTag_pinned, Pinned.installTailwindCSS,
    [configFilePath; stylesPath; themeLiquidPath; gitIgnorePath;
     shopifyIgnorePath])].

(** A text none of whose proper suffixes is a prefix of it: two
    occurrences of it cannot overlap. *)
Definition unbordered (n : text) : bool :=
  forallb (fun j => negb (starts_with (drop j n) n)) (seq 1 (length n - 1)).

(** The world after a function of [part_000] left the text file [path]
    holding [data] and printed [lines]. *)
Definition put (w : Versioned.world) (path : string) (data : text)
    (lines : list Versioned.line) : Versioned.world :=
  Versioned.World
    (Dir (<[path := data]> (texts (Versioned.here w)))
         (package_json (Versioned.here w)))
    (Versioned.assets w) (Versioned.shown w ++ lines).

(** The world after it printed [lines] and wrote nothing. *)
Definition told (w : Versioned.world) (lines : list Versioned.line)
  : Versioned.world :=
  Versioned.World (Versioned.here w) (Versioned.assets w)
    (Versioned.shown w ++ lines).

(** A world with the given directory, the directory [assets] in it, and
    nothing printed. *)
Definition opened (d : dir) : Versioned.world := Versioned.World d true [].

(** [installTailwindV4] cut in three, for the proofs: the dependency
    install, the entry of [.shopifyignore], and the rest. *)
Definition v4_command (h : host) : Versioned.P unit :=
  Versioned.andThen (Versioned.echo Versioned.InstallingV4) (fun _ =>
  Versioned.andThen (Versioned.lift (exec h Versioned.v4Command)) (fun code =>
  Versioned.andThen
    (if negb (code =? 0)
     then Versioned.andThen (Versioned.echo Versioned.InstallV4Failed)
            (fun _ => Versioned.exit 1)
     else Versioned.pure tt) (fun _ =>
  Versioned.echo Versioned.InstalledV4))).

Definition v4_ignore : Versioned.P unit :=
  Versioned.andThen (Versioned.existsSync shopifyIgnorePath) (fun hasIgnore =>
  if hasIgnore then
    Versioned.andThen (Versioned.readFileSync shopifyIgnorePath)
      (fun currentContent =>
         if negb (includes currentContent (lit "package.json")) then
           Versioned.writeFileSync shopifyIgnorePath
             (currentContent ++ Versioned.v4IgnoreContent)
         else Versioned.pure tt)
  else Versioned.writeFileSync shopifyIgnorePath Versioned.v4IgnoreContent).

Definition v4_rest : Versioned.P unit :=
  Versioned.andThen (Versioned.echo Versioned.ShopifyIgnoreUpdated) (fun _ =>
  Versioned.andThen (Versioned.existsSync Versioned.assetsPath) (fun hasAssets =>
  Versioned.andThen
    (if negb hasAssets then Versioned.mkdirSync_assets else Versioned.pure tt)
    (fun _ =>
  Versioned.andThen
    (Versioned.writeFileSync Versioned.assetsConfigPath Versioned.configContent)
    (fun _ =>
  Versioned.andThen (Versioned.echo Versioned.AssetsConfigCreated) (fun _ =>
  Versioned.andThen (Versioned.setBuildScript Versioned.v4BuildCommand) (fun _ =>
  Versioned.andThen (Versioned.echo Versioned.ScriptAddedV4) (fun _ =>
  Versioned.addTailwindToThemeLiquid (Some (lit "4"))))))))).

(** * Properties *)

(** ** Substring search *)

Section Substrings.

Implicit Types (p n s x y : text) (c : N).

Lemma starts_with_app p r : starts_with p (p ++ r) = true.
Proof.
  induction p as [|a p IH]; simpl; [done|].
  by rewrite N.eqb_refl.
Qed.

Lemma starts_with_split p s :
  starts_with p s = true -> s = p ++ drop (length p) s.
Proof.
  revert s; induction p as [|a p IH]; intros [|b s]; simpl; try done.
  intros [Hab Hps]%andb_prop.
  apply N.eqb_eq in Hab as ->. f_equal. by apply IH.
Qed.

Lemma starts_with_weaken p s r :
  starts_with p s = true -> starts_with p (s ++ r) = true.
Proof.
  intros H. rewrite (starts_with_split _ _ H), <- app_assoc.
  apply starts_with_app.
Qed.

Lemma starts_with_nil p : p <> [] -> starts_with p [] = false.
Proof. by destruct p. Qed.

Lemma starts_with_sep n c x y :
  lacks n c = true ->
  starts_with n (x ++ c :: y) = starts_with n x.
Proof.
  revert x; induction n as [|a n IH]; intros x H; [by destruct x|].
  simpl in H. apply andb_prop in H as [Ha Hn].
  destruct x as [|b x]; simpl.
  - apply negb_true_iff in Ha. by rewrite Ha.
  - by rewrite IH.
Qed.

Lemma occurrences_sep n c x y :
  lacks n c = true ->
  occurrences n (x ++ c :: y) = (occurrences n x + occurrences n y)%nat.
Proof.
  intros H. induction x as [|b x IH].
  - pose proof (starts_with_sep n c [] y H) as E. simpl in *.
    rewrite E. lia.
  - pose proof (starts_with_sep n c (b :: x) y H) as E. simpl in *.
    rewrite E, IH. lia.
Qed.

(** Padding made of characters other than the first of the needle. *)
Lemma occurrences_pad n a pad y :
  forallb (fun c => negb (a =? c)%N) pad = true ->
  occurrences (a :: n) (pad ++ y) = occurrences (a :: n) y.
Proof.
  induction pad as [|c pad IH]; simpl; [done|].
  intros [Hc Hpad]%andb_prop. apply negb_true_iff in Hc.
  rewrite Hc. simpl. by apply IH.
Qed.

Lemma occurrences_app_ge n x y :
  n <> [] ->
  (occurrences n x + occurrences n y <= occurrences n (x ++ y))%nat.
Proof.
  intros Hn. induction x as [|b x IH].
  - simpl. rewrite (starts_with_nil n Hn). lia.
  - change ((b :: x) ++ y) with (b :: (x ++ y)). simpl occurrences.
    destruct (starts_with n (b :: x)) eqn:E.
    + change (b :: (x ++ y)) with ((b :: x) ++ y).
      rewrite (starts_with_weaken _ _ y E). lia.
    + destruct (starts_with n (b :: x ++ y)); lia.
Qed.

Lemma indexOf_from_none n s i :
  0 <= i -> (indexOf_from n s i = -1 <-> occurrences n s = 0%nat).
Proof.
  revert i; induction s as [|b s IH]; intros i Hi; simpl.
  - destruct (starts_with n []); split; intros; try lia; done.
  - destruct (starts_with n (b :: s)).
    + split; intros; lia.
    + rewrite IH by lia. simpl. done.
Qed.

Lemma includes_occurrences s n :
  includes s n = negb (bool_decide (occurrences n s = 0%nat)).
Proof.
  unfold includes, indexOf. f_equal.
  destruct (indexOf_from_none n s 0 ltac:(lia)) as [H1 H2].
  case_bool_decide as Ho.
  - apply Z.eqb_eq. by apply H2.
  - apply Z.eqb_neq. intros E. by apply Ho, H1.
Qed.

Lemma includes_true s n :
  includes s n = true <-> (0 < occurrences n s)%nat.
Proof.
  rewrite includes_occurrences. case_bool_decide; simpl; split; intros; try done; lia.
Qed.

Lemma includes_false s n :
  includes s n = false <-> occurrences n s = 0%nat.
Proof.
  rewrite includes_occurrences. case_bool_decide; simpl; split; intros; try done; lia.
Qed.

(** Where [indexOf] finds the needle: at its first occurrence. *)
Lemma indexOf_from_found n s i k :
  indexOf_from n s i = k -> k <> -1 -> 0 <= i ->
  exists pre post,
    s = pre ++ n ++ post /\ k = i + Z.of_nat (length pre) /\
    forall j, (j < length pre)%nat -> starts_with n (drop j s) = false.
Proof.
  revert i; induction s as [|b s IH]; intros i Hk Hne Hi; simpl in Hk.
  - destruct (starts_with n []) eqn:E; [|congruence].
    exists [], []. destruct n; [|done]. repeat split; simpl; [lia|].
    intros j Hj; lia.
  - destruct (starts_with n (b :: s)) eqn:E.
    + exists [], (drop (length n) (b :: s)). split; [|split].
      * by apply starts_with_split.
      * simpl; lia.
      * simpl; intros j Hj; lia.
    + destruct (IH (i + 1) Hk Hne ltac:(lia)) as (pre & post & -> & -> & Hfirst).
      exists (b :: pre), post. split; [done|]. split.
      * simpl length. lia.
      * intros [|j] Hj; [done|]. simpl. apply Hfirst. simpl in Hj; lia.
Qed.

Lemma indexOf_found s n k :
  indexOf s n = k -> k <> -1 ->
  exists pre post,
    s = pre ++ n ++ post /\ k = Z.of_nat (length pre) /\
    forall j, (j < length pre)%nat -> starts_with n (drop j s) = false.
Proof.
  intros Hk Hne.
  destruct (indexOf_from_found n s 0 k Hk Hne ltac:(lia))
    as (pre & post & ? & ? & ?).
  exists pre, post. repeat split; [done|lia|done].
Qed.

End Substrings.

(** ** Slicing *)

Section Slicing.

Implicit Types (s : text) (k : Z).

Lemma slice_prefix s k :
  slice s 0 k = take (Z.to_nat (slice_index (Z.of_nat (length s)) k)) s.
Proof.
  unfold slice. set (len := Z.of_nat (length s)).
  assert (slice_index len 0 = 0) as ->.
  { unfold slice_index. simpl. lia. }
  simpl. by rewrite Z.sub_0_r.
Qed.

Lemma slice_index_range len k :
  0 <= len -> 0 <= slice_index len k <= len.
Proof. unfold slice_index. destruct (k <? 0) eqn:E; lia. Qed.

Lemma slice_suffix s k :
  slice_from s k = drop (Z.to_nat (slice_index (Z.of_nat (length s)) k)) s.
Proof.
  unfold slice_from, slice. set (len := Z.of_nat (length s)).
  pose proof (slice_index_range len k ltac:(lia)) as Hk.
  assert (slice_index len len = len) as ->.
  { unfold slice_index. destruct (len <? 0) eqn:E; lia. }
  apply take_ge. rewrite length_drop. lia.
Qed.

(** The two slices taken at one index make up the string, whatever the
    index. *)
Lemma slice_join s k : slice s 0 k ++ slice_from s k = s.
Proof. rewrite slice_prefix, slice_suffix. apply take_drop. Qed.

Lemma slice_index_inside len k : 0 <= k <= len -> slice_index len k = k.
Proof. unfold slice_index. destruct (k <? 0) eqn:E; lia. Qed.

(** At a position inside the string the slices are [take] and [drop]. *)
Lemma slice_at pre post :
  slice (pre ++ post) 0 (Z.of_nat (length pre)) = pre /\
  slice_from (pre ++ post) (Z.of_nat (length pre)) = post.
Proof.
  rewrite slice_prefix, slice_suffix, slice_index_inside.
  - rewrite Nat2Z.id. split; [by rewrite take_app_length|by rewrite drop_app_length].
  - rewrite length_app. lia.
Qed.

(** At index [-1] the slices are all but the last character, and the last
    character. *)
Lemma slice_last init z :
  slice (init ++ [z]) 0 (-1) = init /\ slice_from (init ++ [z]) (-1) = [z].
Proof.
  rewrite slice_prefix, slice_suffix.
  assert (Z.to_nat (slice_index (Z.of_nat (length (init ++ [z]))) (-1))
          = length init) as ->.
  { unfold slice_index. rewrite length_app. simpl. lia. }
  split; [by rewrite take_app_length|by rewrite drop_app_length].
Qed.

Lemma slice_empty k : slice [] 0 k = [] /\ slice_from [] k = [].
Proof. rewrite slice_prefix, slice_suffix. by rewrite take_nil, drop_nil. Qed.

End Slicing.

(** ** Strings as the [utf8] encoding writes them *)

Section WellFormed.

Implicit Types (s t n pre post : text) (c : N).

Lemma text_pair_ind (Q : text -> Prop) :
  Q [] -> (forall a, Q [a]) ->
  (forall a b s, Q s -> Q (b :: s) -> Q (a :: b :: s)) ->
  forall s, Q s.
Proof.
  intros H0 H1 H2 s.
  assert (Q s /\ forall a, Q (a :: s)) as [H _]; [|done].
  induction s as [|b s [IH1 IH2]]; [by split|].
  split; [apply IH2|]. intros a. by apply H2.
Qed.

Lemma plain_cons c t :
  plain (c :: t) = true ->
  is_high c = false /\ is_low c = false /\ (c <? 55296)%N = true /\
  plain t = true.
Proof.
  unfold plain, is_high, is_low. cbn [forallb].
  intros [Hc Ht]%andb_prop. apply N.ltb_lt in Hc as Hlt.
  repeat split; try done.
  - apply andb_false_iff. left. apply N.leb_gt. lia.
  - apply andb_false_iff. left. apply N.leb_gt. lia.
Qed.

Lemma toWellFormed_other c s :
  is_high c = false -> is_low c = false ->
  toWellFormed (c :: s) = c :: toWellFormed s.
Proof. intros Hh Hl. destruct s; cbn [toWellFormed]; by rewrite Hh, Hl. Qed.

Lemma toWellFormed_scrubbed s : scrubbed s (toWellFormed s).
Proof.
  assert (forall a, is_high a = true \/ is_low a = true ->
                    ((55296 <=? a) && (55296 <=? replacement))%N = true)
    as Hrep.
  { intros a Ha. apply andb_true_intro. split; [|done].
    unfold is_high, is_low in Ha. apply N.leb_le.
    destruct Ha as [[H _]%andb_prop|[H _]%andb_prop]; apply N.leb_le in H; lia. }
  induction s as [| a | a b s IH1 IH2] using text_pair_ind.
  - constructor.
  - cbn [toWellFormed]. destruct (is_high a) eqn:Hh;
      [|destruct (is_low a) eqn:Hl];
      (constructor; [auto|constructor]).
  - cbn [toWellFormed] in *. destruct (is_high a) eqn:Hh.
    + destruct (is_low b) eqn:Hl.
      * constructor; [by left|]. constructor; [by left|]. done.
      * constructor; [right; auto|]. done.
    + destruct (is_low a) eqn:Hl; (constructor; [auto|done]).
Qed.

Lemma length_toWellFormed s : length (toWellFormed s) = length s.
Proof. symmetry. apply (Forall2_length _ _ _ (toWellFormed_scrubbed s)). Qed.

Lemma scrubbed_starts_with n s s' :
  plain n = true -> scrubbed s s' -> starts_with n s' = starts_with n s.
Proof.
  intros Hn Hs. revert n Hn. induction Hs as [|a b s s' Hab Hs IH]; intros n Hn.
  - done.
  - destruct n as [|c n]; [done|].
    apply plain_cons in Hn as (_ & _ & Hc & Hn). cbn [starts_with].
    rewrite (IH n Hn). f_equal. destruct Hab as [->|Hab]; [done|].
    apply andb_prop in Hab as [Ha Hb].
    apply N.ltb_lt in Hc. apply N.leb_le in Ha, Hb.
    assert ((c =? a)%N = false) as -> by (apply N.eqb_neq; lia).
    apply N.eqb_neq; lia.
Qed.

Lemma scrubbed_occurrences n s s' :
  plain n = true -> scrubbed s s' -> occurrences n s' = occurrences n s.
Proof.
  intros Hn Hs. induction Hs as [|a b s s' Hab Hs IH].
  - done.
  - cbn [occurrences]. rewrite IH.
    by rewrite (scrubbed_starts_with n (a :: s) (b :: s') Hn)
      by (by constructor).
Qed.

(** Writing a string does not change how often a plain text occurs in
    it. *)
Lemma occurrences_toWellFormed n s :
  plain n = true -> occurrences n (toWellFormed s) = occurrences n s.
Proof. intros Hn. apply scrubbed_occurrences, toWellFormed_scrubbed. done. Qed.

Lemma toWellFormed_plain_app t post :
  plain t = true -> toWellFormed (t ++ post) = t ++ toWellFormed post.
Proof.
  induction t as [|c t IH]; intros Ht; [done|].
  apply plain_cons in Ht as (Hh & Hl & _ & Ht).
  change ((c :: t) ++ post) with (c :: (t ++ post)).
  cbn [toWellFormed]. rewrite Hh, Hl, (IH Ht). done.
Qed.

Lemma toWellFormed_plain t : plain t = true -> toWellFormed t = t.
Proof.
  intros Ht. pose proof (toWellFormed_plain_app t [] Ht) as H.
  by rewrite !app_nil_r in H.
Qed.

(** Before a code unit that is not a low surrogate the string can be cut:
    no pair is split there. *)
Lemma toWellFormed_app_low pre c post :
  is_low c = false ->
  toWellFormed (pre ++ c :: post)
  = toWellFormed pre ++ toWellFormed (c :: post).
Proof.
  intros Hc.
  induction pre as [| a | a b pre IH1 IH2] using text_pair_ind.
  - done.
  - change ([a] ++ c :: post) with (a :: c :: post).
    cbn [toWellFormed]. rewrite Hc.
    destruct (is_high a); [done|]. by destruct (is_low a).
  - change ((a :: b :: pre) ++ c :: post) with (a :: b :: (pre ++ c :: post)).
    change ((b :: pre) ++ c :: post) with (b :: (pre ++ c :: post)) in IH2.
    cbn [toWellFormed] in *. destruct (is_high a).
    + destruct (is_low b).
      * by rewrite IH1.
      * by rewrite IH2.
    + destruct (is_low a); by rewrite IH2.
Qed.

(** A plain text put into a string: what was before it and what was after
    it are written each on its own. *)
Lemma toWellFormed_insert pre t post :
  plain t = true -> t <> [] ->
  toWellFormed (pre ++ t ++ post)
  = toWellFormed pre ++ t ++ toWellFormed post.
Proof.
  intros Ht Hne. destruct t as [|c t]; [done|].
  pose proof (plain_cons c t Ht) as (_ & Hl & _ & _).
  change ((c :: t) ++ post) with (c :: (t ++ post)).
  rewrite (toWellFormed_app_low pre c (t ++ post) Hl).
  change (c :: (t ++ post)) with ((c :: t) ++ post).
  by rewrite (toWellFormed_plain_app (c :: t) post Ht).
Qed.

(** The parts of a well-formed string around a plain text are
    well-formed. *)
Lemma well_formed_around pre t post :
  plain t = true -> t <> [] ->
  toWellFormed (pre ++ t ++ post) = pre ++ t ++ post ->
  toWellFormed pre = pre /\ toWellFormed post = post.
Proof.
  intros Ht Hne Hwf. rewrite (toWellFormed_insert pre t post Ht Hne) in Hwf.
  apply app_inj_1 in Hwf as [Hpre Hrest]; [|apply length_toWellFormed].
  split; [done|]. by apply app_inv_head in Hrest.
Qed.

Lemma toWellFormed_app_plain pre t :
  plain t = true -> toWellFormed (pre ++ t) = toWellFormed pre ++ t.
Proof.
  intros Ht. destruct (decide (t = [])) as [->|Hne].
  - by rewrite !app_nil_r.
  - pose proof (toWellFormed_insert pre t [] Ht Hne) as H.
    by rewrite !app_nil_r in H.
Qed.

(** A well-formed string cut before a code unit that is not a low
    surrogate: both parts are well-formed. *)
Lemma well_formed_cut pre post :
  toWellFormed (pre ++ post) = pre ++ post ->
  (forall c r, post = c :: r -> is_low c = false) ->
  toWellFormed pre = pre /\ toWellFormed post = post.
Proof.
  intros Hwf Hcut. destruct post as [|c r].
  - rewrite app_nil_r in Hwf. done.
  - rewrite (toWellFormed_app_low pre c r (Hcut c r eq_refl)) in Hwf.
    apply app_inj_1 in Hwf; [done|apply length_toWellFormed].
Qed.

(** A well-formed string that ends in a low surrogate ends in a pair. *)
Lemma ends_in_pair x z :
  is_low z = true -> toWellFormed (x ++ [z]) = x ++ [z] ->
  exists x' hi, x = x' ++ [hi] /\ is_high hi = true /\ toWellFormed x' = x'.
Proof.
  intros Hz.
  assert (forall a, is_high a = true \/ is_low a = true -> replacement <> a)
    as Hrep.
  { intros a Ha <-. by destruct Ha. }
  assert (forall a, is_high a = true -> is_low a = false) as Hhl.
  { intros a [H1 H2]%andb_prop. apply andb_false_iff. left.
    apply N.leb_le in H2. apply N.leb_gt. lia. }
  induction x as [| a | a b x IH1 IH2] using text_pair_ind; intros Hwf.
  - cbn in Hwf. rewrite Hz in Hwf.
    destruct (is_high z); injection Hwf as Hwf; by destruct (Hrep z (or_intror Hz)).
  - change ([a] ++ [z]) with [a; z] in Hwf. cbn [toWellFormed] in Hwf.
    rewrite Hz in Hwf. destruct (is_high a) eqn:Hh.
    + by exists [], a.
    + destruct (is_low a) eqn:Hl.
      * injection Hwf as Hwf. by destruct (Hrep a (or_intror Hl)).
      * destruct (is_high z); injection Hwf as Hwf;
          by destruct (Hrep z (or_intror Hz)).
  - change ((a :: b :: x) ++ [z]) with (a :: b :: (x ++ [z])) in Hwf.
    change ((b :: x) ++ [z]) with (b :: (x ++ [z])) in IH2.
    cbn [toWellFormed] in Hwf, IH2 |- *. destruct (is_high a) eqn:Hh.
    + destruct (is_low b) eqn:Hl.
      * injection Hwf as Hwf. destruct (IH1 Hwf) as (x' & hi & -> & Hhi & Hx').
        exists (a :: b :: x'), hi. split; [done|]. split; [done|].
        cbn [toWellFormed]. by rewrite Hh, Hl, Hx'.
      * injection Hwf as Hwf _. by destruct (Hrep a (or_introl Hh)).
    + destruct (is_low a) eqn:Hla.
      * injection Hwf as Hwf _. by destruct (Hrep a (or_intror Hla)).
      * injection Hwf as Hwf. destruct (IH2 Hwf) as (x' & hi & Hx & Hhi & Hx').
        exists (a :: x'), hi. rewrite Hx. split; [done|]. split; [done|].
        by rewrite (toWellFormed_other a x' Hh Hla), Hx'.
Qed.

End WellFormed.

(** ** Running the primitives *)

Section Primitives.

Implicit Types (s : state) (path : string).

Lemma existsSync_text path s :
  path <> manifestPath ->
  existsSync path s = Ret (bool_decide (is_Some (texts (cwd s) !! path))) s.
Proof. intros H. unfold existsSync. by rewrite decide_False. Qed.

Lemma existsSync_manifest s :
  existsSync manifestPath s
  = Ret (bool_decide (is_Some (package_json (cwd s)))) s.
Proof. unfold existsSync. by rewrite decide_True. Qed.

Lemma existsSync_some path s t :
  path <> manifestPath -> texts (cwd s) !! path = Some t ->
  existsSync path s = Ret true s.
Proof.
  intros Hp H. rewrite existsSync_text, H by done.
  by rewrite bool_decide_true.
Qed.

Lemma existsSync_none path s :
  path <> manifestPath -> texts (cwd s) !! path = None ->
  existsSync path s = Ret false s.
Proof.
  intros Hp H. rewrite existsSync_text, H by done.
  rewrite bool_decide_false; [done|]. by intros [? ?].
Qed.

Lemma readFileSync_some path s t :
  texts (cwd s) !! path = Some t -> readFileSync path s = Ret t s.
Proof. intros H. unfold readFileSync. by rewrite H. Qed.

Lemma theme_is_text : themeLiquidPath <> manifestPath.
Proof. done. Qed.

Lemma config_is_text : configFilePath <> manifestPath.
Proof. done. Qed.

Lemma styles_is_text : stylesPath <> manifestPath.
Proof. done. Qed.

Lemma gitIgnore_is_text : gitIgnorePath <> manifestPath.
Proof. done. Qed.

Lemma shopifyIgnore_is_text : shopifyIgnorePath <> manifestPath.
Proof. done. Qed.

End Primitives.

(** ** The template patcher *)

Section Patcher.

Variable linkTag : text.
Implicit Types (s : state) (content : text).

Lemma patch_missing s :
  texts (cwd s) !! themeLiquidPath = None ->
  Installer.addTailwindToThemeLiquid linkTag s
  = Ret tt (State (cwd s) (printed s ++ [ThemeMissing])).
Proof.
  intros H. unfold Installer.addTailwindToThemeLiquid, bind.
  by rewrite (existsSync_none _ _ theme_is_text H).
Qed.

Lemma patch_present s content :
  texts (cwd s) !! themeLiquidPath = Some content ->
  includes content linkFragment = true ->
  Installer.addTailwindToThemeLiquid linkTag s
  = Ret tt (State (cwd s) (printed s ++ [LinkExists])).
Proof.
  intros H Hin. unfold Installer.addTailwindToThemeLiquid, bind.
  rewrite (existsSync_some _ _ _ theme_is_text H), (readFileSync_some _ _ _ H).
  by rewrite Hin.
Qed.

Lemma patch_insert s content :
  texts (cwd s) !! themeLiquidPath = Some content ->
  includes content linkFragment = false ->
  Installer.addTailwindToThemeLiquid linkTag s
  = Ret tt
      (State
         (Dir (<[themeLiquidPath :=
                   toWellFormed
                     (slice content 0 (indexOf content headEnd) ++ linkTag
                        ++ slice_from content (indexOf content headEnd))]>
                 (texts (cwd s)))
              (package_json (cwd s)))
         (printed s ++ [LinkAdded])).
Proof.
  intros H Hin. unfold Installer.addTailwindToThemeLiquid, bind.
  rewrite (existsSync_some _ _ _ theme_is_text H), (readFileSync_some _ _ _ H).
  by rewrite Hin.
Qed.

End Patcher.

(** ** How often the inserted text holds the stylesheet reference *)

Section Inserted.

Implicit Types (pre mid pad post : text).

(** Text on lines of its own: a needle without line breaks occurs in the
    whole as often as before, inside and after it. *)
Lemma occurrences_framed a n pre mid pad post :
  lacks (a :: n) 10 = true ->
  forallb (fun c => negb (a =? c)%N) pad = true ->
  occurrences (a :: n) (pre ++ (10%N :: mid ++ 10%N :: pad) ++ post)
  = (occurrences (a :: n) pre + occurrences (a :: n) mid
     + occurrences (a :: n) post)%nat.
Proof.
  intros Hnl Hpad.
  replace (pre ++ (10%N :: mid ++ 10%N :: pad) ++ post)
    with (pre ++ 10%N :: (mid ++ 10%N :: (pad ++ post))).
  - rewrite !occurrences_sep by done. rewrite occurrences_pad by done. lia.
  - simpl. by rewrite <- app_assoc.
Qed.

Lemma linkFragment_cons :
  exists a n, linkFragment = a :: n /\ lacks (a :: n) 10 = true /\
              forallb (fun c => negb (a =? c)%N) (lit "      ") = true.
Proof. eexists _, _. split; [reflexivity|]. by vm_compute. Qed.

Lemma linkTag_index_once pre post :
  occurrences linkFragment (pre ++ linkTag_index ++ post)
  = (occurrences linkFragment pre + 1 + occurrences linkFragment post)%nat.
Proof.
  destruct linkFragment_cons as (a & n & E & Hnl & Ha).
  change linkTag_index
    with (10%N :: (lit "  " ++ dq ++ linkFragment ++ dq) ++ 10%N :: lit "      ").
  assert (occurrences linkFragment (lit "  " ++ dq ++ linkFragment ++ dq) = 1%nat)
    as Hmid by (by vm_compute).
  rewrite E in *. by rewrite occurrences_framed, Hmid.
Qed.

Lemma linkTag_pinned_once pre post :
  occurrences linkFragment (pre ++ linkTag_pinned ++ post)
  = (occurrences linkFragment pre + 1 + occurrences linkFragment post)%nat.
Proof.
  destruct linkFragment_cons as (a & n & E & Hnl & Ha).
  change linkTag_pinned
    with (10%N :: (lit "        " ++ linkFragment) ++ 10%N :: lit "      ").
  assert (occurrences linkFragment (lit "        " ++ linkFragment) = 1%nat)
    as Hmid by (by vm_compute).
  rewrite E in *. by rewrite occurrences_framed, Hmid.
Qed.

Lemma patchers_once linkTag patch pre post :
  In (linkTag, patch) patchers ->
  occurrences linkFragment (pre ++ linkTag ++ post)
  = (occurrences linkFragment pre + 1 + occurrences linkFragment post)%nat.
Proof.
  intros [[= <- <-]|[[= <- <-]|[]]];
    [apply linkTag_index_once|apply linkTag_pinned_once].
Qed.

Lemma linkFragment_plain : plain linkFragment = true.
Proof. by vm_compute. Qed.

Lemma headEnd_plain : plain headEnd = true /\ headEnd <> [].
Proof. by vm_compute. Qed.

Lemma patchers_plain linkTag patch :
  In (linkTag, patch) patchers -> plain linkTag = true /\ linkTag <> [].
Proof. intros [[= <- <-]|[[= <- <-]|[]]]; by vm_compute. Qed.

(** The same count in the file as it is written. *)
Lemma patchers_once_written linkTag patch pre post :
  In (linkTag, patch) patchers ->
  occurrences linkFragment (toWellFormed (pre ++ linkTag ++ post))
  = (occurrences linkFragment pre + 1 + occurrences linkFragment post)%nat.
Proof.
  intros Hp. rewrite (occurrences_toWellFormed _ _ linkFragment_plain).
  by apply (patchers_once _ patch).
Qed.

Lemma patchers_run linkTag patch :
  In (linkTag, patch) patchers ->
  patch = Installer.addTailwindToThemeLiquid linkTag.
Proof. by intros [[= <- <-]|[[= <- <-]|[]]]. Qed.

Lemma patchers_around linkTag patch :
  In (linkTag, patch) patchers ->
  exists lead trail,
    In (linkTag, (lead, trail)) around /\
    linkTag = lead ++ linkFragment ++ trail /\ trail <> [].
Proof.
  intros [[= <- <-]|[[= <- <-]|[]]]; eexists _, _.
  - split; [by left|done].
  - split; [by right; left|done].
Qed.

End Inserted.

(** ** Claims on the template patcher *)

(** C5.  When the template already holds the stylesheet reference as a
    substring, the patcher (of [index.js] and of [part_001] alike) takes the
    "already exists" branch: it prints that line, writes nothing, and the
    directory is the one it started from. *)
Theorem patch_already_present linkTag patch s content :
  In (linkTag, patch) patchers ->
  texts (cwd s) !! themeLiquidPath = Some content ->
  includes content linkFragment = true ->
  patch s = Ret tt (said s [LinkExists]) /\ cwd (final (patch s)) = cwd s.
Proof.
  intros Hv Hfile Hin. rewrite (patchers_run _ _ Hv).
  by rewrite (patch_present linkTag s content Hfile Hin).
Qed.

Lemma patch_already_present_witness :
  let content := lit "<head>" ++ linkFragment ++ lit "</head>" in
  let s := fresh (theme_only content) in
  includes content linkFragment = true /\
  Index.addTailwindToThemeLiquid s = Ret tt (said s [LinkExists]) /\
  cwd (final (Index.addTailwindToThemeLiquid s)) = cwd s.
Proof.
  intros content s. split; [by vm_compute|].
  apply (patch_already_present linkTag_index _ s content).
  - by left.
  - by vm_compute.
  - by vm_compute.
Defined.

(** C4, as the code has it.  When the template holds the closing tag
    [</head>] but not the stylesheet reference, the patcher splits the
    content at the first occurrence of the tag and writes back the part
    before it, the text it inserts, and the part from the tag on.  The
    text inserted is not the reference alone: in [index.js] it is a line
    break, two spaces and the reference in double quotes, in [part_001] a
    line break, eight spaces and the reference, and in both a line break
    and six spaces follow.  So the reference goes before the tag with that
    text between the two, and it then occurs exactly once in the file.
    The content is what the [utf8] decoding hands out, a well-formed
    string. *)
Theorem patch_inserts_before_head linkTag patch s content :
  In (linkTag, patch) patchers ->
  texts (cwd s) !! themeLiquidPath = Some content ->
  toWellFormed content = content ->
  includes content linkFragment = false ->
  includes content headEnd = true ->
  exists pre post lead trail,
    content = pre ++ headEnd ++ post /\
    (forall j, (j < length pre)%nat ->
               starts_with headEnd (drop j content) = false) /\
    In (linkTag, (lead, trail)) around /\
    trail <> [] /\
    patch s
    = Ret tt (wrote s themeLiquidPath
                (pre ++ lead ++ linkFragment ++ trail ++ headEnd ++ post)
                [LinkAdded]) /\
    occurrences linkFragment
      (pre ++ lead ++ linkFragment ++ trail ++ headEnd ++ post) = 1%nat.
Proof.
  intros Hv Hfile Hwf Hfrag Hhead.
  assert (indexOf content headEnd <> -1) as Hidx.
  { unfold includes in Hhead. apply negb_true_iff, Z.eqb_neq in Hhead. done. }
  destruct (indexOf_found content headEnd _ eq_refl Hidx)
    as (pre & post & Hsplit & Hk & Hfirst).
  destruct (patchers_around _ _ Hv) as (lead & trail & Haround & Htag & Htrail).
  destruct (patchers_plain _ _ Hv) as [Hplain Hne].
  destruct headEnd_plain as [Hhp Hhne].
  exists pre, post, lead, trail. split; [done|]. split; [done|].
  split; [done|]. split; [done|].
  destruct (slice_at pre (headEnd ++ post)) as [Hl Hr].
  assert (pre ++ lead ++ linkFragment ++ trail ++ headEnd ++ post
          = pre ++ linkTag ++ headEnd ++ post) as ->.
  { rewrite Htag. by rewrite <- !app_assoc. }
  rewrite Hsplit in Hwf.
  destruct (well_formed_around pre headEnd post Hhp Hhne Hwf) as [Hpre Hpost].
  split.
  - rewrite (patchers_run _ _ Hv), (patch_insert linkTag s content Hfile Hfrag).
    rewrite Hk. unfold wrote. rewrite Hsplit at 1 2. rewrite Hl, Hr.
    rewrite (toWellFormed_insert pre linkTag _ Hplain Hne).
    by rewrite (toWellFormed_plain_app headEnd post Hhp), Hpre, Hpost.
  - apply includes_false in Hfrag. rewrite Hsplit in Hfrag.
    pose proof (occurrences_app_ge linkFragment pre (headEnd ++ post)
                  ltac:(done)) as Hge.
    rewrite (patchers_once _ _ pre (headEnd ++ post) Hv). lia.
Qed.

Lemma patch_inserts_before_head_witness :
  let content := lit "<html><head><title>t</title></head></html>" in
  let s := fresh (theme_only content) in
  toWellFormed content = content /\
  includes content linkFragment = false /\
  includes content headEnd = true /\
  exists pre post lead trail,
    content = pre ++ headEnd ++ post /\
    (forall j, (j < length pre)%nat ->
               starts_with headEnd (drop j content) = false) /\
    In (linkTag_pinned, (lead, trail)) around /\
    trail <> [] /\
    Pinned.addTailwindToThemeLiquid s
    = Ret tt (wrote s themeLiquidPath
                (pre ++ lead ++ linkFragment ++ trail ++ headEnd ++ post)
                [LinkAdded]) /\
    occurrences linkFragment
      (pre ++ lead ++ linkFragment ++ trail ++ headEnd ++ post) = 1%nat.
Proof.
  intros content s. split; [by vm_compute|]. split; [by vm_compute|].
  split; [by vm_compute|].
  apply (patch_inserts_before_head linkTag_pinned _ s content).
  - right. by left.
  - by vm_compute.
  - by vm_compute.
  - by vm_compute.
  - by vm_compute.
Defined.

(** C4, as the claim has it, fails: on the template [<head></head>] each
    patcher leaves a file in which the reference is not next to the closing
    tag.  What stands right before the tag is a line break and six spaces,
    and in [index.js] a double quote before those. *)
Lemma link_not_next_to_head :
  let content := lit "<head></head>" in
  let s := fresh (theme_only content) in
  let after patch := texts (cwd (final (patch s))) !! themeLiquidPath in
  includes content linkFragment = false /\
  includes content headEnd = true /\
  after Index.addTailwindToThemeLiquid
  = Some (lit "<head>" ++ nl ++ lit "  " ++ dq ++ linkFragment ++ dq ++ nl
            ++ lit "      " ++ lit "</head>") /\
  after Pinned.addTailwindToThemeLiquid
  = Some (lit "<head>" ++ nl ++ lit "        " ++ linkFragment ++ nl
            ++ lit "      " ++ lit "</head>") /\
  after Index.addTailwindToThemeLiquid
  <> Some (lit "<head>" ++ linkFragment ++ lit "</head>") /\
  after Pinned.addTailwindToThemeLiquid
  <> Some (lit "<head>" ++ linkFragment ++ lit "</head>").
Proof. intros content s after. repeat split; by vm_compute. Qed.

(** C10, as the code has it.  When the template holds neither the
    stylesheet reference nor the closing tag, the search for the tag gives
    [-1] and the patcher still returns: it writes back the content with the
    inserted text, which holds the reference, put before its last code unit
    (an empty template becomes the inserted text), and the reference then
    occurs exactly once.  The original content is kept, in order, unless it
    ends in a character outside the Basic Multilingual Plane: the cut then
    falls between the two halves of that character, and each half is
    written as U+FFFD. *)
Theorem patch_without_head linkTag patch s content :
  In (linkTag, patch) patchers ->
  texts (cwd s) !! themeLiquidPath = Some content ->
  toWellFormed content = content ->
  includes content linkFragment = false ->
  includes content headEnd = false ->
  indexOf content headEnd = -1 /\
  includes linkTag linkFragment = true /\
  exists init last written,
    content = init ++ last /\
    length last = Nat.min 1 (length content) /\
    patch s = Ret tt (wrote s themeLiquidPath written [LinkAdded]) /\
    occurrences linkFragment written = 1%nat /\
    (Forall (fun c => is_low c = false) last ->
     written = init ++ linkTag ++ last) /\
    (Exists (fun c => is_low c = true) last ->
     exists kept hi,
       init = kept ++ [hi] /\ is_high hi = true /\
       written = kept ++ [replacement] ++ linkTag ++ [replacement]).
Proof.
  intros Hv Hfile Hwf Hfrag Hhead.
  assert (indexOf content headEnd = -1) as Hidx.
  { unfold includes in Hhead. by apply negb_false_iff, Z.eqb_eq in Hhead. }
  split; [done|].
  destruct (patchers_plain _ _ Hv) as [Hplain Hne].
  split.
  { apply includes_true.
    pose proof (patchers_once _ _ [] [] Hv) as H. rewrite app_nil_r in H.
    change ([] ++ linkTag) with linkTag in H. rewrite H. lia. }
  rewrite (patchers_run _ _ Hv), (patch_insert linkTag s content Hfile Hfrag).
  rewrite Hidx. unfold wrote.
  set (init := slice content 0 (-1)). set (last := slice_from content (-1)).
  assert (content = init ++ last) as Hsplit by (symmetry; apply slice_join).
  exists init, last, (toWellFormed (init ++ linkTag ++ last)).
  split; [done|].
  assert (length last = Nat.min 1 (length content) /\
          (last = [] \/ exists z, last = [z])) as [Hlen Hlast].
  { subst init last. destruct (decide (content = [])) as [->|Hnil].
    - destruct (slice_empty (-1)) as [_ ->]. split; [done|by left].
    - destruct (exists_last Hnil) as (x & z & ->).
      destruct (slice_last x z) as [_ ->]. split; [|right; by exists z].
      rewrite length_app, Nat.add_comm. done. }
  split; [done|]. split; [done|]. split.
  { rewrite (patchers_once_written _ _ _ _ Hv).
    apply includes_false in Hfrag. rewrite Hsplit in Hfrag.
    pose proof (occurrences_app_ge linkFragment init last ltac:(done)). lia. }
  rewrite (toWellFormed_insert init linkTag last Hplain Hne).
  rewrite Hsplit in Hwf. split.
  - intros Hlow. destruct Hlast as [Hnil|[z Hz]].
    + rewrite Hnil in Hwf |- *. rewrite app_nil_r in Hwf. by rewrite Hwf.
    + rewrite Hz in Hwf, Hlow |- *. apply Forall_inv in Hlow.
      rewrite (toWellFormed_app_low init z [] Hlow) in Hwf.
      apply app_inj_1 in Hwf as [-> ->]; [done|apply length_toWellFormed].
  - intros Hlow. destruct Hlast as [Hnil|[z Hz]].
    + rewrite Hnil in Hlow. by apply Exists_nil in Hlow.
    + rewrite Hz in Hwf, Hlow |- *.
      apply Exists_cons in Hlow as [Hlow|Hlow]; [|by apply Exists_nil in Hlow].
      destruct (ends_in_pair init z Hlow Hwf) as (kept & hi & -> & Hhi & Hkept).
      exists kept, hi. split; [done|]. split; [done|].
      assert (is_low hi = false) as Hnl.
      { unfold is_high, is_low in *. apply andb_prop in Hhi as [_ H2].
        apply andb_false_iff. left. apply N.leb_le in H2. apply N.leb_gt. lia. }
      rewrite (toWellFormed_app_low kept hi [] Hnl), Hkept.
      cbn [toWellFormed]. rewrite Hhi, Hlow.
      destruct (is_high z); by rewrite <- !app_assoc.
Qed.

Lemma patch_without_head_witness :
  let content := lit "<div>hello</div>" in
  let s := fresh (theme_only content) in
  toWellFormed content = content /\
  includes content linkFragment = false /\
  includes content headEnd = false /\
  indexOf content headEnd = -1 /\
  includes linkTag_index linkFragment = true /\
  exists init last written,
    content = init ++ last /\
    length last = Nat.min 1 (length content) /\
    Index.addTailwindToThemeLiquid s
    = Ret tt (wrote s themeLiquidPath written [LinkAdded]) /\
    occurrences linkFragment written = 1%nat /\
    (Forall (fun c => is_low c = false) last ->
     written = init ++ linkTag_index ++ last) /\
    (Exists (fun c => is_low c = true) last ->
     exists kept hi,
       init = kept ++ [hi] /\ is_high hi = true /\
       written = kept ++ [replacement] ++ linkTag_index ++ [replacement]).
Proof.
  intros content s. split; [by vm_compute|]. split; [by vm_compute|].
  split; [by vm_compute|].
  apply (patch_without_head linkTag_index _ s content).
  - by left.
  - by vm_compute.
  - by vm_compute.
  - by vm_compute.
  - by vm_compute.
Defined.

(** C10, as the claim has it, fails: the template [a] followed by the
    character U+1F600 is well-formed and holds neither the reference nor
    the closing tag; the patcher cuts it between the two halves of the
    character, and the file it leaves holds U+FFFD in place of each half,
    not the original code units around the inserted text. *)
Lemma patch_splits_last_character :
  let content := (lit "a" ++ [55357; 56832])%N in
  let s := fresh (theme_only content) in
  let written :=
    texts (cwd (final (Index.addTailwindToThemeLiquid s))) !! themeLiquidPath in
  toWellFormed content = content /\
  includes content linkFragment = false /\
  includes content headEnd = false /\
  written
  = Some (lit "a" ++ [replacement] ++ linkTag_index ++ [replacement]) /\
  written <> Some ((lit "a" ++ [55357]) ++ linkTag_index ++ [56832])%N.
Proof. intros content s written. repeat split; by vm_compute. Qed.

(** ** The ignore files *)

(** Two of the fixed paths are different strings. *)
Ltac distinct_paths :=
  unfold themeLiquidPath, configFilePath, stylesPath, gitIgnorePath,
    shopifyIgnorePath, manifestPath; discriminate.

(** Unfolds the writing primitives and reduces the record projections they
    leave. *)
Ltac run_effects :=
  unfold echo, ret, writeFileSync, appendFileSync, writeManifest;
  cbn [cwd printed texts package_json negb].

Lemma bind_ext {A B} (m : M A) (f g : A -> M B) s :
  (forall a s', f a s' = g a s') -> bind m f s = bind m g s.
Proof. intros H. unfold bind. by destruct (m s). Qed.

Section Reconcile.

Variables (path : string) (block : text) (required : list text).
Hypothesis path_is_text : path <> manifestPath.
Hypothesis block_is_plain : plain block = true.
Implicit Types (s : state) (content : text).

Lemma missing_entry content :
  existsb (fun entry => negb (includes content entry)) required = true <->
  exists entry, In entry required /\ includes content entry = false.
Proof.
  rewrite existsb_exists. split; intros (e & He & H); exists e; split;
    try done; by apply negb_true_iff.
Qed.

Lemma no_missing_entry content :
  (forall entry, In entry required -> includes content entry = true) ->
  existsb (fun entry => negb (includes content entry)) required = false.
Proof.
  intros H. destruct (existsb _ required) eqn:E; [|done].
  apply missing_entry in E as (e & He & Hf). rewrite (H e He) in Hf. done.
Qed.

(** The file exists and holds every entry: nothing is written. *)
Lemma reconcile_unchanged s content :
  texts (cwd s) !! path = Some content ->
  (forall entry, In entry required -> includes content entry = true) ->
  Pinned.reconcile path block required s
  = Ret tt (said s [IgnoreExists path]).
Proof.
  intros Hfile Hall. unfold Pinned.reconcile, bind.
  rewrite (existsSync_some _ _ _ path_is_text Hfile). run_effects.
  unfold readFileSync. run_effects. rewrite Hfile.
  by rewrite (no_missing_entry _ Hall).
Qed.

(** The file exists and lacks an entry: the whole block is appended. *)
Lemma reconcile_updated s content :
  texts (cwd s) !! path = Some content ->
  (exists entry, In entry required /\ includes content entry = false) ->
  Pinned.reconcile path block required s
  = Ret tt (wrote s path (content ++ block)
              [IgnoreExists path; UpdatingIgnore path; IgnoreUpdated path]).
Proof.
  intros Hfile Hmiss. apply missing_entry in Hmiss.
  unfold Pinned.reconcile, bind.
  rewrite (existsSync_some _ _ _ path_is_text Hfile). run_effects.
  unfold readFileSync. run_effects. rewrite Hfile, Hmiss. run_effects.
  unfold wrote. rewrite Hfile. cbn [default].
  by rewrite (toWellFormed_plain block block_is_plain), <- !app_assoc.
Qed.

(** The file is absent: it is created with the block, and what happens
    next depends on whether the block holds every entry. *)
Lemma reconcile_created s :
  texts (cwd s) !! path = None ->
  (forall entry, In entry required -> includes block entry = true) ->
  Pinned.reconcile path block required s
  = Ret tt (wrote s path block [CreatingIgnore path; IgnoreCreated path]).
Proof.
  intros Hfile Hall. unfold Pinned.reconcile, bind.
  rewrite (existsSync_none _ _ path_is_text Hfile). run_effects.
  rewrite (toWellFormed_plain block block_is_plain).
  unfold readFileSync. run_effects. rewrite lookup_insert_eq.
  rewrite (no_missing_entry _ Hall). unfold wrote.
  by rewrite <- !app_assoc.
Qed.

End Reconcile.

(** [createGitIgnore] and [createShopifyIgnore] are the routine at their
    path and entries. *)
Lemma ignoreFiles_run path required create s :
  In (path, required, create) ignoreFiles ->
  create s = Pinned.reconcile path (ignore_block required) required s.
Proof.
  intros [[= <- <- <-]|[[= <- <- <-]|[]]];
    unfold Pinned.createGitIgnore, Pinned.createShopifyIgnore, Pinned.reconcile;
    apply bind_ext; intros present s1; apply bind_ext; intros _ s2;
    apply bind_ext; intros content s3;
    unfold gitIgnoreLines, shopifyIgnoreLines; cbn [existsb];
    by rewrite orb_false_r, !orb_assoc.
Qed.

Lemma ignoreFiles_text path required create :
  In (path, required, create) ignoreFiles -> path <> manifestPath.
Proof. by intros [[= <- <- <-]|[[= <- <- <-]|[]]]. Qed.

Lemma ignoreFiles_plain path required create :
  In (path, required, create) ignoreFiles ->
  plain (ignore_block required) = true.
Proof. intros [[= <- <- <-]|[[= <- <- <-]|[]]]; by vm_compute. Qed.

(** Each block holds each of its entries, once. *)
Lemma ignoreFiles_block path required create entry :
  In (path, required, create) ignoreFiles -> In entry required ->
  occurrences entry (ignore_block required) = 1%nat.
Proof.
  intros [[= <- <- <-]|[[= <- <- <-]|[]]] Hin; simpl in Hin;
    repeat (destruct Hin as [<-|Hin]; [by vm_compute|]); done.
Qed.

Lemma ignoreFiles_nonempty path required create entry :
  In (path, required, create) ignoreFiles -> In entry required -> entry <> [].
Proof.
  intros [[= <- <- <-]|[[= <- <- <-]|[]]] Hin; simpl in Hin;
    repeat (destruct Hin as [<-|Hin]; [done|]); done.
Qed.

(** ** Claims on the ignore files *)

(** C6.  When the ignore file exists and holds every required entry as a
    substring, reconciling it (either of the two files) prints the "already
    exists" line only: nothing is appended and the directory is the one it
    started from. *)
Theorem ignore_unchanged path required create s content :
  In (path, required, create) ignoreFiles ->
  texts (cwd s) !! path = Some content ->
  (forall entry, In entry required -> includes content entry = true) ->
  create s = Ret tt (said s [IgnoreExists path]) /\
  cwd (final (create s)) = cwd s.
Proof.
  intros Hf Hfile Hall. rewrite (ignoreFiles_run _ _ _ s Hf).
  rewrite (reconcile_unchanged path _ required
             (ignoreFiles_text _ _ _ Hf) s content Hfile Hall).
  done.
Qed.

Lemma ignore_unchanged_witness :
  let content :=
    lit "# local" ++ nl ++ lit "/.idea" ++ nl ++ lit ".env.local" ++ nl
      ++ lit "node_modules/" ++ nl ++ lit ".DS_Store" ++ nl
      ++ lit "package-lock.json" in
  let s := fresh (one_file gitIgnorePath content) in
  (forall entry, In entry gitIgnoreLines -> includes content entry = true) /\
  Pinned.createGitIgnore s = Ret tt (said s [IgnoreExists gitIgnorePath]) /\
  cwd (final (Pinned.createGitIgnore s)) = cwd s.
Proof.
  intros content s.
  assert (forall entry, In entry gitIgnoreLines ->
                        includes content entry = true) as Hall.
  { intros entry Hin. simpl in Hin.
    repeat (destruct Hin as [<-|Hin]; [by vm_compute|]). done. }
  split; [exact Hall|].
  apply (ignore_unchanged gitIgnorePath gitIgnoreLines _ s content).
  - by left.
  - by vm_compute.
  - exact Hall.
Defined.

(** C7.  When the ignore file exists and lacks a required entry (one is
    enough), reconciling it appends the whole block, which holds every
    required entry; so each entry that the file already held occurs at
    least twice afterwards. *)
Theorem ignore_appends_whole_block path required create s content missing :
  In (path, required, create) ignoreFiles ->
  texts (cwd s) !! path = Some content ->
  In missing required ->
  includes content missing = false ->
  create s
  = Ret tt (wrote s path (content ++ ignore_block required)
              [IgnoreExists path; UpdatingIgnore path; IgnoreUpdated path]) /\
  (forall entry, In entry required ->
                 includes (ignore_block required) entry = true) /\
  (forall entry, In entry required -> includes content entry = true ->
                 (2 <= occurrences entry (content ++ ignore_block required))%nat).
Proof.
  intros Hf Hfile Hmiss Hnot. split; [|split].
  - rewrite (ignoreFiles_run _ _ _ s Hf).
    apply (reconcile_updated path _ required (ignoreFiles_text _ _ _ Hf)
             (ignoreFiles_plain _ _ _ Hf));
      [done|]. by exists missing.
  - intros entry Hin. apply includes_true.
    rewrite (ignoreFiles_block _ _ _ entry Hf Hin). lia.
  - intros entry Hin Hheld. apply includes_true in Hheld.
    pose proof (occurrences_app_ge entry content (ignore_block required)
                  (ignoreFiles_nonempty _ _ _ entry Hf Hin)) as Hge.
    rewrite (ignoreFiles_block _ _ _ entry Hf Hin) in Hge. lia.
Qed.

Lemma ignore_appends_whole_block_witness :
  let content :=
    lit "package-lock.json" ++ nl ++ lit "tailwind.config.js" ++ nl
      ++ lit "tailwind-config.css" ++ nl ++ lit "html-ref.html" ++ nl in
  let s := fresh (one_file shopifyIgnorePath content) in
  includes content (lit "package.json") = false /\
  Pinned.createShopifyIgnore s
  = Ret tt (wrote s shopifyIgnorePath
              (content ++ ignore_block shopifyIgnoreLines)
              [IgnoreExists shopifyIgnorePath;
               UpdatingIgnore shopifyIgnorePath;
               IgnoreUpdated shopifyIgnorePath]) /\
  (forall entry, In entry shopifyIgnoreLines ->
                 includes (ignore_block shopifyIgnoreLines) entry = true) /\
  (forall entry, In entry shopifyIgnoreLines ->
                 includes content entry = true ->
                 (2 <= occurrences entry
                         (content ++ ignore_block shopifyIgnoreLines))%nat).
Proof.
  intros content s. split; [by vm_compute|].
  apply (ignore_appends_whole_block shopifyIgnorePath shopifyIgnoreLines _ s
           content (lit "package.json")).
  - right. by left.
  - by vm_compute.
  - by left.
  - by vm_compute.
Defined.

(** C3, as the code has it.  When the ignore file is absent, reconciling
    it creates the file with the block, once: the block holds each required
    entry, so the check that follows finds nothing missing and appends
    nothing, and each required entry occurs exactly once in the new file. *)
Theorem ignore_created_once path required create s :
  In (path, required, create) ignoreFiles ->
  texts (cwd s) !! path = None ->
  create s
  = Ret tt (wrote s path (ignore_block required)
              [CreatingIgnore path; IgnoreCreated path]) /\
  forall entry, In entry required ->
                occurrences entry (ignore_block required) = 1%nat.
Proof.
  intros Hf Hfile. split.
  - rewrite (ignoreFiles_run _ _ _ s Hf).
    apply (reconcile_created path _ required (ignoreFiles_text _ _ _ Hf)
             (ignoreFiles_plain _ _ _ Hf));
      [done|].
    intros entry Hin. apply includes_true.
    rewrite (ignoreFiles_block _ _ _ entry Hf Hin). lia.
  - intros entry Hin. apply (ignoreFiles_block _ _ _ entry Hf Hin).
Qed.

Lemma ignore_created_once_witness :
  let s := fresh empty_dir in
  texts (cwd s) !! shopifyIgnorePath = None /\
  Pinned.createShopifyIgnore s
  = Ret tt (wrote s shopifyIgnorePath (ignore_block shopifyIgnoreLines)
              [CreatingIgnore shopifyIgnorePath;
               IgnoreCreated shopifyIgnorePath]) /\
  forall entry, In entry shopifyIgnoreLines ->
                occurrences entry (ignore_block shopifyIgnoreLines) = 1%nat.
Proof.
  intros s. split; [done|].
  apply (ignore_created_once shopifyIgnorePath shopifyIgnoreLines _ s).
  - right. by left.
  - done.
Defined.

(** C3, as the claim has it, fails: in an empty directory [createGitIgnore]
    leaves a file that is the block once, not the block twice, prints no
    "updating" line, and the file holds [.DS_Store] once. *)
Lemma ignore_created_not_doubled :
  let block := ignore_block gitIgnoreLines in
  let r := Pinned.createGitIgnore (fresh empty_dir) in
  texts (cwd (final r)) !! gitIgnorePath = Some block /\
  texts (cwd (final r)) !! gitIgnorePath <> Some (block ++ block) /\
  printed (final r)
  = [CreatingIgnore gitIgnorePath; IgnoreCreated gitIgnorePath] /\
  occurrences (lit ".DS_Store") block = 1%nat /\
  occurrences (lit ".DS_Store") block <> 2%nat.
Proof.
  intros block r. repeat split; try (by vm_compute).
Qed.

(** ** Claim on the version prompt *)

(** C9, as the code has it.  On every sequence of input lines the prompt
    turns down, with a complaint and a new question, each line whose
    trimmed form is neither ["3"] nor ["4"]; it resolves at the first line
    whose trimmed form is one of the two, with that trimmed form, so a
    value handed to the caller is always ["3"] or ["4"]; and it stays
    pending when no line qualifies. *)
Theorem prompt_accepts_trimmed_literal answers :
  match Prompted.promptForVersion answers with
  | (out, Prompted.Resolved version rest) =>
      (version = lit "3" \/ version = lit "4") /\
      exists rejected answer,
        answers = rejected ++ answer :: rest /\
        forallb (fun a => negb (accepted a)) rejected = true /\
        version = trim answer /\
        out = reprompts (length rejected) ++ [AskVersion]
  | (out, Prompted.Pending) =>
      forallb (fun a => negb (accepted a)) answers = true /\
      out = reprompts (length answers) ++ [AskVersion]
  end.
Proof.
  induction answers as [|answer rest IH]; [done|].
  cbn [Prompted.promptForVersion].
  change (bool_decide (trim answer = lit "3")
          || bool_decide (trim answer = lit "4")) with (accepted answer).
  destruct (accepted answer) eqn:Hacc.
  - split.
    + unfold accepted in Hacc. apply orb_prop in Hacc as [H|H];
        apply bool_decide_eq_true in H; auto.
    + by exists [], answer.
  - destruct (Prompted.promptForVersion rest) as [out [version rest'|]].
    + destruct IH as (Hv & rejected & a & -> & Hrej & -> & ->).
      split; [done|]. exists (answer :: rejected), a.
      cbn [forallb length]. rewrite Hacc, Hrej. done.
    + destruct IH as (Hrej & ->).
      cbn [forallb length]. rewrite Hacc, Hrej. done.
Qed.

(** C9, as the claim has it, fails: the line [" 3"] is neither of the two
    accepted strings, and the prompt resolves on it without asking again. *)
Lemma prompt_accepts_padded_answer :
  let answer := lit " 3" in
  answer <> lit "3" /\ answer <> lit "4" /\
  Prompted.promptForVersion [answer]
  = ([AskVersion], Prompted.Resolved (lit "3") []).
Proof. intros answer. repeat split; by vm_compute. Qed.

(** ** The installer, phase by phase *)

(** Each message of a literal list is one of those of a literal list. *)
Ltac log_listed :=
  repeat (constructor 2; [simpl; auto 10|]); constructor 1.

Lemma bind_assoc {A B C} (m : M A) (f : A -> M B) (g : B -> M C) s :
  bind (bind m f) g s = bind m (fun a => bind (f a) g) s.
Proof. unfold bind. by destruct (m s). Qed.

Lemma bind_Ret {A B} (m : M A) (f : A -> M B) s b s' :
  bind m f s = Ret b s' -> exists a s0, m s = Ret a s0 /\ f a s0 = Ret b s'.
Proof. unfold bind. destruct (m s) as [a s0| |]; [|done..]. by exists a, s0. Qed.

Lemma wp_bind {A B} (m : M A) (f : A -> M B) Q E s :
  wp (bind m f) Q E s = wp m (fun a s' => wp (f a) Q E s') E s.
Proof. unfold wp, bind. by destruct (m s). Qed.

Lemma install_phases h linkTag cmd ign s :
  Installer.installTailwindCSS h linkTag cmd ign s
  = (Installer.prelude h cmd;; Installer.configure linkTag ign) s.
Proof.
  symmetry. unfold Installer.prelude, Installer.installTailwindCSS.
  do 7 (rewrite bind_assoc; apply bind_ext; intros ? ?).
  reflexivity.
Qed.

Lemma installers_run cmd linkTag install h s :
  In (cmd, linkTag, install) installers ->
  exists ign,
    install h s = (Installer.prelude h cmd;; Installer.configure linkTag ign) s /\
    (ign = ret tt \/ ign = (Pinned.createGitIgnore;; Pinned.createShopifyIgnore)).
Proof.
  intros [[= <- <- <-]|[[= <- <- <-]|[]]]; eexists; split;
    try apply install_phases; auto.
Qed.

(** Rules of [wp] for the primitives. *)
Lemma wp_ret {A} (a : A) Q E s : wp (ret a) Q E s = Q a s.
Proof. done. Qed.

Lemma wp_echo m Q E s : wp (echo m) Q E s = Q tt (said s [m]).
Proof. done. Qed.

Lemma wp_exit {A} c (Q : A -> state -> Prop) E s : wp (exit c) Q E s = E c s.
Proof. done. Qed.

Lemma wp_throw {A} e (Q : A -> state -> Prop) E s :
  wp (throw e) Q E s = E 1 s.
Proof. done. Qed.

Lemma wp_if {A} (b : bool) (m1 m2 : M A) Q E s :
  wp (if b then m1 else m2) Q E s = if b then wp m1 Q E s else wp m2 Q E s.
Proof. by destruct b. Qed.

Lemma wp_exec h cmd Q E s :
  wp (exec h cmd) Q E s
  = Q (run_command h cmd (cwd s)).1
      (State (run_command h cmd (cwd s)).2 (printed s)).
Proof. unfold wp, exec. by destruct (run_command h cmd (cwd s)). Qed.

Lemma wp_existsSync_text path Q E s :
  path <> manifestPath ->
  wp (existsSync path) Q E s
  = Q (bool_decide (is_Some (texts (cwd s) !! path))) s.
Proof. intros H. unfold wp. by rewrite existsSync_text. Qed.

Lemma wp_existsSync_manifest Q E s :
  wp (existsSync manifestPath) Q E s
  = Q (bool_decide (is_Some (package_json (cwd s)))) s.
Proof. unfold wp. by rewrite existsSync_manifest. Qed.

Lemma wp_writeFileSync path data Q E s :
  wp (writeFileSync path data) Q E s
  = Q tt (wrote s path (toWellFormed data) []).
Proof. unfold wp, writeFileSync, wrote. by rewrite app_nil_r. Qed.

(** One step of symbolic execution of the head of a [wp] goal. *)
Ltac wp_step :=
  first [ rewrite wp_bind | rewrite wp_echo | rewrite wp_ret
        | rewrite wp_exit | rewrite wp_throw | rewrite wp_exec
        | rewrite wp_if | rewrite wp_writeFileSync
        | rewrite wp_existsSync_manifest
        | rewrite (wp_existsSync_text _ _ _ _ theme_is_text)
        | rewrite (wp_existsSync_text _ _ _ _ config_is_text)
        | rewrite (wp_existsSync_text _ _ _ _ styles_is_text) ];
  cbv beta.

(** The first phase: when it returns, and what it leaves of the directory
    and prints in any case. *)
Lemma prelude_wp h cmd s :
  let d := cwd s in
  let d1 := if bool_decide (is_Some (package_json d)) then d
            else (run_command h "npm init -y" d).2 in
  let d2 := (run_command h cmd d1).2 in
  let logged s' :=
    exists more,
      printed s' = printed s ++ more /\
      Forall (fun m => In m [NodeMissing; NotShopify; InitialisingNpm;
                             NpmInitFailed; Installing; InstallFailed]) more in
  wp (Installer.prelude h cmd)
    (fun _ s2 =>
       node_on_path h = true /\ is_Some (texts d !! themeLiquidPath) /\
       cwd s2 = d2 /\ logged s2)
    (fun c s' =>
       c = 1 /\ (cwd s' = d \/ cwd s' = d1 \/ cwd s' = d2) /\ logged s') s.
Proof.
  intros d d1 d2 logged. subst logged d2 d1 d.
  unfold Installer.prelude, Installer.isShopifyProject.
  do 2 wp_step. destruct (node_on_path h); cbn [negb]; repeat wp_step.
  2:{ split; [done|]. split; [by left|]. eexists. split; [done|]. log_listed. }
  case_bool_decide as Htheme; cbn [negb]; repeat wp_step.
  2:{ split; [done|]. split; [by left|]. eexists. split; [done|]. log_listed. }
  case_bool_decide as Hman; cbn [negb]; repeat wp_step.
  - cbn [cwd printed said].
    destruct (run_command h cmd (cwd s)) as [c2 d2]. cbn [fst snd].
    destruct (c2 =? 0); cbn [negb]; repeat wp_step; cbn [cwd printed said].
    + repeat split; try done. eexists. split; [done|]. log_listed.
    + split; [done|]. split; [by right; right|].
      eexists. rewrite <- app_assoc. split; [done|]. log_listed.
  - cbn [cwd printed said].
    destruct (run_command h "npm init -y" (cwd s)) as [c1 d1]. cbn [fst snd].
    destruct (c1 =? 0); cbn [negb]; repeat wp_step; cbn [cwd printed said].
    + destruct (run_command h cmd d1) as [c2 d2]. cbn [fst snd].
      destruct (c2 =? 0); cbn [negb]; repeat wp_step; cbn [cwd printed said].
      * repeat split; try done.
        eexists. rewrite <- !app_assoc. split; [done|]. log_listed.
      * split; [done|]. split; [by right; right|].
        eexists. rewrite <- !app_assoc. split; [done|]. log_listed.
    + split; [done|]. split; [by right; left|].
      eexists. rewrite <- !app_assoc. split; [done|]. log_listed.
Qed.

(** ** The parts of the second phase *)

Section Members.

Implicit Types (k : text) (v : json) (ms : list (text * json)).

Lemma assoc_upsert k v ms : assoc k (upsert k v ms) = Some v.
Proof.
  induction ms as [|[k' v'] ms IH]; simpl.
  - by rewrite decide_True.
  - destruct (decide (k = k')) as [->|Hne]; simpl.
    + by rewrite decide_True.
    + by rewrite decide_False.
Qed.

Lemma assoc_upsert_ne k k' v ms :
  k <> k' -> assoc k' (upsert k v ms) = assoc k' ms.
Proof.
  intros Hne. induction ms as [|[k0 v0] ms IH]; simpl.
  - rewrite decide_False; [done|]. by intros ->.
  - destruct (decide (k = k0)) as [->|Hk]; simpl.
    + rewrite !decide_False; [done|by intros ->..].
    + by rewrite IH.
Qed.

Lemma upsert_same k v ms : assoc k ms = Some v -> upsert k v ms = ms.
Proof.
  induction ms as [|[k' v'] ms IH]; simpl; [done|].
  destruct (decide (k = k')) as [->|Hne].
  - by intros [= ->].
  - intros H. by rewrite IH.
Qed.

Lemma assoc_reparsed k ms :
  assoc k (List.map (fun m => let '(k', x) := m in (k', reparsed x)) ms)
  = reparsed <$> assoc k ms.
Proof.
  induction ms as [|[k' v'] ms IH]; [done|]. cbn [List.map assoc].
  by destruct (decide (k = k')).
Qed.

Lemma get_member_reparsed v k :
  get_member (reparsed v) k = reparsed <$> get_member v k.
Proof.
  destruct v as [|b|x|t|elems|ms]; try done.
  - by destruct x.
  - apply assoc_reparsed.
Qed.

(** What is read back of a value that is not an object is not an object,
    and has no member. *)
Lemma reparsed_no_member v k :
  (forall ms, v <> JObj ms) -> get_member (reparsed v) k = None.
Proof.
  intros Hnot. rewrite get_member_reparsed.
  destruct v; try done. by destruct (Hnot members).
Qed.

Lemma reparsed_not_object v ms :
  (forall ms', v <> JObj ms') -> reparsed v <> JObj ms.
Proof.
  intros Hnot. destruct v as [|b|x|t|elems|ms0]; try done.
  - by destruct x.
  - by destruct (Hnot ms0).
Qed.

(** Reading back keeps a value truthy, but for an infinity, which reads
    back as [null]. *)
Lemma truthy_reparsed v :
  truthy (Some v) = true ->
  truthy (Some (reparsed v)) = true \/ reparsed v = JNull.
Proof.
  destruct v as [|b|x|t|elems|ms]; cbn [reparsed truthy]; auto.
  destruct x; cbn [truthy]; auto.
Qed.

End Members.

(** The build-script step on a manifest that parses. *)
Lemma addBuildScript_doc s v :
  package_json (cwd s) = Some (Doc v) ->
  Installer.addBuildScript s
  = match v with
    | JNull => Throw TypeError s
    | JObj _ | JArr _ =>
        if negb (truthy (get_member v (lit "scripts")))
           || negb (truthy (tailwind_of v))
        then Ret tt (State (Dir (texts (cwd s))
                                (Some (Doc (reparsed (with_build_script v)))))
                           (printed s ++ [ScriptAdded]))
        else Ret tt (said s [ScriptExists])
    | _ =>
        if negb (truthy (get_member v (lit "scripts")))
           || negb (truthy (tailwind_of v))
        then Throw TypeError s
        else Ret tt (said s [ScriptExists])
    end.
Proof.
  intros H. unfold Installer.addBuildScript, bind, readManifest. rewrite H.
  destruct v; try done;
    by destruct (negb (truthy _) || negb (truthy _)).
Qed.

(** Without a manifest that parses the step throws, and writes nothing. *)
Lemma addBuildScript_unreadable s :
  (forall v, package_json (cwd s) <> Some (Doc v)) ->
  exists e, Installer.addBuildScript s = Throw e s.
Proof.
  intros H. unfold Installer.addBuildScript, bind, readManifest.
  destruct (package_json (cwd s)) as [[|v]|]; eauto. by destruct (H v).
Qed.

(** The step never touches a text file, and only adds to what was
    printed. *)
Lemma addBuildScript_frame s :
  texts (cwd (final (Installer.addBuildScript s))) = texts (cwd s) /\
  exists more, printed (final (Installer.addBuildScript s)) = printed s ++ more.
Proof.
  destruct (package_json (cwd s)) as [[|v]|] eqn:Hm.
  - destruct (addBuildScript_unreadable s) as [e ->]; [by rewrite Hm|].
    split; [done|]. exists []. by rewrite app_nil_r.
  - rewrite (addBuildScript_doc s v Hm).
    destruct v; try destruct (negb (truthy _) || negb (truthy _));
      cbn [final cwd printed texts said]; (split; [done|]);
      first [by eexists | exists []; by rewrite app_nil_r].
  - destruct (addBuildScript_unreadable s) as [e ->]; [by rewrite Hm|].
    split; [done|]. exists []. by rewrite app_nil_r.
Qed.

(** The scripts of an object as they are read back. *)
Lemma scripts_of_written ms x :
  get_member (reparsed (JObj (upsert (lit "scripts") x ms))) (lit "scripts")
  = Some (reparsed x).
Proof. rewrite get_member_reparsed. cbn [get_member]. by rewrite assoc_upsert. Qed.

(** The scripts with which the step goes on: an object, or a truthy value
    that is not one. *)
Lemma scripts_or_fresh (o : option json) :
  (exists ss, match o with
              | Some x => if truthy o then x else JObj []
              | None => JObj []
              end = JObj ss /\
              forall ss', o = Some (JObj ss') -> ss = ss') \/
  (exists x, o = Some x /\ truthy (Some x) = true /\
             (forall ss, x <> JObj ss) /\
             match o with
             | Some x => if truthy o then x else JObj []
             | None => JObj []
             end = x).
Proof.
  destruct o as [x|]; [|left; exists []; split; [done|congruence]].
  destruct (truthy (Some x)) eqn:Hx.
  - destruct x as [|b|n|t|es|ss]; try (right; eexists; by repeat split).
    left. exists ss. split; [done|]. by intros ss' [= ->].
  - left. exists []. split; [done|]. intros ss' [= ->]. done.
Qed.

(** When the step returns, the manifest is settled, unless [scripts] was a
    number beyond the range, which has been written as [null]. *)
Lemma addBuildScript_Ret s s' :
  Installer.addBuildScript s = Ret tt s' ->
  exists v1,
    package_json (cwd s') = Some (Doc v1) /\
    (settled v1 \/ get_member v1 (lit "scripts") = Some JNull).
Proof.
  intros Hrun.
  destruct (package_json (cwd s)) as [[|v]|] eqn:Hm;
    try (destruct (addBuildScript_unreadable s) as [e He];
         [by rewrite Hm|congruence]).
  rewrite (addBuildScript_doc s v Hm) in Hrun.
  assert (negb (truthy (get_member v (lit "scripts")))
          || negb (truthy (tailwind_of v)) = false -> settled v) as Hkept.
  { intros Hb. apply orb_false_elim in Hb as [H1 H2].
    apply negb_false_iff in H1, H2. by left. }
  destruct v as [|b|n|t|elems|ms];
    try done;
    destruct (negb (truthy _) || negb (truthy _)) eqn:Hb;
    try done; injection Hrun as <-; cbn [cwd package_json said];
    try (eexists; split; [by rewrite Hm|left; by apply Hkept]).
  - (* an array: the assignment is lost *)
    eexists. split; [done|]. left. right; left.
    unfold with_build_script. cbn [get_member set_member reparsed]. by eexists.
  - (* an object *)
    eexists. split; [done|]. unfold with_build_script.
    cbn [get_member set_member].
    destruct (scripts_or_fresh (assoc (lit "scripts") ms))
      as [(ss & -> & _)|(o & Hs & Ho & Hnot & ->)].
    + left. left. unfold tailwind_of.
      change (JObj (List.map _ ?l)) with (reparsed (JObj l)).
      rewrite scripts_of_written.
      cbn [set_member reparsed truthy]. split; [done|].
      cbn [get_member]. rewrite assoc_reparsed, assoc_upsert. done.
    + assert (set_member o (lit "tailwind") (JStr buildCommand) = o) as ->.
      { destruct o; try done. by destruct (Hnot members). }
      destruct (truthy_reparsed o Ho) as [Ht|Hnull].
      * left. right; right.
        eexists _, (reparsed o). split; [done|].
        rewrite assoc_reparsed, assoc_upsert. split; [done|]. split; [done|].
        intros ms'. by apply reparsed_not_object.
      * right. by rewrite assoc_reparsed, assoc_upsert, <- Hnull.
Qed.

(** On a settled manifest, or one that agrees with it on [scripts], the
    step returns and [scripts.tailwind] reads as before. *)
Lemma addBuildScript_settled s v1 :
  settled v1 ->
  same_scripts (Some (Doc v1)) (package_json (cwd s)) ->
  exists s' more,
    Installer.addBuildScript s = Ret tt s' /\
    texts (cwd s') = texts (cwd s) /\
    scripts_tailwind (cwd s') = tailwind_of v1 /\
    printed s' = printed s ++ more /\
    (truthy (tailwind_of v1) = true -> more = [ScriptExists]).
Proof.
  intros Hset Hsame.
  assert (exists v2, package_json (cwd s) = Some (Doc v2) /\
                     get_member v2 (lit "scripts") = get_member v1 (lit "scripts") /\
                     (v2 = v1 \/ exists ms ms2, v1 = JObj ms /\ v2 = JObj ms2))
    as (v2 & Hm & Hscripts & Hshape).
  { destruct Hsame as [<-|(ms & ms2 & [= ->] & -> & Hs)].
    - exists v1. auto.
    - exists (JObj ms2). repeat split; [done|]. right. by exists ms, ms2. }
  assert (tailwind_of v2 = tailwind_of v1) as Htw.
  { unfold tailwind_of. by rewrite Hscripts. }
  rewrite (addBuildScript_doc s v2 Hm).
  destruct Hset as [[Hs Ht]|[[elems ->]|(ms & o & -> & Ho & Htruthy & Hnot)]].
  - (* the script is there *)
    assert (exists ms2, v2 = JObj ms2) as [ms2 ->].
    { rewrite <- Hscripts in Hs. destruct v2; try done. by eexists. }
    rewrite Hscripts, Htw, Hs, Ht. cbn [negb orb].
    exists (said s [ScriptExists]), [ScriptExists]. repeat split; try done.
    unfold scripts_tailwind. cbn [said cwd]. by rewrite Hm.
  - (* an array *)
    destruct Hshape as [->|(? & ? & ? & ?)]; [|done].
    cbn [get_member truthy negb orb].
    eexists _, [ScriptAdded]. repeat split; try done.
  - (* an object whose scripts is not an object *)
    assert (exists ms2, v2 = JObj ms2) as [ms2 ->].
    { destruct Hshape as [->|(? & ms2 & _ & ->)]; by eexists. }
    cbn [get_member] in Hscripts. rewrite Ho in Hscripts.
    assert (tailwind_of (JObj ms) = None) as Hnone.
    { unfold tailwind_of. cbn [get_member]. rewrite Ho.
      destruct o; try done. by destruct (Hnot members). }
    rewrite Htw, Hnone. cbn [truthy negb]. rewrite orb_true_r.
    eexists _, [ScriptAdded]. repeat split; try done.
    unfold scripts_tailwind, with_build_script.
    cbn [cwd package_json get_member set_member].
    rewrite Hscripts, Htruthy.
    assert (set_member o (lit "tailwind") (JStr buildCommand) = o) as ->.
    { destruct o; try done. by destruct (Hnot members). }
    rewrite (upsert_same _ _ _ Hscripts).
    unfold tailwind_of. rewrite get_member_reparsed.
    cbn [get_member]. rewrite Hscripts. cbn [fmap option_fmap option_map].
    by apply reparsed_no_member.
Qed.

(** The patcher always returns; it leaves the manifest and every other
    text file alone, and only adds to what was printed. *)
Lemma patch_total linkTag s :
  exists s' line,
    Installer.addTailwindToThemeLiquid linkTag s = Ret tt s' /\
    package_json (cwd s') = package_json (cwd s) /\
    (forall p, p <> themeLiquidPath ->
               texts (cwd s') !! p = texts (cwd s) !! p) /\
    printed s' = printed s ++ [line].
Proof.
  destruct (texts (cwd s) !! themeLiquidPath) as [content|] eqn:Hfile.
  - destruct (includes content linkFragment) eqn:Hin.
    + rewrite (patch_present linkTag s content Hfile Hin).
      by eexists _, _.
    + rewrite (patch_insert linkTag s content Hfile Hin).
      eexists _, _. repeat split; try done.
      intros p Hp. cbn [cwd texts]. by rewrite lookup_insert_ne.
  - rewrite (patch_missing linkTag s Hfile). by eexists _, _.
Qed.

(** The routine on an ignore file always returns, and touches that file
    only. *)
Lemma reconcile_frame path block required s :
  path <> manifestPath ->
  exists s' more,
    Pinned.reconcile path block required s = Ret tt s' /\
    package_json (cwd s') = package_json (cwd s) /\
    (forall p, p <> path -> texts (cwd s') !! p = texts (cwd s) !! p) /\
    printed s' = printed s ++ more.
Proof.
  intros Hp. unfold Pinned.reconcile, bind.
  rewrite (existsSync_text _ _ Hp).
  destruct (texts (cwd s) !! path) as [content|] eqn:Hfile.
  - rewrite bool_decide_true by done. run_effects.
    unfold readFileSync. run_effects. rewrite Hfile.
    destruct (existsb _ required); run_effects.
    + eexists _, _. repeat split; try done.
      * intros p Hne. cbn [cwd texts]. by rewrite lookup_insert_ne.
      * cbn [printed]. by rewrite <- !app_assoc.
    + by eexists _, _.
  - rewrite bool_decide_false by (by intros [? ?]). run_effects.
    unfold readFileSync. run_effects. rewrite lookup_insert_eq.
    destruct (existsb _ required); run_effects.
    + eexists _, _. repeat split; try done.
      * intros p Hne. cbn [cwd texts]. by rewrite !lookup_insert_ne.
      * cbn [printed]. by rewrite <- !app_assoc.
    + eexists _, _. repeat split; try done.
      * intros p Hne. cbn [cwd texts]. by rewrite !lookup_insert_ne.
      * cbn [printed]. by rewrite <- !app_assoc.
Qed.

Lemma harmless_ret : harmless (ret tt).
Proof. intros s. exists s, []. by rewrite app_nil_r. Qed.

Lemma harmless_ignoreFiles :
  harmless (Pinned.createGitIgnore;; Pinned.createShopifyIgnore).
Proof.
  intros s. unfold bind.
  rewrite (ignoreFiles_run gitIgnorePath gitIgnoreLines _ s ltac:(by left)).
  destruct (reconcile_frame gitIgnorePath (ignore_block gitIgnoreLines)
              gitIgnoreLines s gitIgnore_is_text)
    as (s1 & more1 & -> & Hm1 & Ht1 & Hp1).
  rewrite (ignoreFiles_run shopifyIgnorePath shopifyIgnoreLines _ s1
             ltac:(by right; left)).
  destruct (reconcile_frame shopifyIgnorePath (ignore_block shopifyIgnoreLines)
              shopifyIgnoreLines s1 shopifyIgnore_is_text)
    as (s2 & more2 & -> & Hm2 & Ht2 & Hp2).
  exists s2, (more1 ++ more2).
  rewrite Hm2, Hm1, !Ht2, !Ht1, Hp2, Hp1 by done.
  by rewrite app_assoc.
Qed.

(** The second phase, step by step: the two generated files, then the
    build script, and when that returns, the patcher, the ignore files and
    the closing lines. *)
Lemma configure_run linkTag ign s :
  harmless ign ->
  match Installer.addBuildScript (after_files s) with
  | Ret _ sc =>
      exists sd se,
        Installer.addTailwindToThemeLiquid linkTag sc = Ret tt sd /\
        ign sd = Ret tt se /\
        Installer.configure linkTag ign s
        = Ret tt (said se [Installed; HintBuild; HintInclude])
  | Exit c sc => Installer.configure linkTag ign s = Exit c sc
  | Throw e sc => Installer.configure linkTag ign s = Throw e sc
  end.
Proof.
  intros Hign. unfold after_files.
  set (sa := wrote (said s [GeneratingConfig]) configFilePath customConfig
               [ConfigCreated]).
  set (sb := if bool_decide (is_Some (texts (cwd s) !! stylesPath))
             then said sa [StylesExists]
             else wrote sa stylesPath stylesTemplate [StylesCreated]).
  assert (Installer.configure linkTag ign s
          = (Installer.addBuildScript;;
             Installer.addTailwindToThemeLiquid linkTag;;
             ign;; echo Installed;; echo HintBuild;; echo HintInclude) sb)
    as ->.
  { unfold Installer.configure, bind at 1 2 3 4 5. run_effects.
    rewrite (existsSync_text _ _ styles_is_text). cbn [cwd texts].
    rewrite lookup_insert_ne by distinct_paths. subst sb sa.
    case_bool_decide; reflexivity. }
  destruct (Installer.addBuildScript sb) as [[] sc|c sc|e sc] eqn:Hb;
    [|unfold bind at 1; by rewrite Hb..].
  destruct (patch_total linkTag sc) as (sd & line & Hpatch & _).
  destruct (Hign sd) as (se & more & Hse & _).
  exists sd, se. split; [done|]. split; [done|].
  unfold bind. rewrite Hb, Hpatch, Hse. run_effects. unfold said.
  by rewrite <- !app_assoc.
Qed.

(** What the second phase leaves of the two generated files, however it
    ends: the configuration is the template; the style sheet is what it
    was, or the template when there was none. *)
Lemma configure_files linkTag ign s :
  harmless ign ->
  let r := Installer.configure linkTag ign s in
  texts (cwd (final r)) !! configFilePath = Some customConfig /\
  texts (cwd (final r)) !! stylesPath
  = Some (default stylesTemplate (texts (cwd s) !! stylesPath)).
Proof.
  intros Hign r. subst r.
  pose proof (configure_run linkTag ign s Hign) as Hrun.
  unfold after_files in Hrun. cbv zeta in Hrun.
  set (sa := wrote (said s [GeneratingConfig]) configFilePath customConfig
               [ConfigCreated]) in *.
  set (sb := if bool_decide (is_Some (texts (cwd s) !! stylesPath))
             then said sa [StylesExists]
             else wrote sa stylesPath stylesTemplate [StylesCreated]) in *.
  assert (texts (cwd sb) !! configFilePath = Some customConfig /\
          texts (cwd sb) !! stylesPath
          = Some (default stylesTemplate (texts (cwd s) !! stylesPath)))
    as [Hcfg Hsty].
  { subst sb sa. case_bool_decide as Hs; cbn [cwd texts said wrote].
    - destruct Hs as [old Hs]. rewrite lookup_insert_eq.
      rewrite lookup_insert_ne by distinct_paths. by rewrite Hs.
    - rewrite lookup_insert_ne by distinct_paths.
      rewrite !lookup_insert_eq.
      destruct (texts (cwd s) !! stylesPath) eqn:E; [|done].
      destruct Hs. by eexists. }
  destruct (addBuildScript_frame sb) as [Hsc _].
  destruct (Installer.addBuildScript sb) as [[] sc|c sc|e sc] eqn:Hb.
  - destruct Hrun as (sd & se & Hpatch & Hse & ->).
    destruct (patch_total linkTag sc) as (sd' & line & Hpatch' & _ & Hsd & _).
    rewrite Hpatch in Hpatch'. injection Hpatch' as <-.
    destruct (Hign sd) as (se' & more & Hse' & _ & _ & Hc & Hs & _).
    rewrite Hse in Hse'. injection Hse' as <-.
    cbn [final cwd said] in *.
    rewrite Hc, Hs, !Hsd by distinct_paths. by rewrite Hsc.
  - rewrite Hrun. cbn [final] in *. by rewrite Hsc.
  - rewrite Hrun. cbn [final] in *. by rewrite Hsc.
Qed.

(** ** Claims on the installer *)

(** C8.  When [node] is found and [layout/theme.liquid] does not exist,
    the installer (of [index.js] and of [part_001] alike) prints the "not a
    Shopify project" line and exits with status 1, leaving the directory
    as it found it. *)
Theorem not_a_theme_exits cmd linkTag install h s :
  In (cmd, linkTag, install) installers ->
  node_on_path h = true ->
  texts (cwd s) !! themeLiquidPath = None ->
  install h s = Exit 1 (said s [NotShopify]) /\
  status (install h s) = 1 /\
  cwd (final (install h s)) = cwd s.
Proof.
  intros Hi Hnode Htheme.
  destruct (installers_run _ _ _ h s Hi) as (ign & -> & _).
  assert (Installer.prelude h cmd s = Exit 1 (said s [NotShopify])) as Hpre.
  { unfold Installer.prelude, Installer.isShopifyProject, bind.
    rewrite Hnode. cbn [negb]. unfold ret at 1.
    by rewrite (existsSync_none _ _ theme_is_text Htheme). }
  unfold bind. by rewrite Hpre.
Qed.

Lemma not_a_theme_exits_witness :
  let s := fresh empty_dir in
  node_on_path npm_host = true /\
  texts (cwd s) !! themeLiquidPath = None /\
  Index.installTailwindCSS npm_host s = Exit 1 (said s [NotShopify]) /\
  status (Index.installTailwindCSS npm_host s) = 1 /\
  cwd (final (Index.installTailwindCSS npm_host s)) = cwd s.
Proof.
  intros s. split; [done|]. split; [done|].
  apply (not_a_theme_exits indexCommand linkTag_index).
  - by left.
  - done.
  - done.
Defined.

(** C2, as the code has it.  An install that gets as far as generating
    the configuration writes the template to [tailwind.config.js] whatever
    the file held before.  Only the style sheet [tailwind-config.css] is
    written on a presence check: provided the external commands leave it
    alone, an existing one keeps its content, and an absent one is the
    template after an install that ran to the end. *)
Theorem config_rewritten_styles_kept cmd linkTag install h d :
  In (cmd, linkTag, install) installers ->
  keeps_file h stylesPath ->
  let r := install h (fresh d) in
  (In ConfigCreated (printed (final r)) ->
   texts (cwd (final r)) !! configFilePath = Some customConfig) /\
  (forall old, texts d !! stylesPath = Some old ->
               texts (cwd (final r)) !! stylesPath = Some old) /\
  (texts d !! stylesPath = None -> status r = 0 ->
   texts (cwd (final r)) !! stylesPath = Some stylesTemplate).
Proof.
  intros Hi Hkeep r. subst r.
  destruct (installers_run _ _ _ h (fresh d) Hi) as (ign & -> & Hign).
  assert (harmless ign) as Hh.
  { destruct Hign as [->| ->]; [apply harmless_ret|apply harmless_ignoreFiles]. }
  pose proof (prelude_wp h cmd (fresh d)) as Hpre. cbv zeta in Hpre.
  unfold wp in Hpre. unfold bind.
  set (d1 := if bool_decide (is_Some (package_json (cwd (fresh d))))
             then cwd (fresh d)
             else (run_command h "npm init -y" (cwd (fresh d))).2) in *.
  assert (texts d1 !! stylesPath = texts d !! stylesPath) as Hd1.
  { subst d1. case_bool_decide; [done|]. apply Hkeep. }
  assert (texts (run_command h cmd d1).2 !! stylesPath = texts d !! stylesPath)
    as Hd2 by (by rewrite Hkeep).
  assert (forall c s',
            c = 1 /\
            (cwd s' = cwd (fresh d) \/ cwd s' = d1 \/
             cwd s' = (run_command h cmd d1).2) /\
            (exists more,
               printed s' = printed (fresh d) ++ more /\
               Forall (fun m => In m [NodeMissing; NotShopify; InitialisingNpm;
                                      NpmInitFailed; Installing; InstallFailed])
                 more) ->
            (In ConfigCreated (printed s') ->
             texts (cwd s') !! configFilePath = Some customConfig) /\
            (forall old, texts d !! stylesPath = Some old ->
                         texts (cwd s') !! stylesPath = Some old) /\
            (texts d !! stylesPath = None -> c = 0 ->
             texts (cwd s') !! stylesPath = Some stylesTemplate)) as Hstop.
  { intros c s' (-> & Hcwd & more & Hlog & Hmore). split; [|split]; [| |done].
    - rewrite Hlog. cbn [fresh printed app]. intros Hin.
      rewrite Forall_forall in Hmore. apply list_elem_of_In, Hmore in Hin.
      simpl in Hin.
      repeat (destruct Hin as [Hin|Hin]; [done|]). done.
    - intros old Hold.
      destruct Hcwd as [-> | [-> | ->]]; by rewrite ?Hd1, ?Hd2. }
  destruct (Installer.prelude h cmd (fresh d)) as [[] s2|c s'|e s'].
  - destruct Hpre as (_ & _ & Hcwd & _).
    destruct (configure_files linkTag ign s2 Hh) as [Hcfg Hsty].
    rewrite Hcfg, Hsty, Hcwd, Hd2. split; [done|]. split.
    + by intros old ->.
    + by intros ->.
  - cbn [final status]. by apply Hstop.
  - cbn [final status]. by apply (Hstop 1).
Qed.

Lemma config_rewritten_styles_kept_witness :
  let d := Dir {[ themeLiquidPath := lit "<head></head>";
                  stylesPath := lit "@tailwind utilities;" ]}
               (Some (Doc (JObj []))) in
  let r := Pinned.installTailwindCSS npm_host (fresh d) in
  keeps_file npm_host stylesPath /\
  (In ConfigCreated (printed (final r)) ->
   texts (cwd (final r)) !! configFilePath = Some customConfig) /\
  (forall old, texts d !! stylesPath = Some old ->
               texts (cwd (final r)) !! stylesPath = Some old) /\
  (texts d !! stylesPath = None -> status r = 0 ->
   texts (cwd (final r)) !! stylesPath = Some stylesTemplate).
Proof.
  intros d r.
  assert (keeps_file npm_host stylesPath) as Hkeep.
  { intros cmd d'. unfold npm_host, npm_run. cbn [run_command].
    by destruct (decide (cmd = "npm init -y")). }
  split; [exact Hkeep|].
  apply (config_rewritten_styles_kept pinnedCommand linkTag_pinned).
  - right. by left.
  - exact Hkeep.
Defined.

(** C2, as the claim has it, fails: with a configuration file in place,
    the install runs to the end and the file is the template, not what it
    was. *)
Lemma config_overwritten :
  let d := Dir {[ themeLiquidPath := lit "<head></head>";
                  configFilePath := lit "module.exports = {};" ]}
               (Some (Doc (JObj []))) in
  let r := Index.installTailwindCSS npm_host (fresh d) in
  texts d !! configFilePath = Some (lit "module.exports = {};") /\
  status r = 0 /\
  texts (cwd (final r)) !! configFilePath = Some customConfig /\
  texts (cwd (final r)) !! configFilePath <> texts d !! configFilePath.
Proof. intros d r. repeat split; by vm_compute. Qed.

(** ** Running the installer a second time *)

Lemma after_files_frame s :
  package_json (cwd (after_files s)) = package_json (cwd s) /\
  texts (cwd (after_files s)) !! themeLiquidPath
  = texts (cwd s) !! themeLiquidPath /\
  exists more, printed (after_files s) = printed s ++ more.
Proof.
  unfold after_files. case_bool_decide; cbn [cwd texts package_json said wrote printed];
    rewrite ?lookup_insert_ne by distinct_paths;
    (split; [done|]); (split; [done|]); eexists; by rewrite <- !app_assoc.
Qed.

Lemma same_scripts_tailwind d d' :
  same_scripts (package_json d) (package_json d') ->
  scripts_tailwind d' = scripts_tailwind d.
Proof.
  unfold scripts_tailwind.
  intros [<-|(ms & ms' & -> & -> & H)]; [done|].
  unfold tailwind_of. cbn [get_member]. by rewrite H.
Qed.

Lemma installers_patchers cmd linkTag install :
  In (cmd, linkTag, install) installers ->
  exists patch, In (linkTag, patch) patchers.
Proof.
  intros [[= <- <- <-]|[[= <- <- <-]|[]]]; eexists; [by left|by right; left].
Qed.

(** What a second phase that returned leaves behind: the template holds
    the stylesheet reference (once, when it held it at most once before)
    and the manifest is settled, unless its [scripts] has been written as
    [null]. *)
Lemma configure_Ret linkTag patch ign s s1 t0 :
  In (linkTag, patch) patchers ->
  harmless ign ->
  Installer.configure linkTag ign s = Ret tt s1 ->
  texts (cwd s) !! themeLiquidPath = Some t0 ->
  exists t1 v1,
    texts (cwd s1) !! themeLiquidPath = Some t1 /\
    includes t1 linkFragment = true /\
    ((occurrences linkFragment t0 <= 1)%nat ->
     occurrences linkFragment t1 = 1%nat) /\
    package_json (cwd s1) = Some (Doc v1) /\
    (settled v1 \/ get_member v1 (lit "scripts") = Some JNull).
Proof.
  intros Hp Hign Hrun Ht0.
  pose proof (configure_run linkTag ign s Hign) as Hsteps.
  destruct (after_files_frame s) as (_ & Htheme & _).
  destruct (addBuildScript_frame (after_files s)) as [Htexts _].
  destruct (Installer.addBuildScript (after_files s)) as [[] sc|c sc|e sc] eqn:Hb;
    [|congruence..].
  destruct Hsteps as (sd & se & Hpatch & Hse & Hs1).
  rewrite Hrun in Hs1. injection Hs1 as ->.
  destruct (addBuildScript_Ret _ _ Hb) as (v1 & Hv1 & Hset).
  cbn [final] in Htexts.
  assert (texts (cwd sc) !! themeLiquidPath = Some t0) as Hsc
    by (by rewrite Htexts, Htheme).
  destruct (Hign sd) as (se' & more & Hse' & Hm & Ht & _).
  rewrite Hse in Hse'. injection Hse' as <-.
  cbn [said cwd]. rewrite Hm, Ht.
  destruct (includes t0 linkFragment) eqn:Hin.
  - rewrite (patch_present linkTag sc t0 Hsc Hin) in Hpatch.
    injection Hpatch as <-. cbn [said cwd].
    exists t0, v1. repeat split; try done.
    apply includes_true in Hin. lia.
  - rewrite (patch_insert linkTag sc t0 Hsc Hin) in Hpatch.
    injection Hpatch as <-. cbn [cwd texts package_json].
    rewrite lookup_insert_eq.
    eexists _, v1. split; [done|].
    set (k := indexOf t0 headEnd).
    pose proof (patchers_once_written _ _ (slice t0 0 k) (slice_from t0 k) Hp)
      as Honce.
    pose proof (occurrences_app_ge linkFragment (slice t0 0 k)
                  (slice_from t0 k) ltac:(done)) as Hge.
    rewrite slice_join in Hge. apply includes_false in Hin.
    split; [apply includes_true; lia|]. split; [intros _; lia|]. done.
Qed.

(** The second phase on a template that holds the reference and a manifest
    that agrees on [scripts] with a settled one: it returns, takes the
    "already exists" branch of the patcher, and changes neither. *)
Lemma configure_again linkTag ign s t1 v1 :
  harmless ign ->
  texts (cwd s) !! themeLiquidPath = Some t1 ->
  includes t1 linkFragment = true ->
  settled v1 ->
  same_scripts (Some (Doc v1)) (package_json (cwd s)) ->
  exists s',
    Installer.configure linkTag ign s = Ret tt s' /\
    texts (cwd s') !! themeLiquidPath = Some t1 /\
    scripts_tailwind (cwd s') = tailwind_of v1 /\
    In LinkExists (printed s') /\
    (truthy (tailwind_of v1) = true -> In ScriptExists (printed s')).
Proof.
  intros Hign Ht1 Hin Hset Hsame.
  pose proof (configure_run linkTag ign s Hign) as Hsteps.
  destruct (after_files_frame s) as (Hman & Htheme & _).
  rewrite <- Hman in Hsame.
  destruct (addBuildScript_settled (after_files s) v1 Hset Hsame)
    as (sc & more & Hb & Htexts & Htw & Hlog & Hexists).
  rewrite Hb in Hsteps. destruct Hsteps as (sd & se & Hpatch & Hse & ->).
  assert (texts (cwd sc) !! themeLiquidPath = Some t1) as Hsc
    by (by rewrite Htexts, Htheme).
  rewrite (patch_present linkTag sc t1 Hsc Hin) in Hpatch.
  injection Hpatch as <-.
  destruct (Hign (said sc [LinkExists]))
    as (se' & more' & Hse' & Hm & Ht & _ & _ & Hlog').
  change (ign (said sc [LinkExists]) = Ret tt se) in Hse.
  rewrite Hse in Hse'. injection Hse' as <-.
  eexists. split; [done|]. cbn [said cwd printed] in *.
  rewrite Ht, Hlog', Hlog. repeat split; try done.
  - unfold scripts_tailwind in *. by rewrite Hm.
  - rewrite !in_app_iff. simpl. tauto.
  - intros Htruthy. rewrite (Hexists Htruthy), !in_app_iff. simpl. tauto.
Qed.

(** The build-script step returns or throws; it never exits. *)
Lemma addBuildScript_no_exit s c s' : Installer.addBuildScript s <> Exit c s'.
Proof.
  destruct (package_json (cwd s)) as [[|v]|] eqn:Hm.
  - destruct (addBuildScript_unreadable s) as [e ->]; [by rewrite Hm|done].
  - rewrite (addBuildScript_doc s v Hm).
    destruct v; try done; by destruct (negb (truthy _) || negb (truthy _)).
  - destruct (addBuildScript_unreadable s) as [e ->]; [by rewrite Hm|done].
Qed.

(** The second phase on a template that holds the reference: however it
    ends, the template is as it was; and when it runs to the end it has
    taken the "already exists" branch of the patcher. *)
Lemma configure_patched linkTag ign s t1 :
  harmless ign ->
  texts (cwd s) !! themeLiquidPath = Some t1 ->
  includes t1 linkFragment = true ->
  let r := Installer.configure linkTag ign s in
  texts (cwd (final r)) !! themeLiquidPath = Some t1 /\
  (status r = 0 -> In LinkExists (printed (final r))).
Proof.
  intros Hign Ht1 Hin r. subst r.
  pose proof (configure_run linkTag ign s Hign) as Hsteps.
  destruct (after_files_frame s) as (_ & Htheme & _).
  destruct (addBuildScript_frame (after_files s)) as [Htexts _].
  pose proof (addBuildScript_no_exit (after_files s)) as Hno.
  destruct (Installer.addBuildScript (after_files s)) as [[] sc|c sc|e sc] eqn:Hb;
    cbn [final] in Htexts.
  - destruct Hsteps as (sd & se & Hpatch & Hse & ->).
    assert (texts (cwd sc) !! themeLiquidPath = Some t1) as Hsc
      by (by rewrite Htexts, Htheme).
    rewrite (patch_present linkTag sc t1 Hsc Hin) in Hpatch.
    injection Hpatch as <-.
    destruct (Hign (said sc [LinkExists]))
      as (se' & more' & Hse' & _ & Ht & _ & _ & Hlog').
    change (ign (said sc [LinkExists]) = Ret tt se) in Hse.
    rewrite Hse in Hse'. injection Hse' as <-.
    cbn [final said cwd printed] in *. rewrite Ht, Hlog'. split; [done|].
    intros _. rewrite !in_app_iff. simpl. tauto.
  - by destruct (Hno c sc).
  - rewrite Hsteps. cbn [final status]. by rewrite Htexts, Htheme.
Qed.

(** C1, as the code has it.  Take a first install that ran to the end, on
    a machine whose external commands leave the template alone and whose
    dependency install leaves the [scripts] of the manifest alone.  After a
    second install on the directory it left, however that one ends, the
    template is the one the first left: no further insertion.  The
    template holds the stylesheet reference, as often as after the first
    run; that is exactly once when the template held it at most once
    before the first run.  And [scripts.tailwind] of the manifest reads as
    after the first run, provided the first run did not leave [scripts] as
    [null]; it does when [scripts] was a number beyond the range of a
    double: the script cannot be stored on a number, and [JSON.stringify]
    writes the number as [null].  A second install that runs to the end
    prints the patcher's "already exists" line, and the build script's
    when [scripts.tailwind] is truthy. *)
Theorem second_run_changes_nothing cmd linkTag install h d0 s1 :
  In (cmd, linkTag, install) installers ->
  keeps_file h themeLiquidPath ->
  keeps_scripts h cmd ->
  install h (fresh d0) = Ret tt s1 ->
  let r2 := install h (fresh (cwd s1)) in
  (~ scripts_null (cwd s1) ->
   scripts_tailwind (cwd (final r2)) = scripts_tailwind (cwd s1)) /\
  (exists t,
     texts (cwd s1) !! themeLiquidPath = Some t /\
     texts (cwd (final r2)) !! themeLiquidPath = Some t /\
     (1 <= occurrences linkFragment t)%nat /\
     forall t0, texts d0 !! themeLiquidPath = Some t0 ->
                (occurrences linkFragment t0 <= 1)%nat ->
                occurrences linkFragment t = 1%nat) /\
  (status r2 = 0 ->
   In LinkExists (printed (final r2)) /\
   (truthy (scripts_tailwind (cwd s1)) = true ->
    In ScriptExists (printed (final r2)))).
Proof.
  intros Hi Hkeep Hscripts Hrun1 r2. subst r2.
  destruct (installers_patchers _ _ _ Hi) as [patch Hp].
  (* the first run *)
  destruct (installers_run _ _ _ h (fresh d0) Hi) as (ign1 & Hrun & Hign1).
  assert (harmless ign1) as Hh1.
  { destruct Hign1 as [->| ->]; [apply harmless_ret|apply harmless_ignoreFiles]. }
  rewrite Hrun in Hrun1. clear Hrun.
  apply bind_Ret in Hrun1 as ([] & s0 & Hpre1 & Hconf1).
  pose proof (prelude_wp h cmd (fresh d0)) as Hwp1. cbv zeta in Hwp1.
  unfold wp in Hwp1. rewrite Hpre1 in Hwp1.
  destruct Hwp1 as (_ & [t0 Ht0] & Hcwd0 & _). cbn [fresh cwd] in Ht0, Hcwd0.
  assert (texts (cwd s0) !! themeLiquidPath = Some t0) as Hs0.
  { rewrite Hcwd0, Hkeep. case_bool_decide; [done|]. by rewrite Hkeep. }
  destruct (configure_Ret linkTag patch ign1 s0 s1 t0 Hp Hh1 Hconf1 Hs0)
    as (t1 & v1 & Ht1 & Hin1 & Honce & Hv1 & Hset).
  assert (scripts_tailwind (cwd s1) = tailwind_of v1) as Htw1.
  { unfold scripts_tailwind. by rewrite Hv1. }
  (* the second run *)
  destruct (installers_run _ _ _ h (fresh (cwd s1)) Hi) as (ign2 & -> & Hign2).
  assert (harmless ign2) as Hh2.
  { destruct Hign2 as [->| ->]; [apply harmless_ret|apply harmless_ignoreFiles]. }
  pose proof (prelude_wp h cmd (fresh (cwd s1))) as Hwp2. cbv zeta in Hwp2.
  unfold wp in Hwp2. cbn [fresh cwd] in Hwp2.
  rewrite Hv1, bool_decide_true in Hwp2 by done.
  set (d2 := (run_command h cmd (cwd s1)).2) in *.
  assert (texts d2 !! themeLiquidPath = Some t1) as Hd2
    by (subst d2; by rewrite Hkeep).
  assert (same_scripts (Some (Doc v1)) (package_json d2)) as Hsame.
  { rewrite <- Hv1. apply Hscripts. }
  assert (scripts_tailwind d2 = scripts_tailwind (cwd s1)) as Htw2.
  { apply same_scripts_tailwind. rewrite Hv1. exact Hsame. }
  assert (forall c s',
            c = 1 /\ (cwd s' = cwd s1 \/ cwd s' = cwd s1 \/ cwd s' = d2) ->
            (~ scripts_null (cwd s1) ->
             scripts_tailwind (cwd s') = scripts_tailwind (cwd s1)) /\
            (exists t,
               texts (cwd s1) !! themeLiquidPath = Some t /\
               texts (cwd s') !! themeLiquidPath = Some t /\
               (1 <= occurrences linkFragment t)%nat /\
               forall t0', texts d0 !! themeLiquidPath = Some t0' ->
                           (occurrences linkFragment t0' <= 1)%nat ->
                           occurrences linkFragment t = 1%nat) /\
            (c = 0 ->
             In LinkExists (printed s') /\
             (truthy (scripts_tailwind (cwd s1)) = true ->
              In ScriptExists (printed s')))) as Hstop.
  { intros c s' (-> & Hcwd). split; [|split]; [| |done].
    - intros _. destruct Hcwd as [-> | [-> | ->]]; done.
    - exists t1. split; [done|]. split.
      { destruct Hcwd as [-> | [-> | ->]]; done. }
      split; [by apply includes_true|].
      intros t0' Ht0'. rewrite Ht0 in Ht0'. injection Ht0' as <-. done. }
  unfold bind.
  destruct (Installer.prelude h cmd (fresh (cwd s1))) as [[] s2|c s'|e s'].
  - destruct Hwp2 as (_ & _ & Hcwd2 & _).
    rewrite <- Hcwd2 in Hd2, Hsame.
    destruct (configure_patched linkTag ign2 s2 t1 Hh2 Hd2 Hin1)
      as [Htheme2 Hlink2].
    split; [|split].
    + intros Hnull. destruct Hset as [Hset|Hn]; [|destruct Hnull; by exists v1].
      destruct (configure_again linkTag ign2 s2 t1 v1 Hh2 Hd2 Hin1 Hset Hsame)
        as (s' & -> & _ & Htw' & _).
      cbn [final]. by rewrite Htw', Htw1.
    + exists t1. split; [done|]. split; [done|].
      split; [by apply includes_true|].
      intros t0' Ht0'. rewrite Ht0 in Ht0'. injection Ht0' as <-. done.
    + intros Hst. split; [by apply Hlink2|]. intros Htruthy.
      destruct Hset as [Hset|Hn].
      * destruct (configure_again linkTag ign2 s2 t1 v1 Hh2 Hd2 Hin1 Hset
                    Hsame) as (s' & -> & _ & _ & _ & Hscript).
        cbn [final]. apply Hscript. by rewrite <- Htw1.
      * rewrite Htw1 in Htruthy. unfold tailwind_of in Htruthy.
        by rewrite Hn in Htruthy.
  - cbn [final status]. apply Hstop. by destruct Hwp2 as (? & ? & _).
  - cbn [final status]. apply (Hstop 1). by destruct Hwp2 as (? & ? & _).
Qed.

Lemma npm_host_keeps_template : keeps_file npm_host themeLiquidPath.
Proof.
  intros cmd d. unfold npm_host, npm_run. cbn [run_command].
  by destruct (decide (cmd = "npm init -y")).
Qed.

Lemma npm_host_keeps_scripts cmd :
  cmd <> "npm init -y" -> keeps_scripts npm_host cmd.
Proof.
  intros Hcmd d. unfold npm_host, npm_run. cbn [run_command].
  rewrite decide_False by done. cbn [snd package_json].
  destruct (package_json d) as [[|v]|]; try by left.
  destruct v; try by left.
  right. eexists _, _. split; [done|]. split; [done|].
  by apply assoc_upsert_ne.
Qed.

Lemma second_run_changes_nothing_witness :
  let d0 := theme_only (lit "<html><head></head><body></body></html>") in
  let s1 := final (Index.installTailwindCSS npm_host (fresh d0)) in
  let r2 := Index.installTailwindCSS npm_host (fresh (cwd s1)) in
  Index.installTailwindCSS npm_host (fresh d0) = Ret tt s1 /\
  (~ scripts_null (cwd s1) ->
   scripts_tailwind (cwd (final r2)) = scripts_tailwind (cwd s1)) /\
  (exists t,
     texts (cwd s1) !! themeLiquidPath = Some t /\
     texts (cwd (final r2)) !! themeLiquidPath = Some t /\
     (1 <= occurrences linkFragment t)%nat /\
     forall t0, texts d0 !! themeLiquidPath = Some t0 ->
                (occurrences linkFragment t0 <= 1)%nat ->
                occurrences linkFragment t = 1%nat) /\
  (status r2 = 0 ->
   In LinkExists (printed (final r2)) /\
   (truthy (scripts_tailwind (cwd s1)) = true ->
    In ScriptExists (printed (final r2)))).
Proof.
  intros d0 s1 r2.
  assert (Index.installTailwindCSS npm_host (fresh d0) = Ret tt s1) as Hrun
    by (by vm_compute).
  split; [exact Hrun|].
  apply (second_run_changes_nothing indexCommand linkTag_index
           Index.installTailwindCSS npm_host d0 s1).
  - by left.
  - exact npm_host_keeps_template.
  - by apply npm_host_keeps_scripts.
  - exact Hrun.
Defined.

(** C1, as the claim has it, fails: on a template that holds the
    stylesheet reference twice, both installs run to the end and the
    reference still occurs twice, not once. *)
Lemma link_twice_after_second_run :
  let content := lit "<head>" ++ linkFragment ++ linkFragment ++ lit "</head>" in
  let d0 := Dir {[ themeLiquidPath := content ]} (Some (Doc (JObj []))) in
  let r1 := Index.installTailwindCSS npm_host (fresh d0) in
  let r2 := Index.installTailwindCSS npm_host (fresh (cwd (final r1))) in
  status r1 = 0 /\ status r2 = 0 /\
  texts (cwd (final r2)) !! themeLiquidPath = Some content /\
  occurrences linkFragment content = 2%nat /\
  occurrences linkFragment content <> 1%nat.
Proof. intros content d0 r1 r2. repeat split; by vm_compute. Qed.

(** C1 needs the condition on [scripts].  With [1e999] under [scripts],
    which parses to an infinity, both installs run to the end on a machine
    whose commands change nothing; the first leaves [scripts] as [null]
    and no build script, and the second adds the script. *)
Lemma script_added_on_second_run :
  let d0 := Dir {[ themeLiquidPath := lit "<head></head>" ]}
                (Some (Doc (JObj [(lit "scripts",
                                   JNum (S754_infinity false))]))) in
  let h := Host true (fun _ d => (0, d)) in
  let r1 := Index.installTailwindCSS h (fresh d0) in
  let r2 := Index.installTailwindCSS h (fresh (cwd (final r1))) in
  status r1 = 0 /\ status r2 = 0 /\
  package_json (cwd (final r1))
  = Some (Doc (JObj [(lit "scripts", JNull)])) /\
  scripts_tailwind (cwd (final r1)) = None /\
  scripts_tailwind (cwd (final r2)) = Some (JStr buildCommand).
Proof. intros d0 h r1 r2. repeat split; by vm_compute. Qed.

(** * Further properties of [index.js] and [part_001] *)

(** ** The checks before any file is written *)

(** X1.  When [node] is not found, the installer prints the complaint and
    exits with status 1 at once, in any directory, a valid theme included:
    no external command is run and nothing is written. *)
Theorem node_missing_exits cmd linkTag install h s :
  In (cmd, linkTag, install) installers ->
  node_on_path h = false ->
  install h s = Exit 1 (said s [NodeMissing]).
Proof.
  intros Hi Hnode.
  destruct (installers_run _ _ _ h s Hi) as (ign & -> & _).
  unfold bind at 1. unfold Installer.prelude, bind. by rewrite Hnode.
Qed.

Lemma node_missing_exits_witness :
  let h := Host false npm_run in
  let s := fresh (theme_only (lit "<head></head>")) in
  node_on_path h = false /\
  Pinned.installTailwindCSS h s = Exit 1 (said s [NodeMissing]).
Proof.
  intros h s. split; [done|].
  apply (node_missing_exits pinnedCommand linkTag_pinned).
  - right. by left.
  - done.
Defined.

(** X2.  In a theme without [package.json], when [npm init -y] exits with
    a code other than 0 the installer exits with status 1 right after it:
    the directory is the one the failed command left, so neither the
    dependency install is run nor a generated file written. *)
Theorem npm_init_failure_exits cmd linkTag install h s content code d' :
  In (cmd, linkTag, install) installers ->
  node_on_path h = true ->
  texts (cwd s) !! themeLiquidPath = Some content ->
  package_json (cwd s) = None ->
  run_command h "npm init -y" (cwd s) = (code, d') ->
  code <> 0 ->
  install h s
  = Exit 1 (State d' (printed s ++ [InitialisingNpm; NpmInitFailed])).
Proof.
  intros Hi Hnode Htheme Hman Hrun Hcode.
  destruct (installers_run _ _ _ h s Hi) as (ign & -> & _).
  unfold bind at 1.
  unfold Installer.prelude, Installer.isShopifyProject, bind.
  rewrite Hnode. cbn [negb]. unfold ret at 1.
  rewrite (existsSync_some _ _ _ theme_is_text Htheme). cbn [negb].
  unfold ret at 1. rewrite existsSync_manifest, Hman.
  rewrite bool_decide_false by (by intros [? ?]). cbn [negb].
  unfold echo at 1. unfold exec at 1. cbn [cwd printed]. rewrite Hrun.
  apply Z.eqb_neq in Hcode. rewrite Hcode. cbn [negb].
  unfold echo, exit. cbn [cwd printed]. by rewrite <- app_assoc.
Qed.

Lemma npm_init_failure_exits_witness :
  let h := Host true (fun _ d => (1, d)) in
  let s := fresh (theme_only (lit "<head></head>")) in
  Index.installTailwindCSS h s
  = Exit 1 (State (cwd s) (printed s ++ [InitialisingNpm; NpmInitFailed])).
Proof.
  intros h s.
  apply (npm_init_failure_exits indexCommand linkTag_index _ h s
           (lit "<head></head>") 1 (cwd s)).
  - by left.
  - done.
  - by vm_compute.
  - done.
  - done.
  - done.
Defined.

(** X3.  In a theme with a [package.json], when the dependency install
    exits with a code other than 0 the installer exits with status 1 right
    after it: the directory is the one the failed command left, and no
    generated file, manifest or template is written. *)
Theorem npm_install_failure_exits cmd linkTag install h s content m code d' :
  In (cmd, linkTag, install) installers ->
  node_on_path h = true ->
  texts (cwd s) !! themeLiquidPath = Some content ->
  package_json (cwd s) = Some m ->
  run_command h cmd (cwd s) = (code, d') ->
  code <> 0 ->
  install h s = Exit 1 (State d' (printed s ++ [Installing; InstallFailed])).
Proof.
  intros Hi Hnode Htheme Hman Hrun Hcode.
  destruct (installers_run _ _ _ h s Hi) as (ign & -> & _).
  unfold bind at 1.
  unfold Installer.prelude, Installer.isShopifyProject, bind.
  rewrite Hnode. cbn [negb]. unfold ret at 1.
  rewrite (existsSync_some _ _ _ theme_is_text Htheme). cbn [negb].
  unfold ret at 1. rewrite existsSync_manifest, Hman.
  rewrite bool_decide_true by done. cbn [negb].
  unfold ret at 1. unfold echo at 1. unfold exec at 1. cbn [cwd printed].
  rewrite Hrun. apply Z.eqb_neq in Hcode. rewrite Hcode. cbn [negb].
  unfold echo, exit. cbn [cwd printed]. by rewrite <- app_assoc.
Qed.

Lemma npm_install_failure_exits_witness :
  let h := Host true (fun _ d => (127, d)) in
  let s := fresh (Dir {[ themeLiquidPath := lit "<head></head>" ]}
                     (Some (Doc (JObj [])))) in
  Pinned.installTailwindCSS h s
  = Exit 1 (State (cwd s) (printed s ++ [Installing; InstallFailed])).
Proof.
  intros h s.
  apply (npm_install_failure_exits pinnedCommand linkTag_pinned _ h s
           (lit "<head></head>") (Doc (JObj [])) 127 (cwd s)).
  - right. by left.
  - done.
  - by vm_compute.
  - done.
  - done.
  - done.
Defined.

(** ** The template patcher, once more *)

(** X4.  Whatever the template holds, with the closing tag or without it,
    patching it once leaves a template that holds the stylesheet reference
    (exactly once when it did not hold it before), and patching the result
    again only prints the "already exists" line: the patcher is
    idempotent. *)
Theorem patch_twice_is_patch_once linkTag patch s content :
  In (linkTag, patch) patchers ->
  texts (cwd s) !! themeLiquidPath = Some content ->
  exists s1 content1,
    patch s = Ret tt s1 /\
    texts (cwd s1) !! themeLiquidPath = Some content1 /\
    includes content1 linkFragment = true /\
    (includes content linkFragment = false ->
     occurrences linkFragment content1 = 1%nat) /\
    patch s1 = Ret tt (said s1 [LinkExists]).
Proof.
  intros Hp Hfile. rewrite (patchers_run _ _ Hp).
  destruct (includes content linkFragment) eqn:Hin.
  - rewrite (patch_present linkTag s content Hfile Hin).
    eexists _, content. split; [done|]. split; [done|]. split; [done|].
    split; [done|]. by apply (patch_present linkTag _ content).
  - rewrite (patch_insert linkTag s content Hfile Hin).
    set (k := indexOf content headEnd).
    set (content1 :=
           toWellFormed (slice content 0 k ++ linkTag ++ slice_from content k)).
    assert (occurrences linkFragment content1 = 1%nat) as Hone.
    { pose proof (patchers_once_written _ _ (slice content 0 k)
                    (slice_from content k) Hp) as Honce.
      pose proof (occurrences_app_ge linkFragment (slice content 0 k)
                    (slice_from content k) ltac:(done)) as Hge.
      rewrite slice_join in Hge. apply includes_false in Hin.
      subst content1. lia. }
    assert (includes content1 linkFragment = true) as Hin1
      by (apply includes_true; lia).
    eexists _, content1. split; [done|]. cbn [cwd texts].
    rewrite lookup_insert_eq. split; [done|]. split; [done|]. split; [done|].
    apply (patch_present linkTag _ content1); [|done].
    cbn [cwd texts]. by rewrite lookup_insert_eq.
Qed.

Lemma patch_twice_is_patch_once_witness :
  let content := lit "{% comment %}no head here{% endcomment %}" in
  let s := fresh (theme_only content) in
  exists s1 content1,
    Index.addTailwindToThemeLiquid s = Ret tt s1 /\
    texts (cwd s1) !! themeLiquidPath = Some content1 /\
    includes content1 linkFragment = true /\
    (includes content linkFragment = false ->
     occurrences linkFragment content1 = 1%nat) /\
    Index.addTailwindToThemeLiquid s1 = Ret tt (said s1 [LinkExists]).
Proof.
  intros content s.
  apply (patch_twice_is_patch_once linkTag_index _ s content).
  - by left.
  - by vm_compute.
Defined.

(** X5.  The patcher always returns.  It writes no file but the template
    and leaves the manifest alone.  The template it leaves is the old one,
    or the old one cut in two with the inserted text between the parts,
    each part as the [utf8] encoding writes it.  Where the template holds
    the closing tag the cut is right before the tag.  When the template is
    well-formed, as every decoded file is, and the part after the cut does
    not begin with the second half of a character, the parts are written
    as they are: no code unit of the old content is lost or moved. *)
Theorem patch_only_inserts linkTag patch s :
  In (linkTag, patch) patchers ->
  exists s1,
    patch s = Ret tt s1 /\
    package_json (cwd s1) = package_json (cwd s) /\
    (forall p, p <> themeLiquidPath ->
               texts (cwd s1) !! p = texts (cwd s) !! p) /\
    (texts (cwd s1) !! themeLiquidPath = texts (cwd s) !! themeLiquidPath \/
     exists pre post,
       texts (cwd s) !! themeLiquidPath = Some (pre ++ post) /\
       texts (cwd s1) !! themeLiquidPath
       = Some (toWellFormed pre ++ linkTag ++ toWellFormed post) /\
       (includes (pre ++ post) headEnd = true ->
        exists rest, post = headEnd ++ rest) /\
       (toWellFormed (pre ++ post) = pre ++ post ->
        (forall c r, post = c :: r -> is_low c = false) ->
        toWellFormed pre = pre /\ toWellFormed post = post)).
Proof.
  intros Hp. rewrite (patchers_run _ _ Hp).
  destruct (patchers_plain _ _ Hp) as [Hplain Hne].
  destruct (texts (cwd s) !! themeLiquidPath) as [content|] eqn:Hfile.
  - destruct (includes content linkFragment) eqn:Hin.
    + rewrite (patch_present linkTag s content Hfile Hin).
      eexists. split; [done|]. cbn [said cwd]. rewrite Hfile. auto.
    + rewrite (patch_insert linkTag s content Hfile Hin).
      eexists. split; [done|]. cbn [cwd texts package_json].
      split; [done|]. split.
      * intros p Hne'. by rewrite lookup_insert_ne.
      * right. exists (slice content 0 (indexOf content headEnd)),
                 (slice_from content (indexOf content headEnd)).
        rewrite slice_join, lookup_insert_eq.
        rewrite (toWellFormed_insert _ linkTag _ Hplain Hne).
        split; [done|]. split; [done|]. split.
        -- intros Hhead.
           assert (indexOf content headEnd <> -1) as Hidx.
           { unfold includes in Hhead.
             by apply negb_true_iff, Z.eqb_neq in Hhead. }
           destruct (indexOf_found content headEnd _ eq_refl Hidx)
             as (pre & post & Hsplit & Hk & _).
           destruct (slice_at pre (headEnd ++ post)) as [_ Hr].
           exists post. rewrite Hk. rewrite Hsplit at 1. done.
        -- intros Hwf Hcut. apply well_formed_cut; [|done].
           by rewrite slice_join.
  - rewrite (patch_missing linkTag s Hfile).
    eexists. split; [done|]. cbn [said cwd]. rewrite Hfile. auto.
Qed.

Lemma patch_only_inserts_witness :
  let s := fresh (theme_only (lit "<head></head>")) in
  exists s1,
    Pinned.addTailwindToThemeLiquid s = Ret tt s1 /\
    package_json (cwd s1) = package_json (cwd s) /\
    (forall p, p <> themeLiquidPath ->
               texts (cwd s1) !! p = texts (cwd s) !! p) /\
    (texts (cwd s1) !! themeLiquidPath = texts (cwd s) !! themeLiquidPath \/
     exists pre post,
       texts (cwd s) !! themeLiquidPath = Some (pre ++ post) /\
       texts (cwd s1) !! themeLiquidPath
       = Some (toWellFormed pre ++ linkTag_pinned ++ toWellFormed post) /\
       (includes (pre ++ post) headEnd = true ->
        exists rest, post = headEnd ++ rest) /\
       (toWellFormed (pre ++ post) = pre ++ post ->
        (forall c r, post = c :: r -> is_low c = false) ->
        toWellFormed pre = pre /\ toWellFormed post = post)).
Proof.
  intros s. apply (patch_only_inserts linkTag_pinned _ s). right. by left.
Defined.

(** X6.  When [layout/theme.liquid] does not exist the patcher prints the
    "not found" line and returns: the condition is not fatal, and no
    template is created. *)
Theorem patch_missing_template linkTag patch s :
  In (linkTag, patch) patchers ->
  texts (cwd s) !! themeLiquidPath = None ->
  patch s = Ret tt (said s [ThemeMissing]) /\
  texts (cwd (final (patch s))) !! themeLiquidPath = None.
Proof.
  intros Hp Hfile. rewrite (patchers_run _ _ Hp).
  by rewrite (patch_missing linkTag s Hfile).
Qed.

Lemma patch_missing_template_witness :
  let s := fresh empty_dir in
  Index.addTailwindToThemeLiquid s = Ret tt (said s [ThemeMissing]) /\
  texts (cwd (final (Index.addTailwindToThemeLiquid s))) !! themeLiquidPath
  = None.
Proof.
  intros s. apply (patch_missing_template linkTag_index _ s).
  - by left.
  - done.
Defined.

(** ** The ignore files, once more *)

Lemma all_entries_held required content :
  existsb (fun entry => negb (includes content entry)) required = false ->
  forall entry, In entry required -> includes content entry = true.
Proof.
  intros H entry Hin. destruct (includes content entry) eqn:E; [done|].
  assert (existsb (fun e => negb (includes content e)) required = true) as H'.
  { apply existsb_exists. exists entry. by rewrite E. }
  congruence.
Qed.

Lemma includes_app_r content block entry :
  entry <> [] -> includes block entry = true ->
  includes (content ++ block) entry = true.
Proof.
  intros Hne H. apply includes_true in H. apply includes_true.
  pose proof (occurrences_app_ge entry content block Hne). lia.
Qed.

(** X7.  In any directory, reconciling an ignore file returns and leaves
    the file in place with every required entry in it; what the file held
    before is kept as the beginning of what it holds after; and reconciling
    again changes nothing. *)
Theorem ignore_reconciled path required create s :
  In (path, required, create) ignoreFiles ->
  exists s1 content1,
    create s = Ret tt s1 /\
    texts (cwd s1) !! path = Some content1 /\
    (forall entry, In entry required -> includes content1 entry = true) /\
    (forall old, texts (cwd s) !! path = Some old ->
                 exists more, content1 = old ++ more) /\
    create s1 = Ret tt (said s1 [IgnoreExists path]).
Proof.
  intros Hf.
  pose proof (ignoreFiles_text _ _ _ Hf) as Htext.
  pose proof (ignoreFiles_plain _ _ _ Hf) as Hplain.
  assert (forall entry, In entry required ->
                        includes (ignore_block required) entry = true) as Hblock.
  { intros entry Hin. apply includes_true.
    rewrite (ignoreFiles_block _ _ _ entry Hf Hin). lia. }
  assert (forall s1 content1,
            texts (cwd s1) !! path = Some content1 ->
            (forall entry, In entry required ->
                           includes content1 entry = true) ->
            create s1 = Ret tt (said s1 [IgnoreExists path])) as Hagain.
  { intros s1 content1 H1 Hall. rewrite (ignoreFiles_run _ _ _ s1 Hf).
    by apply (reconcile_unchanged path _ required Htext s1 content1). }
  rewrite (ignoreFiles_run _ _ _ s Hf).
  destruct (texts (cwd s) !! path) as [content|] eqn:Hfile.
  - destruct (existsb (fun entry => negb (includes content entry)) required)
      eqn:Hex.
    + apply missing_entry in Hex.
      rewrite (reconcile_updated path _ required Htext Hplain s content Hfile Hex).
      assert (forall entry, In entry required ->
                includes (content ++ ignore_block required) entry = true)
        as Hall.
      { intros entry Hin. apply includes_app_r; [|by apply Hblock].
        apply (ignoreFiles_nonempty _ _ _ entry Hf Hin). }
      eexists _, _. split; [done|]. cbn [wrote cwd texts].
      rewrite lookup_insert_eq. split; [done|]. split; [done|]. split.
      * intros old [= <-]. by eexists.
      * apply (Hagain _ (content ++ ignore_block required)); [|done].
        cbn [wrote cwd texts]. by rewrite lookup_insert_eq.
    + pose proof (all_entries_held _ _ Hex) as Hall.
      rewrite (reconcile_unchanged path _ required Htext s content Hfile Hall).
      eexists _, content. split; [done|]. cbn [said cwd].
      split; [done|]. split; [done|]. split.
      * intros old [= <-]. exists []. by rewrite app_nil_r.
      * by apply (Hagain _ content).
  - rewrite (reconcile_created path _ required Htext Hplain s Hfile Hblock).
    eexists _, _. split; [done|]. cbn [wrote cwd texts].
    rewrite lookup_insert_eq. split; [done|]. split; [done|]. split; [done|].
    apply (Hagain _ (ignore_block required)); [|done].
    cbn [wrote cwd texts]. by rewrite lookup_insert_eq.
Qed.

Lemma ignore_reconciled_witness :
  let s := fresh (one_file gitIgnorePath (lit "dist" ++ nl)) in
  exists s1 content1,
    Pinned.createGitIgnore s = Ret tt s1 /\
    texts (cwd s1) !! gitIgnorePath = Some content1 /\
    (forall entry, In entry gitIgnoreLines ->
                   includes content1 entry = true) /\
    (forall old, texts (cwd s) !! gitIgnorePath = Some old ->
                 exists more, content1 = old ++ more) /\
    Pinned.createGitIgnore s1 = Ret tt (said s1 [IgnoreExists gitIgnorePath]).
Proof.
  intros s. apply (ignore_reconciled gitIgnorePath gitIgnoreLines _ s).
  by left.
Defined.

(** X8.  Reconciling an ignore file touches that file only: every other
    text file and the manifest are as before. *)
Theorem ignore_touches_own_file path required create s :
  In (path, required, create) ignoreFiles ->
  package_json (cwd (final (create s))) = package_json (cwd s) /\
  forall p, p <> path ->
            texts (cwd (final (create s))) !! p = texts (cwd s) !! p.
Proof.
  intros Hf. rewrite (ignoreFiles_run _ _ _ s Hf).
  destruct (reconcile_frame path (ignore_block required) required s
              (ignoreFiles_text _ _ _ Hf)) as (s1 & more & -> & Hm & Ht & _).
  done.
Qed.

Lemma ignore_touches_own_file_witness :
  let s := fresh (theme_only (lit "<head></head>")) in
  package_json (cwd (final (Pinned.createShopifyIgnore s)))
  = package_json (cwd s) /\
  forall p, p <> shopifyIgnorePath ->
            texts (cwd (final (Pinned.createShopifyIgnore s))) !! p
            = texts (cwd s) !! p.
Proof.
  intros s.
  apply (ignore_touches_own_file shopifyIgnorePath shopifyIgnoreLines _ s).
  right. by left.
Defined.

(** ** The build script of the manifest *)

(** X9.  When the manifest is an object whose [scripts] holds a truthy
    [tailwind] entry, whatever its value, the build-script step prints the
    "already exists" line and does not write the manifest: a script that is
    there is never overwritten. *)
Theorem build_script_kept s ms o :
  package_json (cwd s) = Some (Doc (JObj ms)) ->
  assoc (lit "scripts") ms = Some o ->
  truthy (get_member o (lit "tailwind")) = true ->
  Installer.addBuildScript s = Ret tt (said s [ScriptExists]).
Proof.
  intros Hm Hs Ht. rewrite (addBuildScript_doc s _ Hm).
  unfold tailwind_of. cbn [get_member]. rewrite Hs, Ht.
  assert (truthy (Some o) = true) as ->; [|done].
  destruct o; try done.
Qed.

Lemma build_script_kept_witness :
  let custom := JObj [(lit "tailwind", JStr (lit "my-own-build"))] in
  let ms := [(lit "name", JStr (lit "theme")); (lit "scripts", custom)] in
  let s := fresh (Dir ∅ (Some (Doc (JObj ms)))) in
  Installer.addBuildScript s = Ret tt (said s [ScriptExists]).
Proof.
  intros custom ms s. by apply (build_script_kept s ms custom).
Defined.

(** The scripts with which the step goes on are an object when [scripts]
    is absent, falsy or an object. *)
Lemma scripts_object ms :
  match assoc (lit "scripts") ms with
  | Some (JObj _) | None => True
  | Some o => truthy (Some o) = false
  end ->
  exists ss0,
    match assoc (lit "scripts") ms with
    | Some o => if truthy (assoc (lit "scripts") ms) then o else JObj []
    | None => JObj []
    end = JObj ss0 /\
    forall ss, assoc (lit "scripts") ms = Some (JObj ss) -> ss0 = ss.
Proof.
  intros Hshape.
  destruct (scripts_or_fresh (assoc (lit "scripts") ms))
    as [(ss0 & H1 & H2)|(o & Hs & Ho & Hnot & _)].
  - by exists ss0.
  - rewrite Hs in Hshape. destruct o; congruence.
Qed.

(** What is read back of an object to which the scripts, with the
    command under [tailwind], have been assigned. *)
Lemma written_with_script command ss0 ms :
  let ss' := List.map (fun m => let '(k, x) := m in (k, reparsed x))
               (upsert (lit "tailwind") (JStr command) ss0) in
  let ms' := List.map (fun m => let '(k, x) := m in (k, reparsed x))
               (upsert (lit "scripts")
                  (JObj (upsert (lit "tailwind") (JStr command) ss0)) ms) in
  reparsed (JObj (upsert (lit "scripts")
                    (JObj (upsert (lit "tailwind") (JStr command) ss0)) ms))
  = JObj ms' /\
  assoc (lit "scripts") ms' = Some (JObj ss') /\
  assoc (lit "tailwind") ss' = Some (JStr command) /\
  (forall k, k <> lit "scripts" -> assoc k ms' = reparsed <$> assoc k ms) /\
  (forall k, k <> lit "tailwind" -> assoc k ss' = reparsed <$> assoc k ss0).
Proof.
  intros ss' ms'. subst ss' ms'. split; [done|].
  rewrite !assoc_reparsed, !assoc_upsert. split; [done|]. split; [done|].
  split; intros k Hk; by rewrite assoc_reparsed, assoc_upsert_ne.
Qed.

(** X10.  When the manifest is an object whose [scripts] is absent, falsy
    or an object, and [scripts.tailwind] is not truthy, the step writes the
    manifest with [scripts] an object whose [tailwind] entry is the build
    command.  Every other member of the manifest, and every other entry of
    a [scripts] object that was there, reads as [JSON.stringify] wrote it:
    as before, but that a number beyond the range of a double, anywhere in
    it, reads as [null], and a negative zero as zero. *)
Theorem build_script_added s ms :
  package_json (cwd s) = Some (Doc (JObj ms)) ->
  truthy (tailwind_of (JObj ms)) = false ->
  match assoc (lit "scripts") ms with
  | Some (JObj _) | None => True
  | Some o => truthy (Some o) = false
  end ->
  exists ms' ss',
    Installer.addBuildScript s
    = Ret tt (State (Dir (texts (cwd s)) (Some (Doc (JObj ms'))))
                    (printed s ++ [ScriptAdded])) /\
    assoc (lit "scripts") ms' = Some (JObj ss') /\
    assoc (lit "tailwind") ss' = Some (JStr buildCommand) /\
    (forall k, k <> lit "scripts" -> assoc k ms' = reparsed <$> assoc k ms) /\
    (forall ss k, assoc (lit "scripts") ms = Some (JObj ss) ->
                  k <> lit "tailwind" ->
                  assoc k ss' = reparsed <$> assoc k ss).
Proof.
  intros Hm Ht Hshape. rewrite (addBuildScript_doc s _ Hm). rewrite Ht.
  cbn [negb]. rewrite orb_true_r.
  unfold with_build_script. cbn [get_member set_member].
  destruct (scripts_object ms Hshape) as (ss0 & -> & Hss0).
  cbn [set_member].
  destruct (written_with_script buildCommand ss0 ms)
    as (-> & Hs' & Ht' & Hother & Hentries).
  eexists _, _. split; [done|]. split; [done|]. split; [done|].
  split; [done|]. intros ss k Hs Hk. rewrite <- (Hss0 ss Hs). by apply Hentries.
Qed.

Lemma build_script_added_witness :
  let ms := [(lit "name", JStr (lit "theme"));
             (lit "scripts", JObj [(lit "test", JStr (lit "exit 1"))])] in
  let s := fresh (Dir ∅ (Some (Doc (JObj ms)))) in
  exists ms' ss',
    Installer.addBuildScript s
    = Ret tt (State (Dir (texts (cwd s)) (Some (Doc (JObj ms'))))
                    (printed s ++ [ScriptAdded])) /\
    assoc (lit "scripts") ms' = Some (JObj ss') /\
    assoc (lit "tailwind") ss' = Some (JStr buildCommand) /\
    (forall k, k <> lit "scripts" -> assoc k ms' = reparsed <$> assoc k ms) /\
    (forall ss k, assoc (lit "scripts") ms = Some (JObj ss) ->
                  k <> lit "tailwind" ->
                  assoc k ss' = reparsed <$> assoc k ss).
Proof.
  intros ms s. by apply (build_script_added s ms).
Defined.

(** X11.  Without a manifest to work on the step throws and writes
    nothing: [ENOENT] when [package.json] is missing, a syntax error when
    its text is not JSON, a type error when it parses to [null], a boolean,
    a number or a string. *)
Theorem build_script_errors s :
  match package_json (cwd s) with
  | None => Installer.addBuildScript s = Throw ENOENT s
  | Some Malformed => Installer.addBuildScript s = Throw SyntaxError s
  | Some (Doc (JObj _)) | Some (Doc (JArr _)) => True
  | Some (Doc _) => Installer.addBuildScript s = Throw TypeError s
  end.
Proof.
  destruct (package_json (cwd s)) as [[|v]|] eqn:Hm.
  - unfold Installer.addBuildScript, bind, readManifest. by rewrite Hm.
  - pose proof (addBuildScript_doc s v Hm) as H. by destruct v.
  - unfold Installer.addBuildScript, bind, readManifest. by rewrite Hm.
Qed.

(** X12.  When the manifest is an array, or an object whose [scripts] is
    a truthy value that is not an object (a string, a number, [true], an
    array), the step prints the "added" line, but the assignment of the
    script is lost: what it writes is the manifest it read, as
    [JSON.stringify] writes it, and [scripts.tailwind] still reads as
    undefined. *)
Theorem build_script_lost s v :
  package_json (cwd s) = Some (Doc v) ->
  (exists elems, v = JArr elems) \/
  (exists ms o, v = JObj ms /\ assoc (lit "scripts") ms = Some o /\
                truthy (Some o) = true /\ forall ss, o <> JObj ss) ->
  Installer.addBuildScript s
  = Ret tt (State (Dir (texts (cwd s)) (Some (Doc (reparsed v))))
                  (printed s ++ [ScriptAdded])) /\
  tailwind_of v = None /\
  tailwind_of (reparsed v) = None.
Proof.
  intros Hm Hshape. rewrite (addBuildScript_doc s v Hm).
  destruct Hshape as [[elems ->]|(ms & o & -> & Hs & Ho & Hnot)].
  - done.
  - assert (tailwind_of (JObj ms) = None) as Hnone.
    { unfold tailwind_of. cbn [get_member]. rewrite Hs.
      destruct o; try done. by destruct (Hnot members). }
    rewrite Hnone. cbn [truthy negb]. rewrite orb_true_r.
    split; [|split; [done|]].
    + unfold with_build_script. cbn [get_member set_member]. rewrite Hs, Ho.
      assert (set_member o (lit "tailwind") (JStr buildCommand) = o) as ->.
      { destruct o; try done. by destruct (Hnot members). }
      by rewrite (upsert_same _ _ _ Hs).
    + unfold tailwind_of. rewrite get_member_reparsed. cbn [get_member].
      rewrite Hs. cbn [fmap option_fmap option_map].
      by apply reparsed_no_member.
Qed.

Lemma build_script_lost_witness :
  let v := JObj [(lit "scripts", JStr (lit "see Makefile"))] in
  let s := fresh (Dir ∅ (Some (Doc v))) in
  Installer.addBuildScript s
  = Ret tt (State (Dir (texts (cwd s)) (Some (Doc (reparsed v))))
                  (printed s ++ [ScriptAdded])) /\
  tailwind_of v = None /\
  tailwind_of (reparsed v) = None.
Proof.
  intros v s. apply (build_script_lost s v); [done|].
  right. eexists _, _. by repeat split.
Defined.

(** ** The installer as a whole *)

Lemma after_files_other s p :
  p <> configFilePath -> p <> stylesPath ->
  texts (cwd (after_files s)) !! p = texts (cwd s) !! p.
Proof.
  intros Hc Hs. unfold after_files.
  case_bool_decide; cbn [cwd texts said wrote];
    by rewrite ?lookup_insert_ne by done.
Qed.

(** What a second phase that returned leaves of the manifest and of the
    template. *)
Lemma configure_Ret_any linkTag patch ign s s1 :
  In (linkTag, patch) patchers ->
  harmless ign ->
  Installer.configure linkTag ign s = Ret tt s1 ->
  (exists v1, package_json (cwd s1) = Some (Doc v1) /\
              (settled v1 \/ get_member v1 (lit "scripts") = Some JNull)) /\
  (forall t, texts (cwd s1) !! themeLiquidPath = Some t ->
             includes t linkFragment = true) /\
  exists sd se, ign sd = Ret tt se /\ cwd se = cwd s1.
Proof.
  intros Hp Hign Hrun.
  pose proof (configure_run linkTag ign s Hign) as Hsteps.
  destruct (Installer.addBuildScript (after_files s)) as [[] sc|c sc|e sc] eqn:Hb;
    [|congruence..].
  destruct Hsteps as (sd & se & Hpatch & Hse & Hs1).
  rewrite Hrun in Hs1. injection Hs1 as ->.
  destruct (addBuildScript_Ret _ _ Hb) as (v1 & Hv1 & Hset).
  destruct (patch_total linkTag sc) as (sd' & line & Hpatch' & Hm' & _).
  rewrite Hpatch in Hpatch'. injection Hpatch' as <-.
  destruct (Hign sd) as (se' & more & Hse' & Hm & Ht & _).
  rewrite Hse in Hse'. injection Hse' as <-.
  cbn [said cwd]. split; [|split].
  - exists v1. by rewrite Hm, Hm'.
  - rewrite Ht. intros t Ht1.
    destruct (texts (cwd sc) !! themeLiquidPath) as [content|] eqn:Hfile.
    + destruct (includes content linkFragment) eqn:Hin.
      * rewrite (patch_present linkTag sc content Hfile Hin) in Hpatch.
        injection Hpatch as <-. cbn [said cwd] in Ht1.
        rewrite Hfile in Ht1. by injection Ht1 as <-.
      * rewrite (patch_insert linkTag sc content Hfile Hin) in Hpatch.
        injection Hpatch as <-. cbn [cwd texts] in Ht1.
        rewrite lookup_insert_eq in Ht1. injection Ht1 as <-.
        set (k := indexOf content headEnd).
        pose proof (patchers_once_written _ _ (slice content 0 k)
                      (slice_from content k) Hp) as Honce.
        apply includes_true. lia.
    + rewrite (patch_missing linkTag sc Hfile) in Hpatch.
      injection Hpatch as <-. cbn [said cwd] in Ht1. congruence.
  - by exists sd, se.
Qed.

(** X13.  After an install that ran to the end, [tailwind.config.js] is
    the template and [tailwind-config.css] exists; [package.json] parses,
    and when its [scripts] is an object the [tailwind] entry is truthy; and
    the template, if the external commands left one, holds the stylesheet
    reference. *)
Theorem install_sets_up cmd linkTag install h s s1 :
  In (cmd, linkTag, install) installers ->
  install h s = Ret tt s1 ->
  texts (cwd s1) !! configFilePath = Some customConfig /\
  is_Some (texts (cwd s1) !! stylesPath) /\
  (exists v1,
     package_json (cwd s1) = Some (Doc v1) /\
     forall ss, get_member v1 (lit "scripts") = Some (JObj ss) ->
                truthy (assoc (lit "tailwind") ss) = true) /\
  (forall t, texts (cwd s1) !! themeLiquidPath = Some t ->
             includes t linkFragment = true).
Proof.
  intros Hi Hrun.
  destruct (installers_patchers _ _ _ Hi) as [patch Hp].
  destruct (installers_run _ _ _ h s Hi) as (ign & Heq & Hign).
  assert (harmless ign) as Hh.
  { destruct Hign as [->| ->]; [apply harmless_ret|apply harmless_ignoreFiles]. }
  rewrite Heq in Hrun. apply bind_Ret in Hrun as ([] & s0 & _ & Hconf).
  destruct (configure_files linkTag ign s0 Hh) as [Hcfg Hsty].
  rewrite Hconf in Hcfg, Hsty. cbn [final] in Hcfg, Hsty.
  destruct (configure_Ret_any linkTag patch ign s0 s1 Hp Hh Hconf)
    as ((v1 & Hv1 & Hset) & Htheme & _).
  split; [done|]. split; [by rewrite Hsty|]. split; [|done].
  exists v1. split; [done|]. intros ss Hss.
  destruct Hset as [Hset|Hnull]; [|congruence].
  destruct Hset as [[_ Ht]|[[elems ->]|(ms & o & -> & Ho & _ & Hnot)]].
  - unfold tailwind_of in Ht. by rewrite Hss in Ht.
  - done.
  - cbn [get_member] in Hss. rewrite Ho in Hss. injection Hss as ->.
    by destruct (Hnot ss).
Qed.

Lemma install_sets_up_witness :
  let s := fresh (theme_only (lit "<html><head></head></html>")) in
  let s1 := final (Pinned.installTailwindCSS npm_host s) in
  texts (cwd s1) !! configFilePath = Some customConfig /\
  is_Some (texts (cwd s1) !! stylesPath) /\
  (exists v1,
     package_json (cwd s1) = Some (Doc v1) /\
     forall ss, get_member v1 (lit "scripts") = Some (JObj ss) ->
                truthy (assoc (lit "tailwind") ss) = true) /\
  (forall t, texts (cwd s1) !! themeLiquidPath = Some t ->
             includes t linkFragment = true).
Proof.
  intros s s1.
  apply (install_sets_up pinnedCommand linkTag_pinned
           Pinned.installTailwindCSS npm_host s s1).
  - right. by left.
  - by vm_compute.
Defined.

(** An ignore file that was reconciled holds every required entry. *)
Lemma ignore_after path required create s s1 :
  In (path, required, create) ignoreFiles ->
  create s = Ret tt s1 ->
  exists content1,
    texts (cwd s1) !! path = Some content1 /\
    forall entry, In entry required -> includes content1 entry = true.
Proof.
  intros Hf Hrun.
  pose proof (ignoreFiles_text _ _ _ Hf) as Htext.
  pose proof (ignoreFiles_plain _ _ _ Hf) as Hplain.
  assert (forall entry, In entry required ->
                        includes (ignore_block required) entry = true) as Hblock.
  { intros entry Hin. apply includes_true.
    rewrite (ignoreFiles_block _ _ _ entry Hf Hin). lia. }
  rewrite (ignoreFiles_run _ _ _ s Hf) in Hrun.
  destruct (texts (cwd s) !! path) as [content|] eqn:Hfile.
  - destruct (existsb (fun entry => negb (includes content entry)) required)
      eqn:Hex.
    + apply missing_entry in Hex.
      rewrite (reconcile_updated path _ required Htext Hplain s content Hfile Hex)
        in Hrun.
      injection Hrun as <-. eexists. cbn [wrote cwd texts].
      rewrite lookup_insert_eq. split; [done|].
      intros entry Hin. apply includes_app_r; [|by apply Hblock].
      apply (ignoreFiles_nonempty _ _ _ entry Hf Hin).
    + pose proof (all_entries_held _ _ Hex) as Hall.
      rewrite (reconcile_unchanged path _ required Htext s content Hfile Hall)
        in Hrun.
      injection Hrun as <-. by exists content.
  - rewrite (reconcile_created path _ required Htext Hplain s Hfile Hblock) in Hrun.
    injection Hrun as <-. eexists. cbn [wrote cwd texts].
    by rewrite lookup_insert_eq.
Qed.

(** X14.  After an install of [part_001] that ran to the end, [.gitignore]
    and [.shopifyignore] both exist and each holds every one of its
    required entries. *)
Theorem pinned_install_reconciles_ignores h s s1 path required create :
  Pinned.installTailwindCSS h s = Ret tt s1 ->
  In (path, required, create) ignoreFiles ->
  exists content,
    texts (cwd s1) !! path = Some content /\
    forall entry, In entry required -> includes content entry = true.
Proof.
  intros Hrun Hf.
  unfold Pinned.installTailwindCSS in Hrun. rewrite install_phases in Hrun.
  apply bind_Ret in Hrun as ([] & s0 & _ & Hconf).
  destruct (configure_Ret_any linkTag_pinned Pinned.addTailwindToThemeLiquid
              _ s0 s1 ltac:(by right; left) harmless_ignoreFiles Hconf)
    as (_ & _ & sd & se & Hign & <-).
  apply bind_Ret in Hign as ([] & sg & Hgit & Hshop).
  destruct (ignore_after gitIgnorePath gitIgnoreLines _ sd sg
              ltac:(by left) Hgit) as (cg & Hcg & Hallg).
  destruct (ignore_after shopifyIgnorePath shopifyIgnoreLines _ sg se
              ltac:(by right; left) Hshop) as (cs & Hcs & Halls).
  destruct Hf as [[= <- <- <-]|[[= <- <- <-]|[]]].
  - exists cg. split; [|done].
    rewrite (ignoreFiles_run shopifyIgnorePath shopifyIgnoreLines _ sg
               ltac:(by right; left)) in Hshop.
    destruct (reconcile_frame shopifyIgnorePath
                (ignore_block shopifyIgnoreLines) shopifyIgnoreLines sg
                shopifyIgnore_is_text) as (se' & more & Hse' & _ & Hother & _).
    rewrite Hshop in Hse'. injection Hse' as <-.
    rewrite Hother by distinct_paths. done.
  - by exists cs.
Qed.

Lemma pinned_install_reconciles_ignores_witness :
  let s := fresh (one_file themeLiquidPath (lit "<head></head>")) in
  let s1 := final (Pinned.installTailwindCSS npm_host s) in
  exists content,
    texts (cwd s1) !! shopifyIgnorePath = Some content /\
    forall entry, In entry shopifyIgnoreLines ->
                  includes content entry = true.
Proof.
  intros s s1.
  apply (pinned_install_reconciles_ignores npm_host s s1 shopifyIgnorePath
           shopifyIgnoreLines Pinned.createShopifyIgnore).
  - by vm_compute.
  - right. by left.
Defined.

(** Reconciling an ignore file leaves every other text file alone. *)
Lemma ignore_after_frame path required create s p :
  In (path, required, create) ignoreFiles ->
  p <> path ->
  texts (cwd (final (create s))) !! p = texts (cwd s) !! p.
Proof.
  intros Hf Hp. rewrite (ignoreFiles_run _ _ _ s Hf).
  destruct (reconcile_frame path (ignore_block required) required s
              (ignoreFiles_text _ _ _ Hf)) as (s1 & more & -> & _ & Ht & _).
  by apply Ht.
Qed.

Lemma configure_other linkTag ign s p :
  harmless ign ->
  (forall s', texts (cwd (final (ign s'))) !! p = texts (cwd s') !! p) ->
  p <> configFilePath -> p <> stylesPath -> p <> themeLiquidPath ->
  texts (cwd (final (Installer.configure linkTag ign s))) !! p
  = texts (cwd s) !! p.
Proof.
  intros Hign Hkeep Hc Hs Ht.
  pose proof (configure_run linkTag ign s Hign) as Hsteps.
  destruct (addBuildScript_frame (after_files s)) as [Htexts _].
  destruct (Installer.addBuildScript (after_files s)) as [[] sc|c sc|e sc] eqn:Hb.
  - destruct Hsteps as (sd & se & Hpatch & Hse & ->).
    destruct (patch_total linkTag sc) as (sd' & line & Hpatch' & _ & Hsd & _).
    rewrite Hpatch in Hpatch'. injection Hpatch' as <-.
    pose proof (Hkeep sd) as Hk. rewrite Hse in Hk.
    cbn [final said cwd] in *.
    by rewrite Hk, Hsd, Htexts, after_files_other.
  - rewrite Hsteps. cbn [final] in *. by rewrite Htexts, after_files_other.
  - rewrite Hsteps. cbn [final] in *. by rewrite Htexts, after_files_other.
Qed.

(** X15.  However an install ends, a text file that the external commands
    leave alone and that is not one the installer writes is as before:
    of the text files, [index.js] writes at most [tailwind.config.js],
    [tailwind-config.css] and the template, [part_001] at most these and
    the two ignore files.  The manifest [package.json], which both write
    as well, is kept apart from the text files and is not among them. *)
Theorem install_writes_its_files_only cmd linkTag install paths h s p :
  In (cmd, linkTag, install, paths) installer_files ->
  keeps_file h p ->
  ~ In p paths ->
  texts (cwd (final (install h s))) !! p = texts (cwd s) !! p.
Proof.
  intros Hi Hkeep Hp.
  assert (p <> configFilePath /\ p <> stylesPath /\ p <> themeLiquidPath /\
          exists ign,
            install h s
            = (Installer.prelude h cmd;; Installer.configure linkTag ign) s /\
            harmless ign /\
            forall s', texts (cwd (final (ign s'))) !! p = texts (cwd s') !! p)
    as (Hc & Hs & Ht & ign & -> & Hign & Hframe).
  { destruct Hi as [[= <- <- <- <-]|[[= <- <- <- <-]|[]]]; simpl in Hp.
    - repeat split; try (intros ->; tauto).
      exists (ret tt). split; [apply install_phases|].
      split; [apply harmless_ret|done].
    - repeat split; try (intros ->; tauto).
      exists (Pinned.createGitIgnore;; Pinned.createShopifyIgnore).
      split; [apply install_phases|]. split; [apply harmless_ignoreFiles|].
      intros s'. unfold bind.
      pose proof (ignore_after_frame gitIgnorePath gitIgnoreLines
                    Pinned.createGitIgnore s' p ltac:(by left)) as Hg.
      destruct (Pinned.createGitIgnore s') as [[] sg|c sg|e sg];
        cbn [final] in *; try (apply Hg; intros ->; tauto).
      pose proof (ignore_after_frame shopifyIgnorePath shopifyIgnoreLines
                    Pinned.createShopifyIgnore sg p ltac:(by right; left)) as Hh.
      rewrite Hh, Hg; [done|intros ->; tauto..]. }
  pose proof (prelude_wp h cmd s) as Hpre. cbv zeta in Hpre.
  unfold wp in Hpre. unfold bind.
  set (d1 := if bool_decide (is_Some (package_json (cwd s))) then cwd s
             else (run_command h "npm init -y" (cwd s)).2) in *.
  assert (texts d1 !! p = texts (cwd s) !! p) as Hd1.
  { subst d1. case_bool_decide; [done|]. apply Hkeep. }
  assert (texts (run_command h cmd d1).2 !! p = texts (cwd s) !! p) as Hd2
    by (by rewrite Hkeep).
  destruct (Installer.prelude h cmd s) as [[] s2|c s'|e s'].
  - destruct Hpre as (_ & _ & Hcwd & _).
    rewrite (configure_other linkTag ign s2 p Hign Hframe Hc Hs Ht).
    by rewrite Hcwd.
  - cbn [final]. destruct Hpre as (_ & [-> | [-> | ->]] & _); done.
  - cbn [final]. destruct Hpre as (_ & [-> | [-> | ->]] & _); done.
Qed.

Lemma install_writes_its_files_only_witness :
  let readme := "README.md" in
  let s := fresh (Dir {[ themeLiquidPath := lit "<head></head>";
                         readme := lit "# my theme" ]} None) in
  texts (cwd (final (Index.installTailwindCSS npm_host s))) !! readme
  = texts (cwd s) !! readme.
Proof.
  intros readme s.
  apply (install_writes_its_files_only indexCommand linkTag_index
           Index.installTailwindCSS
           [configFilePath; stylesPath; themeLiquidPath] npm_host s readme).
  - by left.
  - intros cmd d. unfold npm_host, npm_run. cbn [run_command].
    by destruct (decide (cmd = "npm init -y")).
  - simpl. intros [H|[H|[H|[]]]]; discriminate H.
Defined.

(** * Properties of [part_000] *)

(** ** Occurrences of a text that cannot overlap itself *)

Section Unbordered.

Implicit Types (n p s r post : text).

Lemma starts_with_prefix p s : starts_with p s = true <-> p `prefix_of` s.
Proof.
  split.
  - intros H. exists (drop (length p) s). by apply starts_with_split.
  - intros [k ->]. apply starts_with_app.
Qed.

Lemma starts_with_long n s x :
  (length n <= length s)%nat -> starts_with n (s ++ x) = starts_with n s.
Proof.
  revert s; induction n as [|a n IH]; intros [|b s] Hlen; simpl in *;
    try done; try lia.
  rewrite IH by lia. done.
Qed.

Lemma unbordered_shift n j :
  unbordered n = true -> (0 < j < length n)%nat ->
  starts_with (drop j n) n = false.
Proof.
  unfold unbordered. rewrite forallb_forall. intros H Hj.
  apply negb_true_iff, H, in_seq. lia.
Qed.

(** No occurrence starts inside the text itself. *)
Lemma no_match_inside n j post :
  unbordered n = true -> (0 < j < length n)%nat ->
  starts_with n (drop j n ++ post) = false.
Proof.
  intros Hu Hj. destruct (starts_with n (drop j n ++ post)) eqn:E; [|done].
  apply starts_with_prefix in E.
  assert (drop j n `prefix_of` drop j n ++ post) as Hd by (by eexists).
  destruct (prefix_weak_total _ _ _ E Hd) as [H|H].
  - apply prefix_length in H. rewrite length_drop in H. lia.
  - apply starts_with_prefix in H. by rewrite (unbordered_shift n j Hu Hj) in H.
Qed.

(** No occurrence starts before the text and runs into it. *)
Lemma no_match_across n r post :
  unbordered n = true -> (0 < length r < length n)%nat ->
  starts_with n (r ++ n ++ post) = false.
Proof.
  intros Hu Hr. destruct (starts_with n (r ++ n ++ post)) eqn:E; [|done].
  apply starts_with_prefix in E.
  assert (r `prefix_of` r ++ n ++ post) as Hd by (by eexists).
  destruct (prefix_weak_total _ _ _ E Hd) as [H|[x Hx]].
  - apply prefix_length in H. lia.
  - assert (x = drop (length r) n) as Hdrop
      by (by rewrite Hx, drop_app_length).
    rewrite Hx in E at 1. apply prefix_app_inv in E.
    assert (n `prefix_of` n ++ post) as Hn by (by eexists).
    destruct (prefix_weak_total _ _ _ E Hn) as [H|H].
    + apply starts_with_prefix in H. rewrite Hdrop in H.
      by rewrite (unbordered_shift n (length r) Hu Hr) in H.
    + apply prefix_length in H.
      assert (length n = (length r + length x)%nat)
        by (by rewrite Hx at 1; rewrite length_app).
      lia.
Qed.

Lemma occurrences_after_suffix n t post :
  unbordered n = true ->
  (exists u, u <> [] /\ n = u ++ t) ->
  occurrences n (t ++ post) = occurrences n post.
Proof.
  intros Hu. induction t as [|c t IH]; intros (u & Hne & Hn); [done|].
  change ((c :: t) ++ post) with (c :: (t ++ post)).
  cbn [occurrences].
  assert (starts_with n (c :: t ++ post) = false) as ->.
  { assert (c :: t = drop (length u) n) as Hct
      by (by rewrite Hn, drop_app_length).
    change (c :: t ++ post) with ((c :: t) ++ post). rewrite Hct.
    apply no_match_inside; [done|].
    rewrite Hn, length_app. simpl.
    destruct u; [done|]. simpl. lia. }
  simpl. apply IH. exists (u ++ [c]). split.
  - by destruct u.
  - by rewrite <- app_assoc.
Qed.

(** Inserted where it does not occur, an unbordered text occurs once. *)
Lemma occurrences_inserted n pre post :
  unbordered n = true -> n <> [] ->
  occurrences n (pre ++ post) = 0%nat ->
  occurrences n (pre ++ n ++ post) = 1%nat.
Proof.
  intros Hu Hne. induction pre as [|b pre IH]; intros Hnone.
  - change ([] ++ n ++ post) with (n ++ post).
    destruct n as [|a n']; [done|].
    change ((a :: n') ++ post) with (a :: (n' ++ post)).
    cbn [occurrences].
    change (a :: (n' ++ post)) with ((a :: n') ++ post).
    rewrite starts_with_app.
    rewrite (occurrences_after_suffix (a :: n') n' post Hu).
    + simpl in Hnone. lia.
    + by exists [a].
  - change ((b :: pre) ++ n ++ post) with (b :: (pre ++ n ++ post)).
    change ((b :: pre) ++ post) with (b :: (pre ++ post)) in Hnone.
    cbn [occurrences] in *.
    rewrite IH by lia.
    assert (starts_with n (b :: pre ++ n ++ post) = false) as ->; [|done].
    destruct (decide (length n <= length (b :: pre))%nat) as [Hlong|Hshort].
    + change (b :: pre ++ n ++ post) with ((b :: pre) ++ n ++ post).
      rewrite starts_with_long by done.
      destruct (starts_with n (b :: pre ++ post)) eqn:E; [lia|].
      change (b :: pre ++ post) with ((b :: pre) ++ post) in E.
      by rewrite starts_with_long in E.
    + apply (no_match_across n (b :: pre) post Hu). simpl in *. lia.
Qed.

End Unbordered.

(** ** Running the primitives of [part_000] *)

Section VersionedPrimitives.

Import Versioned.
Implicit Types (w : world) (path : string).

Lemma told_nil w : told w [] = w.
Proof. destruct w. unfold told. simpl. by rewrite app_nil_r. Qed.

Lemma lift_Ret {A} (m : M A) w a s :
  m (State (here w) []) = Ret a s ->
  lift m w = Done a (World (cwd s) (assets w) (shown w ++ (Shared <$> printed s))).
Proof. intros H. unfold lift. by rewrite H. Qed.

Lemma existsSync_file path w :
  path <> assetsPath -> path <> manifestPath ->
  Versioned.existsSync path w
  = Done (bool_decide (is_Some (texts (here w) !! path))) w.
Proof.
  intros Ha Hm. unfold Versioned.existsSync. rewrite decide_False by done.
  rewrite (lift_Ret _ w _ _ (existsSync_text path _ Hm)).
  cbn [cwd printed fmap list_fmap]. f_equal. apply (told_nil w).
Qed.

Lemma readFileSync_file path w t :
  texts (here w) !! path = Some t ->
  Versioned.readFileSync path w = Done t w.
Proof.
  intros H. unfold Versioned.readFileSync.
  rewrite (lift_Ret _ w t (State (here w) [])).
  - cbn [cwd printed fmap list_fmap]. f_equal. apply (told_nil w).
  - by apply readFileSync_some.
Qed.

Lemma writeFileSync_top path data w :
  String.prefix "assets/" path = false ->
  Versioned.writeFileSync path data w
  = Done tt (put w path (toWellFormed data) []).
Proof. intros H. unfold Versioned.writeFileSync. by rewrite H. Qed.

End VersionedPrimitives.

(** ** The patcher of [part_000] *)

Section VersionedPatcher.

Import Versioned.
Implicit Types (w : world) (arg : option text) (content : text).

Lemma linkTag_cases version :
  linkTag version = linkFragment \/ linkTag version = linkTag (lit "4").
Proof.
  unfold linkTag, cssFile. case_bool_decide; [by left|right].
  by rewrite bool_decide_false.
Qed.

Lemma linkTag_unbordered version :
  unbordered (linkTag version) = true /\ linkTag version <> [].
Proof. by destruct (linkTag_cases version) as [-> | ->]. Qed.

Lemma linkTag_plain version : plain (linkTag version) = true.
Proof. by destruct (linkTag_cases version) as [-> | ->]. Qed.

Lemma versioned_patch_present arg w content :
  texts (here w) !! themeLiquidPath = Some content ->
  includes content (linkTag (default (lit "3") arg)) = true ->
  addTailwindToThemeLiquid arg w
  = Done tt (told w [LinkExistsFor (default (lit "3") arg)]).
Proof.
  intros Hfile Hin. unfold addTailwindToThemeLiquid, andThen.
  rewrite existsSync_file by done. rewrite Hfile, bool_decide_true by done.
  rewrite (readFileSync_file _ _ _ Hfile). by rewrite Hin.
Qed.

Lemma versioned_patch_insert arg w content :
  texts (here w) !! themeLiquidPath = Some content ->
  includes content (linkTag (default (lit "3") arg)) = false ->
  addTailwindToThemeLiquid arg w
  = Done tt
      (put w themeLiquidPath
         (toWellFormed
            (slice content 0 (indexOf content headEnd)
               ++ linkTag (default (lit "3") arg)
               ++ slice_from content (indexOf content headEnd)))
         [LinkAddedFor (default (lit "3") arg)]).
Proof.
  intros Hfile Hin. unfold addTailwindToThemeLiquid, andThen.
  rewrite existsSync_file by done. rewrite Hfile, bool_decide_true by done.
  rewrite (readFileSync_file _ _ _ Hfile). rewrite Hin. cbn [negb].
  rewrite writeFileSync_top by done. unfold echo, put.
  cbn [here assets shown]. by rewrite app_nil_r.
Qed.

Lemma versioned_patch_missing arg w :
  texts (here w) !! themeLiquidPath = None ->
  addTailwindToThemeLiquid arg w = Done tt (told w [Shared ThemeMissing]).
Proof.
  intros Hfile. unfold addTailwindToThemeLiquid, andThen.
  rewrite existsSync_file by done. rewrite Hfile.
  by rewrite bool_decide_false by (by intros [? ?]).
Qed.

End VersionedPatcher.

(** X16.  The patcher of [part_000] looks for the reference to the
    stylesheet of the version, [tailwind.css] for version 3 (also when
    called without argument) and [tailwind-output.css] otherwise, and
    inserts that reference itself, with nothing around it.  Whatever the
    template holds, after one call it holds the reference, and a second
    call only prints the "already exists" line.  When it did not hold the
    reference before, the template is cut in two and left with the
    reference between the parts, each part as the [utf8] encoding writes
    it, and the reference occurs exactly once; the parts of a well-formed
    template are written as they are unless the second begins with the
    second half of a character. *)
Theorem versioned_patch_once arg w content :
  texts (Versioned.here w) !! themeLiquidPath = Some content ->
  let version := default (lit "3") arg in
  let tag := Versioned.linkTag version in
  (version = lit "3" -> tag = linkFragment) /\
  (version <> lit "3" ->
   tag = lit "{{ 'tailwind-output.css' | asset_url | stylesheet_tag }}") /\
  exists w1 content1,
    Versioned.addTailwindToThemeLiquid arg w = Versioned.Done tt w1 /\
    texts (Versioned.here w1) !! themeLiquidPath = Some content1 /\
    includes content1 tag = true /\
    (includes content tag = false ->
     exists pre post,
       content = pre ++ post /\
       content1 = toWellFormed pre ++ tag ++ toWellFormed post /\
       occurrences tag content1 = 1%nat /\
       (toWellFormed content = content ->
        (forall c r, post = c :: r -> is_low c = false) ->
        toWellFormed pre = pre /\ toWellFormed post = post)) /\
    Versioned.addTailwindToThemeLiquid arg w1
    = Versioned.Done tt (told w1 [Versioned.LinkExistsFor version]).
Proof.
  intros Hfile version tag. split; [|split].
  - intros Hv. subst tag. unfold Versioned.linkTag, Versioned.cssFile.
    by rewrite bool_decide_true.
  - intros Hv. subst tag. unfold Versioned.linkTag, Versioned.cssFile.
    by rewrite bool_decide_false.
  - destruct (includes content tag) eqn:Hin.
    + rewrite (versioned_patch_present arg w content Hfile Hin).
      eexists _, content. split; [done|]. split; [done|]. split; [done|].
      split; [done|]. by apply (versioned_patch_present arg _ content).
    + rewrite (versioned_patch_insert arg w content Hfile Hin).
      set (k := indexOf content headEnd).
      destruct (linkTag_unbordered version) as [Hu Hne].
      pose proof (linkTag_plain version) as Hplain.
      set (written := toWellFormed
                        (slice content 0 k ++ tag ++ slice_from content k)).
      assert (occurrences tag written = 1%nat) as Hone.
      { subst written. rewrite (occurrences_toWellFormed _ _ Hplain).
        apply occurrences_inserted; [done..|].
        rewrite slice_join. by apply includes_false. }
      assert (includes written tag = true) as Hin1
        by (apply includes_true; lia).
      eexists _, written. split; [done|]. cbn [put Versioned.here texts].
      rewrite lookup_insert_eq. split; [done|]. split; [done|]. split.
      * intros _. exists (slice content 0 k), (slice_from content k).
        rewrite slice_join. split; [done|]. split; [|split; [done|]].
        -- subst written. by apply toWellFormed_insert.
        -- intros Hwf Hcut. apply well_formed_cut; [|done].
           by rewrite slice_join.
      * apply (versioned_patch_present arg _ written); [|done].
        cbn [put Versioned.here texts]. by rewrite lookup_insert_eq.
Qed.

Lemma versioned_patch_once_witness :
  let content := lit "<head><title>t</title></head>" in
  let w := opened (theme_only content) in
  let version := lit "4" in
  let tag := Versioned.linkTag version in
  (version = lit "3" -> tag = linkFragment) /\
  (version <> lit "3" ->
   tag = lit "{{ 'tailwind-output.css' | asset_url | stylesheet_tag }}") /\
  exists w1 content1,
    Versioned.addTailwindToThemeLiquid (Some version) w
    = Versioned.Done tt w1 /\
    texts (Versioned.here w1) !! themeLiquidPath = Some content1 /\
    includes content1 tag = true /\
    (includes content tag = false ->
     exists pre post,
       content = pre ++ post /\
       content1 = toWellFormed pre ++ tag ++ toWellFormed post /\
       occurrences tag content1 = 1%nat /\
       (toWellFormed content = content ->
        (forall c r, post = c :: r -> is_low c = false) ->
        toWellFormed pre = pre /\ toWellFormed post = post)) /\
    Versioned.addTailwindToThemeLiquid (Some version) w1
    = Versioned.Done tt (told w1 [Versioned.LinkExistsFor version]).
Proof.
  intros content w version tag.
  apply (versioned_patch_once (Some version) w content). by vm_compute.
Defined.

(** A template that one of the earlier patchers returned from holds the
    stylesheet reference. *)
Lemma patched_holds_link linkTag patch s s1 content :
  In (linkTag, patch) patchers ->
  texts (cwd s) !! themeLiquidPath = Some content ->
  patch s = Ret tt s1 ->
  exists content1,
    texts (cwd s1) !! themeLiquidPath = Some content1 /\
    includes content1 linkFragment = true.
Proof.
  intros Hp Hfile Hrun. rewrite (patchers_run _ _ Hp) in Hrun.
  destruct (includes content linkFragment) eqn:Hin.
  - rewrite (patch_present linkTag s content Hfile Hin) in Hrun.
    injection Hrun as <-. by exists content.
  - rewrite (patch_insert linkTag s content Hfile Hin) in Hrun.
    injection Hrun as <-. cbn [cwd texts]. rewrite lookup_insert_eq.
    eexists. split; [done|]. apply includes_true.
    rewrite (patchers_once_written _ _ _ _ Hp). lia.
Qed.

(** A template that the patcher of [part_000] returned from holds the
    reference of the version. *)
Lemma versioned_patched_holds_link arg w w1 content :
  texts (Versioned.here w) !! themeLiquidPath = Some content ->
  Versioned.addTailwindToThemeLiquid arg w = Versioned.Done tt w1 ->
  exists content1,
    texts (Versioned.here w1) !! themeLiquidPath = Some content1 /\
    includes content1 (Versioned.linkTag (default (lit "3") arg)) = true.
Proof.
  intros Hfile Hrun.
  pose proof (versioned_patch_present arg w content Hfile) as Hpres.
  pose proof (versioned_patch_insert arg w content Hfile) as Hins.
  destruct (linkTag_unbordered (default (lit "3") arg)) as [Hu Hne].
  pose proof (linkTag_plain (default (lit "3") arg)) as Hplain.
  remember (Versioned.linkTag (default (lit "3") arg)) as tag eqn:Htag.
  clear Htag.
  destruct (includes content tag) eqn:Hin.
  - rewrite (Hpres eq_refl) in Hrun. injection Hrun as <-. by exists content.
  - rewrite (Hins eq_refl) in Hrun. injection Hrun as <-.
    cbn [put Versioned.here texts].
    rewrite lookup_insert_eq. eexists. split; [done|].
    pose proof (occurrences_inserted tag
                  (slice content 0 (indexOf content headEnd))
                  (slice_from content (indexOf content headEnd)) Hu Hne) as H1.
    rewrite slice_join in H1. apply includes_false in Hin.
    apply includes_true. rewrite (occurrences_toWellFormed _ _ Hplain).
    rewrite (H1 Hin). lia.
Qed.

(** X17.  The version 3 reference of [part_000] is the reference of
    [index.js] and [part_001].  So on a template that one of the earlier
    patchers has patched, the patcher of [part_000] called for version 3
    only prints the "already exists" line; and on a template that this one
    has patched, the earlier patchers do the same: the variants do not
    insert a second link after one another. *)
Theorem variants_share_the_link linkTag patch d content :
  In (linkTag, patch) patchers ->
  texts d !! themeLiquidPath = Some content ->
  (forall lines s1 has_assets shown,
     patch (State d lines) = Ret tt s1 ->
     let w := Versioned.World (cwd s1) has_assets shown in
     Versioned.addTailwindToThemeLiquid None w
     = Versioned.Done tt (told w [Versioned.LinkExistsFor (lit "3")])) /\
  (forall has_assets shown w1 lines,
     Versioned.addTailwindToThemeLiquid None (Versioned.World d has_assets shown)
     = Versioned.Done tt w1 ->
     let s := State (Versioned.here w1) lines in
     patch s = Ret tt (said s [LinkExists])).
Proof.
  intros Hp Hfile. split.
  - intros lines s1 has_assets shown Hrun w.
    destruct (patched_holds_link _ _ (State d lines) s1 content Hp Hfile Hrun)
      as (content1 & H1 & Hin1).
    by apply (versioned_patch_present None w content1).
  - intros has_assets shown w1 lines Hrun s.
    destruct (versioned_patched_holds_link None
                (Versioned.World d has_assets shown) w1 content Hfile Hrun)
      as (content1 & H1 & Hin1).
    rewrite (patchers_run _ _ Hp).
    by apply (patch_present linkTag s content1).
Qed.

Lemma variants_share_the_link_witness :
  let content := lit "<head></head>" in
  let d := theme_only content in
  (forall lines s1 has_assets shown,
     Index.addTailwindToThemeLiquid (State d lines) = Ret tt s1 ->
     let w := Versioned.World (cwd s1) has_assets shown in
     Versioned.addTailwindToThemeLiquid None w
     = Versioned.Done tt (told w [Versioned.LinkExistsFor (lit "3")])) /\
  (forall has_assets shown w1 lines,
     Versioned.addTailwindToThemeLiquid None (Versioned.World d has_assets shown)
     = Versioned.Done tt w1 ->
     let s := State (Versioned.here w1) lines in
     Index.addTailwindToThemeLiquid s = Ret tt (said s [LinkExists])).
Proof.
  intros content d.
  apply (variants_share_the_link linkTag_index _ d content).
  - by left.
  - by vm_compute.
Defined.

(** ** The build script in [part_000] *)

Section VersionedScript.

Import Versioned.
Implicit Types (w : world).

Lemma readManifest_doc w v :
  package_json (here w) = Some (Doc v) -> lift readManifest w = Done v w.
Proof.
  intros H. unfold lift, readManifest. cbn [cwd]. rewrite H.
  cbn [cwd printed fmap list_fmap]. f_equal. apply (told_nil w).
Qed.

Lemma setBuildScript_doc command w v :
  package_json (here w) = Some (Doc v) ->
  setBuildScript command w
  = match v with
    | JObj _ | JArr _ =>
        Done tt
          (World
             (Dir (texts (here w))
                (Some (Doc
                   (reparsed
                      (set_member v (lit "scripts")
                         (set_member
                            match get_member v (lit "scripts") with
                            | Some o =>
                                if truthy (get_member v (lit "scripts")) then o
                                else JObj []
                            | None => JObj []
                            end (lit "tailwind") (JStr command)))))))
             (assets w) (shown w))
    | _ => Thrown (Js TypeError) w
    end.
Proof.
  intros H. unfold setBuildScript, andThen. rewrite (readManifest_doc w v H).
  destruct v; try done; unfold lift, writeManifest;
    cbn [here cwd printed texts package_json fmap list_fmap];
    by rewrite app_nil_r.
Qed.

(** The step never touches a text file or the directory [assets]. *)
Lemma setBuildScript_frame command w :
  texts (here (last (setBuildScript command w))) = texts (here w) /\
  assets (last (setBuildScript command w)) = assets w.
Proof.
  destruct (package_json (here w)) as [[|v]|] eqn:Hm.
  - unfold setBuildScript, andThen, lift, readManifest. cbn [cwd].
    by rewrite Hm.
  - rewrite (setBuildScript_doc command w v Hm). by destruct v.
  - unfold setBuildScript, andThen, lift, readManifest. cbn [cwd].
    by rewrite Hm.
Qed.

End VersionedScript.

(** X18.  In [part_000] the build script is set without looking at what
    is there: when the manifest is an object whose [scripts] is absent,
    falsy or an object, the step writes the manifest with the [tailwind]
    entry of [scripts] equal to the command, also where a truthy entry
    stood before.  Every other member of the manifest and every other
    entry of [scripts] reads as [JSON.stringify] wrote it: as before, but
    that a number beyond the range of a double, anywhere in it, reads as
    [null], and a negative zero as zero. *)
Theorem script_always_set command w ms :
  package_json (Versioned.here w) = Some (Doc (JObj ms)) ->
  match assoc (lit "scripts") ms with
  | Some (JObj _) | None => True
  | Some o => truthy (Some o) = false
  end ->
  exists ms' ss',
    Versioned.setBuildScript command w
    = Versioned.Done tt
        (Versioned.World
           (Dir (texts (Versioned.here w)) (Some (Doc (JObj ms'))))
           (Versioned.assets w) (Versioned.shown w)) /\
    assoc (lit "scripts") ms' = Some (JObj ss') /\
    assoc (lit "tailwind") ss' = Some (JStr command) /\
    (forall k, k <> lit "scripts" -> assoc k ms' = reparsed <$> assoc k ms) /\
    (forall ss k, assoc (lit "scripts") ms = Some (JObj ss) ->
                  k <> lit "tailwind" ->
                  assoc k ss' = reparsed <$> assoc k ss).
Proof.
  intros Hm Hshape. rewrite (setBuildScript_doc command w _ Hm).
  cbn [get_member set_member].
  destruct (scripts_object ms Hshape) as (ss0 & -> & Hss0).
  cbn [set_member].
  destruct (written_with_script command ss0 ms)
    as (-> & Hs' & Ht' & Hother & Hentries).
  eexists _, _. split; [done|]. split; [done|]. split; [done|].
  split; [done|]. intros ss k Hs Hk. rewrite <- (Hss0 ss Hs). by apply Hentries.
Qed.

Lemma script_always_set_witness :
  let scripts := JObj [(lit "tailwind", JStr (lit "my-own-build"));
                       (lit "test", JStr (lit "exit 1"))] in
  let ms := [(lit "name", JStr (lit "theme")); (lit "scripts", scripts)] in
  let w := opened (Dir ∅ (Some (Doc (JObj ms)))) in
  exists ms' ss',
    Versioned.setBuildScript buildCommand w
    = Versioned.Done tt
        (Versioned.World
           (Dir (texts (Versioned.here w)) (Some (Doc (JObj ms'))))
           (Versioned.assets w) (Versioned.shown w)) /\
    assoc (lit "scripts") ms' = Some (JObj ss') /\
    assoc (lit "tailwind") ss' = Some (JStr buildCommand) /\
    (forall k, k <> lit "scripts" -> assoc k ms' = reparsed <$> assoc k ms) /\
    (forall ss k, assoc (lit "scripts") ms = Some (JObj ss) ->
                  k <> lit "tailwind" ->
                  assoc k ss' = reparsed <$> assoc k ss).
Proof.
  intros scripts ms w. by apply (script_always_set buildCommand w ms).
Defined.

(** ** The version 4 installer, phase by phase *)

Section VersionedV4.

Import Versioned.
Implicit Types (w : world).

Lemma andThen_ext {A B} (m : P A) (f g : A -> P B) w :
  (forall a w', f a w' = g a w') -> andThen m f w = andThen m g w.
Proof. intros H. unfold andThen. by destruct (m w). Qed.

Lemma andThen_assoc {A B C} (m : P A) (f : A -> P B) (g : B -> P C) w :
  andThen (andThen m f) g w = andThen m (fun a => andThen (f a) g) w.
Proof. unfold andThen. by destruct (m w). Qed.

Lemma andThen_Done {A B} (m : P A) (f : A -> P B) w b w' :
  andThen m f w = Done b w' ->
  exists a w0, m w = Done a w0 /\ f a w0 = Done b w'.
Proof. unfold andThen. destruct (m w) as [a w0| | |]; [|done..]. by exists a, w0. Qed.

Lemma installTailwindV4_phases h w :
  installTailwindV4 h w
  = andThen (v4_command h) (fun _ => andThen v4_ignore (fun _ => v4_rest)) w.
Proof.
  symmetry. unfold v4_command, installTailwindV4.
  do 3 (rewrite andThen_assoc; apply andThen_ext; intros ? ?).
  apply andThen_ext; intros ? ?. unfold v4_ignore.
  rewrite andThen_assoc. reflexivity.
Qed.

Lemma v4_command_run h w code d :
  run_command h v4Command (here w) = (code, d) ->
  v4_command h w
  = if code =? 0
    then Done tt (World d (assets w) (shown w ++ [InstallingV4; InstalledV4]))
    else Exited 1 (World d (assets w)
                     (shown w ++ [InstallingV4; InstallV4Failed])).
Proof.
  intros Hrun. unfold v4_command, andThen, echo, lift, exec.
  cbn [here assets shown cwd printed]. rewrite Hrun.
  cbn [cwd printed fmap list_fmap]. rewrite app_nil_r.
  destruct (code =? 0); cbn [negb]; unfold pure, exit;
    cbn [here assets shown]; by rewrite <- app_assoc.
Qed.

Lemma v4_ignore_run w :
  v4_ignore w
  = Done tt
      match texts (here w) !! shopifyIgnorePath with
      | Some old =>
          if includes old (lit "package.json") then w
          else put w shopifyIgnorePath (toWellFormed old ++ v4IgnoreContent) []
      | None => put w shopifyIgnorePath v4IgnoreContent []
      end.
Proof.
  assert (plain v4IgnoreContent = true) as Hplain by (by vm_compute).
  unfold v4_ignore, andThen. rewrite existsSync_file by done.
  destruct (texts (here w) !! shopifyIgnorePath) as [old|] eqn:Hfile.
  - rewrite bool_decide_true by done.
    rewrite (readFileSync_file _ _ _ Hfile).
    destruct (includes old (lit "package.json")); cbn [negb]; [done|].
    rewrite writeFileSync_top by done.
    by rewrite (toWellFormed_app_plain old _ Hplain).
  - rewrite bool_decide_false by (by intros [? ?]).
    rewrite writeFileSync_top by done.
    by rewrite (toWellFormed_plain _ Hplain).
Qed.

(** The patcher of [part_000] always returns, and touches the template
    only. *)
Lemma versioned_patch_total arg w :
  exists w1,
    addTailwindToThemeLiquid arg w = Done tt w1 /\
    package_json (here w1) = package_json (here w) /\
    assets w1 = assets w /\
    forall p, p <> themeLiquidPath ->
              texts (here w1) !! p = texts (here w) !! p.
Proof.
  destruct (texts (here w) !! themeLiquidPath) as [content|] eqn:Hfile.
  - destruct (includes content (linkTag (default (lit "3") arg))) eqn:Hin.
    + rewrite (versioned_patch_present arg w content Hfile Hin). by eexists.
    + rewrite (versioned_patch_insert arg w content Hfile Hin).
      eexists. repeat split; try done.
      intros p Hp. cbn [put here texts]. by rewrite lookup_insert_ne.
  - rewrite (versioned_patch_missing arg w Hfile). by eexists.
Qed.

Lemma writeFileSync_assets path data w :
  String.prefix "assets/" path = true -> assets w = true ->
  Versioned.writeFileSync path data w
  = Done tt (put w path (toWellFormed data) []).
Proof.
  intros Hp Ha. unfold Versioned.writeFileSync. rewrite Hp, Ha. done.
Qed.

Lemma writeFileSync_notdir path data w :
  String.prefix "assets/" path = true -> assets w = false ->
  is_Some (texts (here w) !! assetsPath) ->
  Versioned.writeFileSync path data w = Thrown ENOTDIR w.
Proof.
  intros Hp Ha Hf. unfold Versioned.writeFileSync. rewrite Hp, Ha.
  by rewrite bool_decide_true.
Qed.

Lemma existsSync_assets w :
  Versioned.existsSync assetsPath w
  = Done (assets w || bool_decide (is_Some (texts (here w) !! assetsPath))) w.
Proof. unfold Versioned.existsSync. by rewrite decide_True. Qed.

(** What [setBuildScript] leaves of the manifest when it returns. *)
Lemma setBuildScript_Done command w w1 :
  setBuildScript command w = Done tt w1 ->
  exists v,
    package_json (here w1) = Some (Doc v) /\
    forall ss, get_member v (lit "scripts") = Some (JObj ss) ->
               assoc (lit "tailwind") ss = Some (JStr command).
Proof.
  intros Hset.
  destruct (package_json (here w)) as [[|v]|] eqn:Hpj.
  - unfold setBuildScript, andThen, lift, readManifest in Hset.
    cbn [cwd] in Hset. by rewrite Hpj in Hset.
  - rewrite (setBuildScript_doc command w v Hpj) in Hset.
    destruct v as [|b|n|t|elems|ms]; try done; injection Hset as <-;
      cbn [here package_json]; eexists; (split; [done|]); [done|].
    intros ss. cbn [get_member]. rewrite assoc_reparsed, assoc_upsert.
    cbn [fmap option_fmap option_map].
    destruct (scripts_or_fresh (assoc (lit "scripts") ms))
      as [(ss0 & -> & _)|(o & _ & _ & Hnot & ->)].
    + cbn [set_member reparsed]. intros [= <-].
      by rewrite assoc_reparsed, assoc_upsert.
    + assert (set_member o (lit "tailwind") (JStr command) = o) as ->.
      { destruct o; try done. by destruct (Hnot members). }
      intros [= Ho]. by destruct (reparsed_not_object o ss Hnot).
  - unfold setBuildScript, andThen, lift, readManifest in Hset.
    cbn [cwd] in Hset. by rewrite Hpj in Hset.
Qed.

(** The end of the last phase, from the build script on. *)
Lemma v4_script_and_link w :
  let r := andThen (setBuildScript v4BuildCommand)
             (fun _ => andThen (echo ScriptAddedV4)
             (fun _ => addTailwindToThemeLiquid (Some (lit "4")))) w in
  assets (last r) = assets w /\
  (forall p, p <> themeLiquidPath ->
             texts (here (last r)) !! p = texts (here w) !! p) /\
  (forall w1, r = Done tt w1 ->
     (exists v,
        package_json (here w1) = Some (Doc v) /\
        forall ss, get_member v (lit "scripts") = Some (JObj ss) ->
                   assoc (lit "tailwind") ss = Some (JStr v4BuildCommand)) /\
     forall t, texts (here w1) !! themeLiquidPath = Some t ->
               includes t (linkTag (lit "4")) = true).
Proof.
  cbv zeta. unfold andThen, echo.
  destruct (setBuildScript_frame v4BuildCommand w) as [Htexts Hassets].
  pose proof (setBuildScript_Done v4BuildCommand w) as Hdone.
  destruct (setBuildScript v4BuildCommand w) as [[] wc|c wc|e wc|wc];
    cbn [last] in *; try by rewrite Htexts.
  set (wd := World (here wc) (assets wc) (shown wc ++ [ScriptAddedV4])).
  destruct (versioned_patch_total (Some (lit "4")) wd)
    as (we & Hpatch & Hm & Ha & Hframe).
  rewrite Hpatch. cbn [last]. split; [by rewrite Ha|]. split.
  - intros p Hp. rewrite (Hframe p Hp). subst wd. cbn [here]. by rewrite Htexts.
  - intros w1 [= <-]. split.
    + rewrite Hm. subst wd. cbn [here]. by apply Hdone.
    + intros t Ht.
      destruct (texts (here wd) !! themeLiquidPath) as [content|] eqn:Hfile.
      * destruct (versioned_patched_holds_link (Some (lit "4")) wd we
                    content Hfile Hpatch) as (c1 & Hc1 & Hin).
        rewrite Hc1 in Ht. by injection Ht as <-.
      * rewrite (versioned_patch_missing _ wd Hfile) in Hpatch.
        injection Hpatch as <-. cbn [told here] in Ht. congruence.
Qed.

(** The last phase: what it leaves of the text files it does not write,
    and what it leaves when it returns. *)
Lemma v4_rest_outcome w :
  (forall p, p <> assetsConfigPath -> p <> themeLiquidPath ->
             texts (here (last (v4_rest w))) !! p = texts (here w) !! p) /\
  (forall w1, v4_rest w = Done tt w1 ->
     assets w1 = true /\
     texts (here w1) !! assetsConfigPath = Some configContent /\
     (exists v,
        package_json (here w1) = Some (Doc v) /\
        forall ss, get_member v (lit "scripts") = Some (JObj ss) ->
                   assoc (lit "tailwind") ss = Some (JStr v4BuildCommand)) /\
     forall t, texts (here w1) !! themeLiquidPath = Some t ->
               includes t (linkTag (lit "4")) = true).
Proof.
  assert (forall wa,
            here wa = here w -> assets wa = true ->
            let r := andThen (Versioned.writeFileSync assetsConfigPath configContent)
                       (fun _ => andThen (echo AssetsConfigCreated)
                       (fun _ => andThen (setBuildScript v4BuildCommand)
                       (fun _ => andThen (echo ScriptAddedV4)
                       (fun _ => addTailwindToThemeLiquid (Some (lit "4"))))))
                       wa in
            (forall p, p <> assetsConfigPath -> p <> themeLiquidPath ->
                       texts (here (last r)) !! p = texts (here w) !! p) /\
            (forall w1, r = Done tt w1 ->
               assets w1 = true /\
               texts (here w1) !! assetsConfigPath = Some configContent /\
               (exists v,
                  package_json (here w1) = Some (Doc v) /\
                  forall ss, get_member v (lit "scripts") = Some (JObj ss) ->
                             assoc (lit "tailwind") ss
                             = Some (JStr v4BuildCommand)) /\
               forall t, texts (here w1) !! themeLiquidPath = Some t ->
                         includes t (linkTag (lit "4")) = true)) as Htail.
  { intros wa Hhere Hassets r.
    set (wb := told (put wa assetsConfigPath configContent [])
                 [AssetsConfigCreated]).
    assert (r = andThen (setBuildScript v4BuildCommand)
                  (fun _ => andThen (echo ScriptAddedV4)
                  (fun _ => addTailwindToThemeLiquid (Some (lit "4")))) wb)
      as ->.
    { subst r. unfold andThen at 1. rewrite writeFileSync_assets by done.
      unfold andThen at 1. reflexivity. }
    assert (texts (here wb) !! assetsConfigPath = Some configContent /\
            assets wb = true /\
            forall p, p <> assetsConfigPath ->
                      texts (here wb) !! p = texts (here w) !! p)
      as (Hcfg & Hab & Hother).
    { subst wb. cbn [told put here assets texts]. rewrite lookup_insert_eq, Hhere.
      repeat split; try done. intros p Hp. by rewrite lookup_insert_ne. }
    clearbody wb.
    destruct (v4_script_and_link wb) as (Ha & Hframe & Hdone).
    split.
    - intros p Hp Ht. rewrite (Hframe p Ht). by apply Hother.
    - intros w1 Hw1. pose proof (Hdone w1 Hw1) as [Hv Hlink].
      rewrite Hw1 in Ha, Hframe. cbn [last] in Ha, Hframe.
      split; [by rewrite Ha|]. split; [by rewrite Hframe|]. done. }
  assert (v4_rest w
          = if assets w || negb (bool_decide (is_Some (texts (here w) !! assetsPath)))
            then
              andThen (Versioned.writeFileSync assetsConfigPath configContent)
                (fun _ => andThen (echo AssetsConfigCreated)
                (fun _ => andThen (setBuildScript v4BuildCommand)
                (fun _ => andThen (echo ScriptAddedV4)
                (fun _ => addTailwindToThemeLiquid (Some (lit "4"))))))
                (World (here w) true (shown w ++ [ShopifyIgnoreUpdated]))
            else Thrown ENOTDIR (told w [ShopifyIgnoreUpdated])) as ->.
  { unfold v4_rest. unfold andThen at 1. unfold echo at 1.
    unfold andThen at 1. rewrite existsSync_assets. cbn [here assets].
    destruct (assets w) eqn:Ha; cbn [orb negb].
    - unfold andThen at 1. unfold pure at 1. reflexivity.
    - case_bool_decide as Hfile; cbn [negb].
      + unfold andThen at 1. unfold pure at 1. unfold andThen at 1.
        rewrite writeFileSync_notdir by done. unfold told. by rewrite ?Ha.
      + unfold andThen at 1. unfold mkdirSync_assets. cbn [assets here shown].
        rewrite ?Ha. by rewrite bool_decide_false by done. }
  destruct (assets w || negb (bool_decide (is_Some (texts (here w) !! assetsPath)))).
  - by apply Htail.
  - cbn [last told here]. split; [done|]. intros w1 H. discriminate H.
Qed.

End VersionedV4.

Lemma v4_after_command h w d :
  run_command h Versioned.v4Command (Versioned.here w) = (0, d) ->
  let w1 := Versioned.World d (Versioned.assets w)
              (Versioned.shown w
                 ++ [Versioned.InstallingV4; Versioned.InstalledV4]) in
  let w2 := match texts d !! shopifyIgnorePath with
            | Some old =>
                if includes old (lit "package.json") then w1
                else put w1 shopifyIgnorePath
                       (toWellFormed old ++ Versioned.v4IgnoreContent) []
            | None => put w1 shopifyIgnorePath Versioned.v4IgnoreContent []
            end in
  Versioned.installTailwindV4 h w = v4_rest w2.
Proof.
  intros Hrun w1 w2. rewrite installTailwindV4_phases.
  unfold Versioned.andThen at 1. rewrite (v4_command_run h w 0 d Hrun).
  change (0 =? 0) with true. cbv iota.
  unfold Versioned.andThen at 1. by rewrite v4_ignore_run.
Qed.

(** X19.  Once its dependency install has succeeded, the version 4
    installer leaves a [.shopifyignore] that holds [package.json], however
    it ends afterwards: a file that held the entry is unchanged, a file
    that did not is written again with the one entry after what it held
    (as the [utf8] encoding writes it, which for a decoded file is what it
    held), and where there was no file one is created with the entry
    alone.  None of the other entries that [createShopifyIgnore] looks for
    is added. *)
Theorem v4_ignores_the_manifest h w d :
  run_command h Versioned.v4Command (Versioned.here w) = (0, d) ->
  let r := Versioned.installTailwindV4 h w in
  exists content,
    texts (Versioned.here (Versioned.last r)) !! shopifyIgnorePath
    = Some content /\
    includes content (lit "package.json") = true /\
    content = match texts d !! shopifyIgnorePath with
              | Some old =>
                  if includes old (lit "package.json") then old
                  else toWellFormed old ++ Versioned.v4IgnoreContent
              | None => Versioned.v4IgnoreContent
              end.
Proof.
  intros Hrun r. subst r. rewrite (v4_after_command h w d Hrun).
  set (w1 := Versioned.World d _ _).
  set (w2 := match texts d !! shopifyIgnorePath with
             | Some old => _ | None => _ end).
  destruct (v4_rest_outcome w2) as [Hframe _].
  rewrite (Hframe shopifyIgnorePath) by done.
  assert (includes Versioned.v4IgnoreContent (lit "package.json") = true)
    as Hblock by (by vm_compute).
  subst w2. destruct (texts d !! shopifyIgnorePath) as [old|] eqn:Hfile.
  - destruct (includes old (lit "package.json")) eqn:Hin.
    + exists old. subst w1. cbn [Versioned.here]. by rewrite Hfile.
    + eexists. cbn [put Versioned.here texts]. rewrite lookup_insert_eq.
      split; [done|]. split; [|done]. by apply includes_app_r.
  - eexists. cbn [put Versioned.here texts]. rewrite lookup_insert_eq. done.
Qed.

Lemma v4_ignores_the_manifest_witness :
  let old := lit "node_modules" ++ nl in
  let d := Dir {[ themeLiquidPath := lit "<head></head>";
                  shopifyIgnorePath := old ]} (Some (Doc (JObj []))) in
  let w := opened d in
  let h := Host true (fun _ d' => (0, d')) in
  let r := Versioned.installTailwindV4 h w in
  exists content,
    texts (Versioned.here (Versioned.last r)) !! shopifyIgnorePath
    = Some content /\
    includes content (lit "package.json") = true /\
    content = match texts d !! shopifyIgnorePath with
              | Some old =>
                  if includes old (lit "package.json") then old
                  else toWellFormed old ++ Versioned.v4IgnoreContent
              | None => Versioned.v4IgnoreContent
              end.
Proof.
  intros old d w h r. by apply (v4_ignores_the_manifest h w d).
Defined.

(** X20.  A version 4 install that returned went past a successful
    dependency install and leaves: the directory [assets]; the file
    [assets/tailwind-config.css] with the version 4 template, whatever it
    held; a manifest that parses, with the version 4 command under
    [scripts.tailwind] when [scripts] is an object; and a template that, if
    there is one, holds the version 4 reference.  Of the text files the
    command left, it has written to no other than these two and
    [.shopifyignore]: no [tailwind.config.js], no [.gitignore]. *)
Theorem v4_sets_up h w code d w1 :
  run_command h Versioned.v4Command (Versioned.here w) = (code, d) ->
  Versioned.installTailwindV4 h w = Versioned.Done tt w1 ->
  code = 0 /\
  Versioned.assets w1 = true /\
  texts (Versioned.here w1) !! Versioned.assetsConfigPath
  = Some Versioned.configContent /\
  (exists v,
     package_json (Versioned.here w1) = Some (Doc v) /\
     forall ss, get_member v (lit "scripts") = Some (JObj ss) ->
                assoc (lit "tailwind") ss
                = Some (JStr Versioned.v4BuildCommand)) /\
  (forall t, texts (Versioned.here w1) !! themeLiquidPath = Some t ->
             includes t (Versioned.linkTag (lit "4")) = true) /\
  (forall p, p <> shopifyIgnorePath -> p <> Versioned.assetsConfigPath ->
             p <> themeLiquidPath ->
             texts (Versioned.here w1) !! p = texts d !! p).
Proof.
  intros Hrun Hdone.
  assert (code = 0) as ->.
  { destruct (code =? 0) eqn:E; [by apply Z.eqb_eq|].
    rewrite installTailwindV4_phases in Hdone.
    unfold Versioned.andThen at 1 in Hdone.
    rewrite (v4_command_run h w code d Hrun), E in Hdone. discriminate Hdone. }
  split; [done|].
  rewrite (v4_after_command h w d Hrun) in Hdone.
  set (w1' := Versioned.World d _ _) in Hdone.
  set (w2 := match texts d !! shopifyIgnorePath with
             | Some old => _ | None => _ end) in Hdone.
  destruct (v4_rest_outcome w2) as [Hframe Hret].
  destruct (Hret w1 Hdone) as (Ha & Hcfg & Hv & Hlink).
  split; [done|]. split; [done|]. split; [done|]. split; [done|].
  intros p Hs Hc Ht. pose proof (Hframe p Hc Ht) as Hp.
  rewrite Hdone in Hp. cbn [Versioned.last] in Hp. rewrite Hp.
  subst w2. destruct (texts d !! shopifyIgnorePath) as [old|];
    [destruct (includes old (lit "package.json"))|];
    subst w1'; cbn [put Versioned.here texts];
    by rewrite ?lookup_insert_ne by done.
Qed.

Lemma v4_sets_up_witness :
  let d := Dir {[ themeLiquidPath := lit "<head></head>" ]}
               (Some (Doc (JObj []))) in
  let w := Versioned.World d false [] in
  let h := Host true (fun _ d' => (0, d')) in
  let w1 := Versioned.last (Versioned.installTailwindV4 h w) in
  0 = 0 /\
  Versioned.assets w1 = true /\
  texts (Versioned.here w1) !! Versioned.assetsConfigPath
  = Some Versioned.configContent /\
  (exists v,
     package_json (Versioned.here w1) = Some (Doc v) /\
     forall ss, get_member v (lit "scripts") = Some (JObj ss) ->
                assoc (lit "tailwind") ss
                = Some (JStr Versioned.v4BuildCommand)) /\
  (forall t, texts (Versioned.here w1) !! themeLiquidPath = Some t ->
             includes t (Versioned.linkTag (lit "4")) = true) /\
  (forall p, p <> shopifyIgnorePath -> p <> Versioned.assetsConfigPath ->
             p <> themeLiquidPath ->
             texts (Versioned.here w1) !! p = texts d !! p).
Proof.
  intros d w h w1. apply (v4_sets_up h w 0 d w1); [done|by vm_compute].
Defined.

(** ** The installer of [part_000] and its prompt *)

Lemma prompt_first_accepted rejected answer rest :
  forallb (fun a => negb (accepted a)) rejected = true ->
  accepted answer = true ->
  Prompted.promptForVersion (rejected ++ answer :: rest)
  = (reprompts (length rejected) ++ [AskVersion],
     Prompted.Resolved (trim answer) rest).
Proof.
  intros Hrej Hacc. induction rejected as [|a rejected IH].
  - cbn [app Prompted.promptForVersion length reprompts].
    change (bool_decide (trim answer = lit "3")
            || bool_decide (trim answer = lit "4")) with (accepted answer).
    by rewrite Hacc.
  - cbn [forallb] in Hrej. apply andb_prop in Hrej as [Ha Hrej].
    apply negb_true_iff in Ha.
    change ((a :: rejected) ++ answer :: rest)
      with (a :: (rejected ++ answer :: rest)).
    cbn [Prompted.promptForVersion].
    change (bool_decide (trim a = lit "3") || bool_decide (trim a = lit "4"))
      with (accepted a).
    by rewrite Ha, (IH Hrej).
Qed.

Lemma prompt_none_accepted answers :
  forallb (fun a => negb (accepted a)) answers = true ->
  Prompted.promptForVersion answers
  = (reprompts (length answers) ++ [AskVersion], Prompted.Pending).
Proof.
  induction answers as [|a answers IH]; intros Hrej; [done|].
  cbn [forallb] in Hrej. apply andb_prop in Hrej as [Ha Hrej].
  apply negb_true_iff in Ha. cbn [Prompted.promptForVersion].
  change (bool_decide (trim a = lit "3") || bool_decide (trim a = lit "4"))
    with (accepted a).
  by rewrite Ha, (IH Hrej).
Qed.

(** In a theme with a manifest, on a machine with [node], the checks pass
    and print nothing. *)
Lemma versioned_checks_pass h answers ended w content m :
  node_on_path h = true ->
  texts (Versioned.here w) !! themeLiquidPath = Some content ->
  package_json (Versioned.here w) = Some m ->
  Versioned.installTailwindCSS h answers ended w
  = (let '(asked, r) := Prompted.promptForVersion answers in
     Versioned.andThen (Versioned.say asked) (fun _ =>
     match r with
     | Prompted.Resolved version _ =>
         Versioned.andThen
           (if bool_decide (version = lit "3") then Versioned.installTailwindV3 h
            else Versioned.installTailwindV4 h)
           (fun _ => Versioned.rlClose)
     | Prompted.Pending => Versioned.wait ended
     end)) w.
Proof.
  intros Hnode Htheme Hman. unfold Versioned.installTailwindCSS.
  rewrite Hnode. cbn [negb].
  unfold Versioned.andThen at 1. unfold Versioned.pure at 1.
  unfold Versioned.andThen at 1. unfold Versioned.isShopifyProject.
  rewrite (lift_Ret _ w true (State (Versioned.here w) [])).
  2:{ by apply (existsSync_some _ _ content theme_is_text). }
  cbn [cwd printed fmap list_fmap negb].
  change (Versioned.World (Versioned.here w) (Versioned.assets w)
            (Versioned.shown w ++ [])) with (told w []).
  rewrite (told_nil w).
  unfold Versioned.andThen at 1. unfold Versioned.pure at 1.
  unfold Versioned.andThen at 1. unfold Versioned.existsSync.
  rewrite decide_False by done.
  rewrite (lift_Ret _ w true (State (Versioned.here w) [])).
  2:{ rewrite existsSync_manifest. cbn [cwd]. rewrite Hman.
      by rewrite bool_decide_true. }
  cbn [cwd printed fmap list_fmap negb].
  change (Versioned.World (Versioned.here w) (Versioned.assets w)
            (Versioned.shown w ++ [])) with (told w []).
  rewrite (told_nil w).
  unfold Versioned.andThen at 1. unfold Versioned.pure at 1. reflexivity.
Qed.

Lemma andThen_pure_tt (m : Versioned.P unit) w :
  Versioned.andThen m (fun _ => Versioned.pure tt) w = m w.
Proof.
  unfold Versioned.andThen, Versioned.pure.
  by destruct (m w) as [[] ?| | |].
Qed.

(** X21.  In a theme with a manifest, on a machine with [node], the
    installer of [part_000] asks until a line is accepted (its trimmed form
    is 3 or 4), printing the question and the complaint once for each line
    before it and the question once more; it then runs the version 3
    installer when the trimmed line is 3 and the version 4 installer
    otherwise, on the directory as it was, and the outcome of the whole is
    the outcome of that installer.  The lines typed after the accepted one
    play no part, nor does it matter whether standard input ends after
    them. *)
Theorem prompt_picks_the_installer h w content m rejected answer rest ended :
  node_on_path h = true ->
  texts (Versioned.here w) !! themeLiquidPath = Some content ->
  package_json (Versioned.here w) = Some m ->
  forallb (fun a => negb (accepted a)) rejected = true ->
  accepted answer = true ->
  Versioned.installTailwindCSS h (rejected ++ answer :: rest) ended w
  = (if bool_decide (trim answer = lit "3") then Versioned.installTailwindV3 h
     else Versioned.installTailwindV4 h)
      (told w (Versioned.Shared <$>
                 (reprompts (length rejected) ++ [AskVersion]))).
Proof.
  intros Hnode Htheme Hman Hrej Hacc.
  rewrite (versioned_checks_pass h _ ended w content m Hnode Htheme Hman).
  rewrite (prompt_first_accepted rejected answer rest Hrej Hacc).
  unfold Versioned.andThen at 1. unfold Versioned.say at 1.
  by rewrite andThen_pure_tt.
Qed.

Lemma prompt_picks_the_installer_witness :
  let d := Dir {[ themeLiquidPath := lit "<head></head>" ]}
               (Some (Doc (JObj []))) in
  let w := Versioned.World d false [] in
  Versioned.installTailwindCSS npm_host
    ([lit "5"; lit "v4"] ++ lit " 4 " :: [lit "3"]) true w
  = (if bool_decide (trim (lit " 4 ") = lit "3")
     then Versioned.installTailwindV3 npm_host
     else Versioned.installTailwindV4 npm_host)
      (told w (Versioned.Shared <$> (reprompts 2 ++ [AskVersion]))).
Proof.
  intros d w.
  apply (prompt_picks_the_installer npm_host w (lit "<head></head>")
           (Doc (JObj [])) [lit "5"; lit "v4"] (lit " 4 ") [lit "3"] true);
    by vm_compute.
Defined.

(** X22.  In a theme with a manifest, on a machine with [node]: when no
    line typed is accepted, the installer of [part_000] installs nothing.
    It prints the question and the complaint once for each line and the
    question once more; no command runs and the directory is as it was.
    While standard input stays open it is left waiting for a line; when
    standard input has ended, the process exits, with status 0. *)
Theorem no_version_no_install h w content m answers ended :
  node_on_path h = true ->
  texts (Versioned.here w) !! themeLiquidPath = Some content ->
  package_json (Versioned.here w) = Some m ->
  forallb (fun a => negb (accepted a)) answers = true ->
  Versioned.installTailwindCSS h answers ended w
  = (if ended then Versioned.Exited 0 else Versioned.Waiting)
      (told w (Versioned.Shared <$>
                 (reprompts (length answers) ++ [AskVersion]))).
Proof.
  intros Hnode Htheme Hman Hrej.
  rewrite (versioned_checks_pass h _ ended w content m Hnode Htheme Hman).
  rewrite (prompt_none_accepted answers Hrej).
  unfold Versioned.andThen, Versioned.say, Versioned.wait.
  by destruct ended.
Qed.

Lemma no_version_no_install_witness :
  let d := Dir {[ themeLiquidPath := lit "<head></head>" ]}
               (Some (Doc (JObj []))) in
  let w := Versioned.World d false [] in
  Versioned.installTailwindCSS npm_host [lit "three"; lit ""; lit "34"] true w
  = Versioned.Exited 0
      (told w (Versioned.Shared <$> (reprompts 3 ++ [AskVersion]))).
Proof.
  intros d w.
  apply (no_version_no_install npm_host w (lit "<head></head>")
           (Doc (JObj [])) [lit "three"; lit ""; lit "34"] true);
    by vm_compute.
Defined.

(** X23.  The checks of [part_000] come before the prompt: without [node]
    on the path, or outside a theme (no [layout/theme.liquid]), the
    installer exits with status 1 after the one line of the check that
    failed, whatever is typed; the question is never printed, no command
    runs and the directory is as it was. *)
Theorem checks_come_before_the_prompt h w answers ended :
  node_on_path h = false \/
  texts (Versioned.here w) !! themeLiquidPath = None ->
  Versioned.installTailwindCSS h answers ended w
  = Versioned.Exited 1
      (told w [Versioned.Shared
                 (if node_on_path h then NotShopify else NodeMissing)]).
Proof.
  intros Hor. unfold Versioned.installTailwindCSS.
  destruct (node_on_path h) eqn:Hnode; cbn [negb].
  - destruct Hor as [Hno|Htheme]; [discriminate Hno|].
    unfold Versioned.andThen at 1. unfold Versioned.pure at 1.
    unfold Versioned.andThen at 1. unfold Versioned.isShopifyProject.
    rewrite (lift_Ret _ w false (State (Versioned.here w) [])).
    2:{ by apply (existsSync_none _ _ theme_is_text). }
    cbn [cwd printed fmap list_fmap negb].
    change (Versioned.World (Versioned.here w) (Versioned.assets w)
              (Versioned.shown w ++ [])) with (told w []).
    rewrite (told_nil w). reflexivity.
  - reflexivity.
Qed.

Lemma checks_come_before_the_prompt_witness :
  let w := Versioned.World (one_file "README.md" (lit "a theme")) true [] in
  Versioned.installTailwindCSS npm_host [lit "3"] false w
  = Versioned.Exited 1 (told w [Versioned.Shared NotShopify]).
Proof.
  intros w.
  apply (checks_come_before_the_prompt npm_host w [lit "3"] false).
  right. by vm_compute.
Defined.

(** ** The version 3 installer of [part_000] *)

Section VersionedV3.

Import Versioned.
Implicit Types (w : world).

(** An ignore file of [part_001], reconciled from [part_000]. *)
Lemma versioned_ignore path required create w :
  In (path, required, create) ignoreFiles ->
  exists w1,
    lift create w = Done tt w1 /\
    package_json (here w1) = package_json (here w) /\
    assets w1 = assets w /\
    (forall p, p <> path -> texts (here w1) !! p = texts (here w) !! p) /\
    exists content,
      texts (here w1) !! path = Some content /\
      forall entry, In entry required -> includes content entry = true.
Proof.
  intros Hf.
  destruct (reconcile_frame path (ignore_block required) required
              (State (here w) []) (ignoreFiles_text _ _ _ Hf))
    as (s1 & more & Hrun & Hm & Ht & _).
  rewrite <- (ignoreFiles_run _ _ _ _ Hf) in Hrun.
  rewrite (lift_Ret _ w tt s1 Hrun). eexists. split; [done|].
  cbn [here assets]. split; [done|]. split; [done|]. split; [done|].
  apply (ignore_after path required create _ s1 Hf Hrun).
Qed.

(** The files of the configuration: the template written over
    [tailwind.config.js], and [tailwind-config.css] created when absent. *)
Lemma v3_files_run {B} (k : P B) w :
  andThen (echo GeneratingV3Config) (fun _ =>
  andThen (Versioned.writeFileSync configFilePath customConfig) (fun _ =>
  andThen (echo (Shared ConfigCreated)) (fun _ =>
  andThen (Versioned.existsSync stylesPath) (fun hasStyles =>
  andThen
    (if negb hasStyles then
       andThen (Versioned.writeFileSync stylesPath stylesTemplate)
         (fun _ => echo (Shared StylesCreated))
     else echo (Shared StylesExists)) (fun _ => k))))) w
  = k match texts (here w) !! stylesPath with
      | Some _ =>
          told (put w configFilePath customConfig [])
            [GeneratingV3Config; Shared ConfigCreated; Shared StylesExists]
      | None =>
          told (put (put w configFilePath customConfig []) stylesPath
                  stylesTemplate [])
            [GeneratingV3Config; Shared ConfigCreated; Shared StylesCreated]
      end.
Proof.
  unfold andThen at 1. unfold echo at 1.
  unfold andThen at 1. rewrite writeFileSync_top by done.
  unfold andThen at 1. unfold echo at 1.
  unfold andThen at 1. rewrite existsSync_file by done.
  cbn [put here assets shown texts].
  rewrite lookup_insert_ne by distinct_paths.
  destruct (texts (here w) !! stylesPath) as [old|] eqn:Hfile.
  - rewrite bool_decide_true by done. cbn [negb].
    unfold andThen at 1. unfold echo at 1. f_equal. unfold told, put.
    cbn [here assets shown texts package_json].
    by rewrite ?app_nil_r, <- ?app_assoc.
  - rewrite bool_decide_false by (by intros [? ?]). cbn [negb].
    unfold andThen at 1. unfold andThen at 1.
    rewrite writeFileSync_top by done. unfold echo at 1. f_equal.
    unfold told, put. cbn [here assets shown texts package_json].
    by rewrite ?app_nil_r, <- ?app_assoc.
Qed.

(** The dependency install of version 3: the installer goes on only when
    the command succeeded. *)
Lemma v3_command_run h w code d :
  run_command h v3Command (here w) = (code, d) ->
  installTailwindV3 h w
  = if code =? 0 then
      andThen (echo GeneratingV3Config) (fun _ =>
      andThen (Versioned.writeFileSync configFilePath customConfig) (fun _ =>
      andThen (echo (Shared ConfigCreated)) (fun _ =>
      andThen (Versioned.existsSync stylesPath) (fun hasStyles =>
      andThen
        (if negb hasStyles then
           andThen (Versioned.writeFileSync stylesPath stylesTemplate)
             (fun _ => echo (Shared StylesCreated))
         else echo (Shared StylesExists)) (fun _ =>
      andThen (setBuildScript buildCommand) (fun _ =>
      andThen (addTailwindToThemeLiquid None) (fun _ =>
      andThen createGitIgnore (fun _ =>
      andThen createShopifyIgnore (fun _ =>
      andThen (echo InstalledV3) (fun _ =>
      echo (Shared HintBuild)))))))))))
        (World d (assets w) (shown w ++ [InstallingV3]))
    else Exited 1 (World d (assets w)
                     (shown w ++ [InstallingV3; InstallV3Failed])).
Proof.
  intros Hrun. unfold installTailwindV3.
  unfold andThen at 1. unfold echo at 1.
  unfold andThen at 1. unfold lift at 1, exec.
  cbn [here assets shown cwd printed]. rewrite Hrun.
  cbn [cwd printed fmap list_fmap]. rewrite app_nil_r.
  destruct (code =? 0); cbn [negb].
  - unfold andThen at 1. unfold pure at 1. reflexivity.
  - unfold andThen at 1. unfold andThen at 1. unfold echo at 1, exit.
    cbn [here assets shown]. by rewrite <- app_assoc.
Qed.

End VersionedV3.

(** X24.  A version 3 install of [part_000] that returned went past a
    successful dependency install and leaves: [tailwind.config.js] with the
    template, whatever it held; [tailwind-config.css] with what the command
    left of it, or with the template when there was none; a manifest that
    parses, with the build command under [scripts.tailwind] when [scripts]
    is an object, whatever entry was there; a template that, if there is
    one, holds the version 3 reference; and both ignore files, each with
    every one of its entries.  It has written to no other text file than
    these five, and has not created the directory [assets]. *)
Theorem v3_sets_up h w code d w1 :
  run_command h Versioned.v3Command (Versioned.here w) = (code, d) ->
  Versioned.installTailwindV3 h w = Versioned.Done tt w1 ->
  code = 0 /\
  texts (Versioned.here w1) !! configFilePath = Some customConfig /\
  texts (Versioned.here w1) !! stylesPath
  = Some (default stylesTemplate (texts d !! stylesPath)) /\
  (exists v,
     package_json (Versioned.here w1) = Some (Doc v) /\
     forall ss, get_member v (lit "scripts") = Some (JObj ss) ->
                assoc (lit "tailwind") ss = Some (JStr buildCommand)) /\
  (forall t, texts (Versioned.here w1) !! themeLiquidPath = Some t ->
             includes t (Versioned.linkTag (lit "3")) = true) /\
  (forall path required create,
     In (path, required, create) ignoreFiles ->
     exists content,
       texts (Versioned.here w1) !! path = Some content /\
       forall entry, In entry required -> includes content entry = true) /\
  Versioned.assets w1 = Versioned.assets w /\
  (forall p, p <> configFilePath -> p <> stylesPath ->
             p <> themeLiquidPath -> p <> gitIgnorePath ->
             p <> shopifyIgnorePath ->
             texts (Versioned.here w1) !! p = texts d !! p).
Proof.
  intros Hrun Hdone.
  rewrite (v3_command_run h w code d Hrun) in Hdone.
  destruct (code =? 0) eqn:E; [|discriminate Hdone].
  apply Z.eqb_eq in E. split; [done|].
  rewrite v3_files_run in Hdone.
  set (wa := Versioned.World d (Versioned.assets w)
               (Versioned.shown w ++ [Versioned.InstallingV3])) in Hdone.
  set (wf := match texts (Versioned.here wa) !! stylesPath with
             | Some _ => _ | None => _ end) in Hdone.
  assert (texts (Versioned.here wf) !! configFilePath = Some customConfig /\
          texts (Versioned.here wf) !! stylesPath
          = Some (default stylesTemplate (texts d !! stylesPath)) /\
          Versioned.assets wf = Versioned.assets w /\
          forall p, p <> configFilePath -> p <> stylesPath ->
                    texts (Versioned.here wf) !! p = texts d !! p)
    as (Hcfg & Hsty & Hassets & Hother).
  { subst wf wa. cbn [Versioned.here].
    destruct (texts d !! stylesPath) as [old|] eqn:Hfile;
      cbn [told put Versioned.here Versioned.assets texts default].
    - rewrite lookup_insert_eq, lookup_insert_ne by distinct_paths.
      repeat split; try done. intros p Hc Hs. by rewrite lookup_insert_ne.
    - rewrite lookup_insert_eq, lookup_insert_ne by distinct_paths.
      rewrite lookup_insert_eq.
      repeat split; try done. intros p Hc Hs. by rewrite !lookup_insert_ne. }
  clearbody wf. clear wa.
  apply andThen_Done in Hdone as ([] & ws & Hset & Hdone).
  apply andThen_Done in Hdone as ([] & wp & Hpatch & Hdone).
  apply andThen_Done in Hdone as ([] & wg & Hgit & Hdone).
  apply andThen_Done in Hdone as ([] & wi & Hign & Hdone).
  injection Hdone as <-. cbn [Versioned.here Versioned.assets].
  destruct (setBuildScript_Done _ _ _ Hset) as (v & Hv & Hscript).
  destruct (setBuildScript_frame buildCommand wf) as [Hst Hsa].
  rewrite Hset in Hst, Hsa. cbn [Versioned.last] in Hst, Hsa.
  destruct (versioned_patch_total None ws) as (wp' & Hpatch' & Hpm & Hpa & Hpt).
  rewrite Hpatch in Hpatch'. injection Hpatch' as <-.
  destruct (versioned_ignore gitIgnorePath gitIgnoreLines
              Pinned.createGitIgnore wp ltac:(by left))
    as (wg' & Hgit' & Hgm & Hga & Hgt & Hgc).
  unfold Versioned.createGitIgnore in Hgit.
  rewrite Hgit in Hgit'. injection Hgit' as <-.
  destruct (versioned_ignore shopifyIgnorePath shopifyIgnoreLines
              Pinned.createShopifyIgnore wg ltac:(by right; left))
    as (wi' & Hign' & Him & Hia & Hit & Hic).
  unfold Versioned.createShopifyIgnore in Hign.
  rewrite Hign in Hign'. injection Hign' as <-.
  split; [|split; [|split; [|split; [|split; [|split]]]]].
  - rewrite Hit, Hgt, Hpt, Hst by distinct_paths. done.
  - rewrite Hit, Hgt, Hpt, Hst by distinct_paths. done.
  - exists v. by rewrite Him, Hgm, Hpm.
  - intros t. rewrite Hit, Hgt by distinct_paths. intros Ht.
    destruct (texts (Versioned.here ws) !! themeLiquidPath) as [content|]
      eqn:Hfile.
    + destruct (versioned_patched_holds_link None ws wp content Hfile Hpatch)
        as (c1 & Hc1 & Hin).
      rewrite Hc1 in Ht. by injection Ht as <-.
    + rewrite (versioned_patch_missing _ ws Hfile) in Hpatch.
      injection Hpatch as <-. cbn [told Versioned.here] in Ht. congruence.
  - intros path required create [Hf|[Hf|[]]]; injection Hf as <- <- <-.
    + destruct Hgc as (c & Hc & Hall). exists c.
      by rewrite Hit by distinct_paths.
    + done.
  - by rewrite Hia, Hga, Hpa, Hsa.
  - intros p Hc Hs Ht Hg Hi. rewrite Hit, Hgt, Hpt, Hst by done.
    by apply Hother.
Qed.

Lemma v3_sets_up_witness :
  let d := Dir {[ themeLiquidPath := lit "<head></head>" ]}
               (Some (Doc npm_init_manifest)) in
  let w := Versioned.World d false [] in
  let h := Host true (fun _ d' => (0, d')) in
  let w1 := Versioned.last (Versioned.installTailwindV3 h w) in
  0 = 0 /\
  texts (Versioned.here w1) !! configFilePath = Some customConfig /\
  texts (Versioned.here w1) !! stylesPath
  = Some (default stylesTemplate (texts d !! stylesPath)) /\
  (exists v,
     package_json (Versioned.here w1) = Some (Doc v) /\
     forall ss, get_member v (lit "scripts") = Some (JObj ss) ->
                assoc (lit "tailwind") ss = Some (JStr buildCommand)) /\
  (forall t, texts (Versioned.here w1) !! themeLiquidPath = Some t ->
             includes t (Versioned.linkTag (lit "3")) = true) /\
  (forall path required create,
     In (path, required, create) ignoreFiles ->
     exists content,
       texts (Versioned.here w1) !! path = Some content /\
       forall entry, In entry required -> includes content entry = true) /\
  Versioned.assets w1 = Versioned.assets w /\
  (forall p, p <> configFilePath -> p <> stylesPath ->
             p <> themeLiquidPath -> p <> gitIgnorePath ->
             p <> shopifyIgnorePath ->
             texts (Versioned.here w1) !! p = texts d !! p).
Proof.
  intros d w h w1. apply (v3_sets_up h w 0 d w1); [done|by vm_compute].
Defined.

(** X25.  When the dependency install of [part_000] fails (a status other
    than 0), the installer of either version prints its failure line and
    exits with status 1, leaving the directory as the command left it:
    nothing is written, no build script set, no template patched. *)
Theorem dependency_failure_exits (v3 : bool) h w code d :
  run_command h (if v3 then Versioned.v3Command else Versioned.v4Command)
    (Versioned.here w) = (code, d) ->
  code <> 0 ->
  (if v3 then Versioned.installTailwindV3 h else Versioned.installTailwindV4 h)
    w
  = Versioned.Exited 1
      (Versioned.World d (Versioned.assets w)
         (Versioned.shown w ++
            if v3 then [Versioned.InstallingV3; Versioned.InstallV3Failed]
            else [Versioned.InstallingV4; Versioned.InstallV4Failed])).
Proof.
  intros Hrun Hcode. apply Z.eqb_neq in Hcode. destruct v3.
  - by rewrite (v3_command_run h w code d Hrun), Hcode.
  - rewrite installTailwindV4_phases. unfold Versioned.andThen at 1.
    by rewrite (v4_command_run h w code d Hrun), Hcode.
Qed.

Lemma dependency_failure_exits_witness :
  let d := Dir {[ themeLiquidPath := lit "<head></head>" ]}
               (Some (Doc (JObj []))) in
  let w := Versioned.World d false [] in
  let h := Host true (fun _ d' => (1, d')) in
  Versioned.installTailwindV4 h w
  = Versioned.Exited 1
      (Versioned.World d false
         [Versioned.InstallingV4; Versioned.InstallV4Failed]).
Proof.
  intros d w h. apply (dependency_failure_exits false h w 1 d); done.
Defined.

(** X26.  A version 4 install in a directory where [assets] is a regular
    file, not a directory, does not return: the existence test finds
    [assets], no directory is made, and writing
    [assets/tailwind-config.css] throws.  By then [.shopifyignore] has been
    written; the manifest and the template are as the dependency install
    left them, so no build script is set and no link inserted. *)
Theorem v4_assets_is_a_file h w d content :
  run_command h Versioned.v4Command (Versioned.here w) = (0, d) ->
  Versioned.assets w = false ->
  texts d !! Versioned.assetsPath = Some content ->
  exists w1,
    Versioned.installTailwindV4 h w = Versioned.Thrown Versioned.ENOTDIR w1 /\
    Versioned.assets w1 = false /\
    package_json (Versioned.here w1) = package_json d /\
    is_Some (texts (Versioned.here w1) !! shopifyIgnorePath) /\
    forall p, p <> shopifyIgnorePath ->
              texts (Versioned.here w1) !! p = texts d !! p.
Proof.
  intros Hrun Ha Hfile.
  rewrite (v4_after_command h w d Hrun). cbv zeta.
  set (w1 := Versioned.World d _ _).
  set (w2 := match texts d !! shopifyIgnorePath with
             | Some old => _ | None => _ end).
  assert (Versioned.assets w2 = false /\
          package_json (Versioned.here w2) = package_json d /\
          is_Some (texts (Versioned.here w2) !! shopifyIgnorePath) /\
          forall p, p <> shopifyIgnorePath ->
                    texts (Versioned.here w2) !! p = texts d !! p)
    as (Ha2 & Hm2 & Hi2 & Ht2).
  { subst w2 w1. destruct (texts d !! shopifyIgnorePath) as [old|] eqn:Hign;
      [destruct (includes old (lit "package.json"))|];
      cbn [put Versioned.here Versioned.assets texts package_json];
      rewrite ?lookup_insert_eq, ?Hign; repeat split; try done;
      intros p Hp; by rewrite lookup_insert_ne. }
  clearbody w2. clear w1.
  exists (told w2 [Versioned.ShopifyIgnoreUpdated]).
  split; [|by cbn [told Versioned.here Versioned.assets]].
  unfold v4_rest. unfold Versioned.andThen at 1. unfold Versioned.echo at 1.
  unfold Versioned.andThen at 1. rewrite existsSync_assets.
  cbn [Versioned.here Versioned.assets]. rewrite Ha2.
  rewrite (Ht2 Versioned.assetsPath) by done. rewrite Hfile.
  rewrite bool_decide_true by done. cbn [orb negb].
  unfold Versioned.andThen at 1. unfold Versioned.pure at 1.
  unfold Versioned.andThen at 1.
  rewrite writeFileSync_notdir; [|done|done|].
  - unfold told. by rewrite Ha2.
  - cbn [Versioned.here]. rewrite (Ht2 Versioned.assetsPath) by done.
    by rewrite Hfile.
Qed.

Lemma v4_assets_is_a_file_witness :
  let d := Dir {[ themeLiquidPath := lit "<head></head>";
                  Versioned.assetsPath := lit "not a folder" ]}
               (Some (Doc (JObj []))) in
  let w := Versioned.World d false [] in
  let h := Host true (fun _ d' => (0, d')) in
  exists w1,
    Versioned.installTailwindV4 h w = Versioned.Thrown Versioned.ENOTDIR w1 /\
    Versioned.assets w1 = false /\
    package_json (Versioned.here w1) = package_json d /\
    is_Some (texts (Versioned.here w1) !! shopifyIgnorePath) /\
    forall p, p <> shopifyIgnorePath ->
              texts (Versioned.here w1) !! p = texts d !! p.
Proof.
  intros d w h.
  apply (v4_assets_is_a_file h w d (lit "not a folder")); by vm_compute.
Defined.
